(** * TCP flow forensics: a shallow embedding of the frame-analysis scripts

    The scripts of [frame-analysis-examples] read a capture, decode every
    frame into a TCP segment and run a per-segment analysis over per-flow
    state.  Frame decoding (dpkt/scapy) is an external collaborator: the
    embedding consumes already decoded [Segment] records, and, for the
    engines that also count the frames that carry no TCP segment
    (pcap_analyzer_v5, v9 and v10), decoded [Frame]s.

    Modelling conventions.
    - Python floats (timestamps, RTTs, probabilities) are modelled by exact
      rationals [Q]; integers (sequence numbers, windows, counters) by [Z].
    - A Python [dict] is a stdpp [gmap], a [set] a [gset], a [list] that is
      only appended to is a Rocq [list] extended with [l ++ [x]].
    - [collections.defaultdict] reads are a lookup with the factory value as
      default, followed by the insertion the read performs.
    - An exception the code could raise is an [option] result ([None]).
    - [numpy.std] (a square root) is a parameter [std] of the functions that
      call it: the statements below hold for every choice of it. *)

From Stdlib Require Import QArith Qabs Qminmax ZArith List String Permutation Sorted.
From stdpp Require Import base gmap sets list strings pretty.

Open Scope Q_scope.

(* ------------------------------------------------------------------ *)
(** ** Decoded segments and TCP flag bits (dpkt.tcp.TH_* ) *)

Record Segment := mkSegment {
  seg_ts : Q;            (** capture timestamp, seconds *)
  seg_src : string;      (** inet_to_str(ip.src) *)
  seg_sport : Z;
  seg_dst : string;
  seg_dport : Z;
  seg_seq : Z;           (** tcp.seq *)
  seg_ack : Z;           (** tcp.ack *)
  seg_flags : Z;         (** tcp.flags *)
  seg_win : Z;           (** tcp.win *)
  seg_payload_len : Z;   (** len(tcp.data) *)
  seg_wire_len : Z       (** len(buf) *)
}.

Definition TH_FIN : Z := 1%Z.
Definition TH_SYN : Z := 2%Z.
Definition TH_RST : Z := 4%Z.
Definition TH_PUSH : Z := 8%Z.
Definition TH_ACK : Z := 16%Z.

(** Python truthiness of [flags & bit]. *)
Definition has_flag (flags bit : Z) : bool := negb (Z.eqb (Z.land flags bit) 0).

(** A captured frame as the parsers classify it: a TCP segment over IPv4
    ([v6 = false]) or IPv6, a UDP datagram or another IP payload (each with
    the frame's timestamp, IP source address and [len(buf)]), or a frame
    that carries no IP packet.  A TCP frame's timestamp, source address and
    length are those of its segment. *)
Inductive Frame :=
| TcpFrame (v6 : bool) (s : Segment)
| UdpFrame (v6 : bool) (ts : Q) (src : string) (len : Z)
| OtherIpFrame (v6 : bool) (ts : Q) (src : string) (len : Z)
| NonIpFrame (ts : Q) (len : Z).

(** The pcap record's timestamp. *)
Definition frame_ts (fr : Frame) : Q :=
  match fr with
  | TcpFrame _ s => seg_ts s
  | UdpFrame _ ts _ _ | OtherIpFrame _ ts _ _ | NonIpFrame ts _ => ts
  end.

(** [len(buf)] *)
Definition frame_len (fr : Frame) : Z :=
  match fr with
  | TcpFrame _ s => seg_wire_len s
  | UdpFrame _ _ _ len | OtherIpFrame _ _ _ len | NonIpFrame _ len => len
  end.

(** The IP source address, for a frame that carries an IP packet. *)
Definition frame_ip_src (fr : Frame) : option string :=
  match fr with
  | TcpFrame _ s => Some (seg_src s)
  | UdpFrame _ _ src _ | OtherIpFrame _ _ src _ => Some src
  | NonIpFrame _ _ => None
  end.

(** The TCP segment of a frame, over IPv4 or IPv6. *)
Definition frame_segment (fr : Frame) : option Segment :=
  match fr with
  | TcpFrame _ s => Some s
  | _ => None
  end.

(** The TCP segment of an IPv4 frame ([isinstance(eth.data, dpkt.ip.IP)]
    and [isinstance(ip.data, dpkt.tcp.TCP)]). *)
Definition frame_segment4 (fr : Frame) : option Segment :=
  match fr with
  | TcpFrame false s => Some s
  | _ => None
  end.

(** Strict comparison on [Q] as a boolean. *)
Definition qltb (x y : Q) : bool := negb (Qle_bool y x).

(** [numpy.mean] / [statistics.mean] over a non-empty list, and [max]. *)
Definition qsum (l : list Q) : Q := fold_right Qplus 0 l.
Definition qmean (l : list Q) : Q := qsum l / inject_Z (Z.of_nat (length l)).
Definition qmax (l : list Q) : Q :=
  match l with
  | [] => 0
  | x :: r => fold_left Qmax r x
  end.

(* ------------------------------------------------------------------ *)
(** ** analyze_and_generate_report.py: per-directional-flow metrics *)

Module Report.

Definition RTT_JITTER_THRESH : Q := 5 # 100.
Definition MIN_RTT_SAMPLES : nat := 3%nat.
Definition RTO_HEURISTIC_THRESH : Q := 1.

(** class FlowMetrics *)
Record FlowMetrics := mkFM {
  count : Z;
  payload_bytes : Z;
  retrans : Z;
  rto_cnt : Z;
  cont_retrans : Z;
  small_win_cnt : Z;
  wins : list Z;
  timestamps : list Q;
  rtt_samples : list Q;
  win_ts : list (Q * Z);
  seen_seqs : gset Z;
  last_seq : option Z;
  max_seq : Z
}.

Definition new_FlowMetrics : FlowMetrics :=
  mkFM 0 0 0 0 0 0 [] [] [] [] ∅ None 0.

(** The value [calculate_probabilities] returns:
    (p_c, p_n, p_s, rtt_avg, rtt_max, rtt_std, avg_win). *)
Record Probabilities := mkProb {
  p_c : Q; p_n : Q; p_s : Q;
  rtt_avg : Q; rtt_max : Q; rtt_std : Q; avg_win : Q
}.

Section Scorer.
Variable std : list Q -> Q.

(** calculate_probabilities(fm); [None] is the ZeroDivisionError that
    [fm.retrans / fm.count] raises when [count = 0]. *)
Definition calculate_probabilities (fm : FlowMetrics) : option Probabilities :=
  let avg_win := match wins fm with
                 | [] => 0
                 | ws => qmean (map inject_Z ws)
                 end in
  let '(rtt_avg, rtt_max, rtt_std) :=
    if (MIN_RTT_SAMPLES <=? length (rtt_samples fm))%nat
    then (qmean (rtt_samples fm), qmax (rtt_samples fm), std (rtt_samples fm))
    else (0, 0, 0) in
  (* 1. small window *)
  let '(sc, sn, ss) :=
    if qltb avg_win 500 && Z.ltb 10 (count fm)
    then (0 + (2 # 10), 0, 0 + (6 # 10)) else (0, 0, 0) in
  (* 2. retransmissions *)
  let r :=
    if Z.ltb 0 (retrans fm) then
      if Z.eqb (count fm) 0 then None
      else let ratio := inject_Z (retrans fm) / inject_Z (count fm) in
           Some (sc, sn + ratio * 10, ss + ratio * 2)
    else Some (sc, sn, ss) in
  match r with
  | None => None
  | Some (sc, sn, ss) =>
    (* 3. RTO *)
    let sn := if Z.ltb 0 (rto_cnt fm) then sn + inject_Z (rto_cnt fm) * (5 # 10) else sn in
    (* 4. jitter *)
    let sn := if qltb RTT_JITTER_THRESH rtt_std then sn + 1 else sn in
    let total := sc + sn + ss in
    if qltb total (1 # 1000)
    then Some (mkProb (33 # 100) (33 # 100) (34 # 100) rtt_avg rtt_max rtt_std avg_win)
    else Some (mkProb (sc / total) (sn / total) (ss / total) rtt_avg rtt_max rtt_std avg_win)
  end.

End Scorer.

(** Flow keys are (src_ip, sport, dst_ip, dport) tuples. *)
Abbreviation FlowKey := (string * Z * string * Z)%type.

(** The state analyze_pcap threads through its loop over the capture. *)
Record State := mkState {
  flows : gmap FlowKey FlowMetrics;              (** defaultdict(FlowMetrics) *)
  unacked_packets : gmap FlowKey (gmap Z Q);     (** defaultdict(dict) *)
  packet_count : Z
}.

Definition init_state : State := mkState ∅ ∅ 0.

(** [flows[k]] of the defaultdict, as a value. *)
Definition get_fm (m : gmap FlowKey FlowMetrics) (k : FlowKey) : FlowMetrics :=
  default new_FlowMetrics (m !! k).

(** Mutating the object [flows[k]] (created on first access). *)
Definition update_fm (k : FlowKey) (f : FlowMetrics -> FlowMetrics)
    (m : gmap FlowKey FlowMetrics) : gmap FlowKey FlowMetrics :=
  <[k := f (get_fm m k)]> m.

(** fm.count += 1; timestamps, wins, win_ts appended; payload_bytes. *)
Definition fm_observe (ts : Q) (win payload_len : Z) (fm : FlowMetrics) : FlowMetrics :=
  mkFM (count fm + 1)%Z (payload_bytes fm + payload_len)%Z (retrans fm) (rto_cnt fm)
    (cont_retrans fm) (small_win_cnt fm) (wins fm ++ [win]) (timestamps fm ++ [ts])
    (rtt_samples fm) (win_ts fm ++ [(ts, win)]) (seen_seqs fm) (last_seq fm) (max_seq fm).

(** flows[rev_flow_key].rtt_samples.append(rtt) *)
Definition fm_add_rtt (rtt : Q) (fm : FlowMetrics) : FlowMetrics :=
  mkFM (count fm) (payload_bytes fm) (retrans fm) (rto_cnt fm)
    (cont_retrans fm) (small_win_cnt fm) (wins fm) (timestamps fm)
    (rtt_samples fm ++ [rtt]) (win_ts fm) (seen_seqs fm) (last_seq fm) (max_seq fm).

(** The RTO test: [dt = ts - fm.timestamps[-2]; dt > RTO_HEURISTIC_THRESH],
    guarded by [len(fm.timestamps) > 1]. *)
Definition rto_hit (ts : Q) (fm : FlowMetrics) : bool :=
  let n := length (timestamps fm) in
  (1 <? n)%nat && qltb RTO_HEURISTIC_THRESH (ts - nth (n - 2) (timestamps fm) 0).

(** Block "2. retransmission and RTO detection" of analyze_pcap. *)
Definition fm_retrans_step (ts : Q) (seq payload_len flags : Z) (fm : FlowMetrics)
    : FlowMetrics :=
  if Z.ltb 0 payload_len then
    let '(re, cr, rto) :=
      if Z.leb payload_len 1 && has_flag flags TH_ACK then
        (retrans fm, cont_retrans fm, rto_cnt fm)
      else if bool_decide (seq ∈ seen_seqs fm) then
        ((retrans fm + 1)%Z,
         (if bool_decide (last_seq fm = Some seq) then (cont_retrans fm + 1)%Z
          else cont_retrans fm),
         (if rto_hit ts fm then (rto_cnt fm + 1)%Z else rto_cnt fm))
      else (retrans fm, cont_retrans fm, rto_cnt fm) in
    mkFM (count fm) (payload_bytes fm) re rto cr (small_win_cnt fm) (wins fm)
      (timestamps fm) (rtt_samples fm) (win_ts fm) ({[seq]} ∪ seen_seqs fm)
      (Some seq) (Z.max (max_seq fm) seq)
  else fm.

(** Block "3. window analysis". *)
Definition fm_small_win (win flags : Z) (fm : FlowMetrics) : FlowMetrics :=
  if Z.ltb win 200 && negb (has_flag flags TH_SYN) && negb (has_flag flags TH_RST)
  then mkFM (count fm) (payload_bytes fm) (retrans fm) (rto_cnt fm) (cont_retrans fm)
         (small_win_cnt fm + 1)%Z (wins fm) (timestamps fm) (rtt_samples fm) (win_ts fm)
         (seen_seqs fm) (last_seq fm) (max_seq fm)
  else fm.

(** One iteration of the [for ts, buf in pcap] loop of analyze_pcap, on a
    decoded TCP segment. *)
Definition analyze_step (st : State) (s : Segment) : State :=
  let ts := seg_ts s in
  let flow_key := (seg_src s, seg_sport s, seg_dst s, seg_dport s) in
  let rev_flow_key := (seg_dst s, seg_dport s, seg_src s, seg_sport s) in
  let payload_len := seg_payload_len s in
  let seq := seg_seq s in
  let ack := seg_ack s in
  let flags := seg_flags s in
  let fl := update_fm flow_key (fm_observe ts (seg_win s) payload_len) (flows st) in
  (* 1. RTT: match this ACK against the reverse flow's pending segments *)
  let '(fl, un) :=
    if has_flag flags TH_ACK then
      let pending := default ∅ (unacked_packets st !! rev_flow_key) in
      match pending !! ack with
      | Some sent_ts =>
          let un := <[rev_flow_key := delete ack pending]> (unacked_packets st) in
          let rtt := ts - sent_ts in
          if qltb 0 rtt && qltb rtt 10
          then (update_fm rev_flow_key (fm_add_rtt rtt) fl, un)
          else (fl, un)
      | None => (fl, unacked_packets st)
      end
    else (fl, unacked_packets st) in
  (* remember the ACK this data segment expects *)
  let un :=
    if Z.ltb 0 payload_len then
      <[flow_key := <[(seq + payload_len)%Z := ts]> (default ∅ (un !! flow_key))]> un
    else un in
  (* 2. retransmission / RTO, 3. window *)
  let fl := update_fm flow_key (fm_retrans_step ts seq payload_len flags) fl in
  let fl := update_fm flow_key (fm_small_win (seg_win s) flags) fl in
  mkState fl un (packet_count st + 1)%Z.

Definition analyze_pcap (segs : list Segment) : State :=
  fold_left analyze_step segs init_state.

End Report.

(* ------------------------------------------------------------------ *)
(** ** tcp_professional_report.py: compute_flow_metrics *)

Module Professional.

Definition RTT_JITTER_THRESH : Q := 3 # 100.

(** The fields of the per-flow [stats] dict that compute_flow_metrics reads. *)
Record Stats := mkStats {
  st_wins : list Z;
  st_seq_ack_time : list (Q * Q);
  st_rto : Z;
  st_retrans : Z;
  st_cont_retrans : Z
}.

(** The dict compute_flow_metrics returns. *)
Record Metrics := mkMetrics {
  m_avg_win : Q; m_rtt_avg : Q; m_rtt_max : Q; m_rtt_jitter : Q;
  m_client : Q; m_network : Q; m_server : Q
}.

Section Scorer.
Variable std : list Q -> Q.

Definition compute_flow_metrics (stats : Stats) : Metrics :=
  let avg_win := match st_wins stats with
                 | [] => 0
                 | ws => qmean (map inject_Z ws)
                 end in
  let rtt_list := map (fun '(ts, ack_ts) => ack_ts - ts) (st_seq_ack_time stats) in
  let rtt_avg := match rtt_list with [] => 0 | _ => qmean rtt_list end in
  let rtt_max := match rtt_list with [] => 0 | _ => qmax rtt_list end in
  let rtt_jitter := match rtt_list with [] => 0 | _ => std rtt_list end in
  let rto_w := 45 # 100 in
  let cont_retrans_w := 2 # 10 in
  let retrans_w := 15 # 100 in
  let win_w := 1 # 10 in
  let rtt_w := 1 # 10 in
  let '(pc, pn, ps) :=
    if negb (Qeq_bool avg_win 0) && qltb avg_win 200
    then (0 + win_w, 0 + win_w * (4 # 10), 0 + win_w * (2 # 10)) else (0, 0, 0) in
  let rto := inject_Z (st_rto stats) in
  let pn := pn + rto * rto_w in
  let pc := pc + rto * rto_w * (4 # 10) in
  let ps := ps + rto * rto_w * (2 # 10) in
  let re := inject_Z (st_retrans stats) in
  let pn := pn + re * retrans_w in
  let pc := pc + re * retrans_w * (4 # 10) in
  let ps := ps + re * retrans_w * (2 # 10) in
  let cr := inject_Z (st_cont_retrans stats) in
  let pn := pn + cr * cont_retrans_w in
  let pc := pc + cr * cont_retrans_w * (3 # 10) in
  let ps := ps + cr * cont_retrans_w * (1 # 10) in
  let '(pc, pn, ps) :=
    if qltb RTT_JITTER_THRESH rtt_jitter
    then (pc + rtt_w * (4 # 10), pn + rtt_w, ps + rtt_w * (2 # 10)) else (pc, pn, ps) in
  let total := pc + pn + ps in
  if qltb 0 total
  then mkMetrics avg_win rtt_avg rtt_max rtt_jitter (pc / total) (pn / total) (ps / total)
  else mkMetrics avg_win rtt_avg rtt_max rtt_jitter (1 / 3) (1 / 3) (1 / 3).

End Scorer.

End Professional.

(* ------------------------------------------------------------------ *)
(** ** pcap_analyzer_v4.py: per-directional-flow analyzers *)

Module V4.

Abbreviation FlowKey := (string * Z * string * Z)%type.

(** @dataclass FlowMetrics *)
Record FlowMetrics := mkFM {
  src : string; sport : Z; dst : string; dport : Z;
  packet_count : Z; byte_count : Z;
  syn_count : Z; syn_ack_count : Z; fin_count : Z; rst_count : Z;
  unacked_packets : gmap Z Q;
  rtt_samples : list Q;
  last_packet_ts : Q;
  jitter_samples : list Q;
  retransmissions : Z; out_of_order : Z; zero_window_count : Z;
  seen_seqs : gset Z;
  max_seq : Z
}.

Definition new_FlowMetrics (src : string) (sport : Z) (dst : string) (dport : Z)
    : FlowMetrics :=
  mkFM src sport dst dport 0 0 0 0 0 0 ∅ [] 0 [] 0 0 0 ∅ 0.

(** BasicStatsAnalyzer.process *)
Definition basic_process (flags pkt_len : Z) (f : FlowMetrics) : FlowMetrics :=
  let syn := has_flag flags TH_SYN in
  let ack := has_flag flags TH_ACK in
  mkFM (src f) (sport f) (dst f) (dport f) (packet_count f + 1)%Z (byte_count f + pkt_len)%Z
    (if syn && negb ack then syn_count f + 1 else syn_count f)%Z
    (if syn && ack then syn_ack_count f + 1 else syn_ack_count f)%Z
    (if has_flag flags TH_FIN then fin_count f + 1 else fin_count f)%Z
    (if has_flag flags TH_RST then rst_count f + 1 else rst_count f)%Z
    (unacked_packets f) (rtt_samples f) (last_packet_ts f) (jitter_samples f)
    (retransmissions f) (out_of_order f) (zero_window_count f) (seen_seqs f) (max_seq f).

(** [rev_flow.unacked_packets.pop(ack)] and, when the RTT passes the
    sanity filter, [rev_flow.rtt_samples.append(rtt)]. *)
Definition resolve_ack (ack : Z) (rtt_ok : bool) (rtt : Q) (f : FlowMetrics) : FlowMetrics :=
  mkFM (src f) (sport f) (dst f) (dport f) (packet_count f) (byte_count f)
    (syn_count f) (syn_ack_count f) (fin_count f) (rst_count f)
    (delete ack (unacked_packets f))
    (if rtt_ok then rtt_samples f ++ [rtt] else rtt_samples f)
    (last_packet_ts f) (jitter_samples f)
    (retransmissions f) (out_of_order f) (zero_window_count f) (seen_seqs f) (max_seq f).

(** RTTAnalyzer.process *)
Definition rtt_process (seq payload_len : Z) (ts : Q) (f : FlowMetrics) : FlowMetrics :=
  let unacked :=
    if Z.ltb 0 payload_len then
      if bool_decide (seq ∉ seen_seqs f)
      then <[(seq + payload_len)%Z := ts]> (unacked_packets f)
      else unacked_packets f
    else unacked_packets f in
  let jitter :=
    if qltb 0 (last_packet_ts f) then
      let delta := ts - last_packet_ts f in
      if qltb delta 1 then jitter_samples f ++ [delta] else jitter_samples f
    else jitter_samples f in
  mkFM (src f) (sport f) (dst f) (dport f) (packet_count f) (byte_count f)
    (syn_count f) (syn_ack_count f) (fin_count f) (rst_count f)
    unacked (rtt_samples f) ts jitter
    (retransmissions f) (out_of_order f) (zero_window_count f) (seen_seqs f) (max_seq f).

(** AnomalyDetector.process, statement by statement: the zero-window test,
    the membership test that adds [seq] to [seen_seqs], then the
    out-of-order test on the updated set, then the high-water mark. *)
Definition anomaly_process (seq payload_len win flags : Z) (f : FlowMetrics)
    : FlowMetrics :=
  let zw := if Z.eqb win 0 && negb (has_flag flags TH_RST)
            then (zero_window_count f + 1)%Z else zero_window_count f in
  if Z.ltb 0 payload_len then
    let '(re, seen) :=
      if bool_decide (seq ∈ seen_seqs f)
      then ((retransmissions f + 1)%Z, seen_seqs f)
      else (retransmissions f, {[seq]} ∪ seen_seqs f) in
    let ooo := if Z.ltb seq (max_seq f) && bool_decide (seq ∉ seen)
               then (out_of_order f + 1)%Z else out_of_order f in
    let ms := if Z.ltb (max_seq f) seq then seq else max_seq f in
    mkFM (src f) (sport f) (dst f) (dport f) (packet_count f) (byte_count f)
      (syn_count f) (syn_ack_count f) (fin_count f) (rst_count f)
      (unacked_packets f) (rtt_samples f) (last_packet_ts f) (jitter_samples f)
      re ooo zw seen ms
  else
    mkFM (src f) (sport f) (dst f) (dport f) (packet_count f) (byte_count f)
      (syn_count f) (syn_ack_count f) (fin_count f) (rst_count f)
      (unacked_packets f) (rtt_samples f) (last_packet_ts f) (jitter_samples f)
      (retransmissions f) (out_of_order f) zw (seen_seqs f) (max_seq f).

(** class GlobalState *)
Record GlobalState := mkGS {
  start_ts : Q; end_ts : Q; total_packets : Z;
  flows : gmap FlowKey FlowMetrics
}.

Definition init_state : GlobalState := mkGS 0 0 0 ∅.

(** [state.flows[k]]; only read after the key has been created. *)
Definition get_flow (m : gmap FlowKey FlowMetrics) (k : FlowKey) : FlowMetrics :=
  default (new_FlowMetrics EmptyString 0 EmptyString 0) (m !! k).

Definition modify (k : FlowKey) (g : FlowMetrics -> FlowMetrics)
    (m : gmap FlowKey FlowMetrics) : gmap FlowKey FlowMetrics :=
  <[k := g (get_flow m k)]> m.

(** StreamAnalyzer.process_packet on a decoded segment.  [flow] and
    [rev_flow] are the map entries; every mutation goes through the map,
    so the two coincide when the key is its own reverse. *)
Definition process_packet (st : GlobalState) (s : Segment) : GlobalState :=
  let ts := seg_ts s in
  let flow_key := (seg_src s, seg_sport s, seg_dst s, seg_dport s) in
  let rev_flow_key := (seg_dst s, seg_dport s, seg_src s, seg_sport s) in
  let m := flows st in
  let m := match m !! flow_key with
           | Some _ => m
           | None => <[flow_key := new_FlowMetrics (seg_src s) (seg_sport s)
                                     (seg_dst s) (seg_dport s)]> m
           end in
  let m := match m !! rev_flow_key with
           | Some _ => m
           | None => <[rev_flow_key := new_FlowMetrics (seg_dst s) (seg_dport s)
                                         (seg_src s) (seg_sport s)]> m
           end in
  (* 1. basic stats *)
  let m := modify flow_key (basic_process (seg_flags s) (seg_wire_len s)) m in
  (* 2A. this packet ACKs data sent by the reverse flow *)
  let m :=
    if has_flag (seg_flags s) TH_ACK then
      match unacked_packets (get_flow m rev_flow_key) !! seg_ack s with
      | Some sent_ts =>
          let rtt := ts - sent_ts in
          modify rev_flow_key (resolve_ack (seg_ack s) (qltb 0 rtt && qltb rtt 5) rtt) m
      | None => m
      end
    else m in
  (* 2B. register the data for a future ACK *)
  let m := modify flow_key (rtt_process (seg_seq s) (seg_payload_len s) ts) m in
  (* 3. anomalies *)
  let m := modify flow_key
             (anomaly_process (seg_seq s) (seg_payload_len s) (seg_win s) (seg_flags s)) m in
  mkGS (if Qeq_bool (start_ts st) 0 then ts else start_ts st) ts
       (total_packets st + 1)%Z m.

Definition run (segs : list Segment) : GlobalState :=
  fold_left process_packet segs init_state.

End V4.

(* ------------------------------------------------------------------ *)
(** ** Endpoint order: Python tuple comparison on (ip_string, port) *)

Abbreviation Endpoint := (string * Z)%type.

(** [(ip1, p1) < (ip2, p2)]: lexicographic, strings by code point. *)
Definition endpoint_ltb (e1 e2 : Endpoint) : bool :=
  match String.compare e1.1 e2.1 with
  | Lt => true
  | Gt => false
  | Eq => Z.ltb e1.2 e2.2
  end.

(** The bidirectional session key of [main] in
    analyze_and_generate_report.py. *)
Definition session_key (k : string * Z * string * Z) : string * Z * string * Z :=
  let '(src_ip, sport, dst_ip, dport) := k in
  if endpoint_ltb (src_ip, sport) (dst_ip, dport)
  then (src_ip, sport, dst_ip, dport)
  else (dst_ip, dport, src_ip, sport).

(** [unique_sessions] built over [flows.keys()]; [total_tcp_sessions] is
    its size. *)
Definition unique_sessions (keys : list (string * Z * string * Z))
    : gset (string * Z * string * Z) :=
  fold_left (fun acc k => {[session_key k]} ∪ acc) keys ∅.

Definition total_tcp_sessions (keys : list (string * Z * string * Z)) : nat :=
  size (unique_sessions keys).

(** TrafficAnalyzer.get_stream_id of pcap_analyzer_v5.py on a TCP packet:
    [sorted([(src, sport), (dst, dport)])] (stable for equal endpoints) and
    the direction of the sender. *)
Definition get_stream_id (src : string) (sport : Z) (dst : string) (dport : Z)
    : (Endpoint * Endpoint) * Z :=
  let endpoints := if endpoint_ltb (dst, dport) (src, sport)
                   then ((dst, dport), (src, sport))
                   else ((src, sport), (dst, dport)) in
  let direction := if bool_decide ((src, sport) = endpoints.1) then 0%Z else 1%Z in
  (endpoints, direction).

(* ------------------------------------------------------------------ *)
(** ** pcap_analyzer_v5.py: StreamTracker.update *)

Module V5.

Record StreamTracker := mkST {
  packet_count : Z;
  bytes_transferred : Z;
  start_time : option Q;
  end_time : option Q;
  pending_acks : gmap Z Q;
  rtt_samples : list Q;
  seen_seqs : gset (Z * Z);
  retransmissions : Z;
  syn_count : Z; fin_count : Z; rst_count : Z
}.

Definition new_StreamTracker : StreamTracker :=
  mkST 0 0 None None ∅ [] ∅ 0 0 0 0.

(** StreamTracker.update(pkt, timestamp, direction_hash) on a TCP packet;
    RTT samples are in milliseconds. *)
Definition update (s : Segment) (timestamp : Q) (direction_hash : Z) (t : StreamTracker)
    : StreamTracker :=
  let start := match start_time t with None => Some timestamp | st => st end in
  let payload_len := seg_payload_len s in
  let flags := seg_flags s in
  let S := has_flag flags TH_SYN in
  let F := has_flag flags TH_FIN in
  let seq_key := (direction_hash, seg_seq s) in
  let '(re, seen) :=
    if Z.ltb 0 payload_len then
      if bool_decide (seq_key ∈ seen_seqs t)
      then ((retransmissions t + 1)%Z, seen_seqs t)
      else (retransmissions t, {[seq_key]} ∪ seen_seqs t)
    else (retransmissions t, seen_seqs t) in
  let expected_ack := (seg_seq s + payload_len + (if S then 1 else 0)
                       + (if F then 1 else 0))%Z in
  let pending := if Z.ltb 0 payload_len || S
                 then <[expected_ack := timestamp]> (pending_acks t)
                 else pending_acks t in
  let '(pending, rtts) :=
    if has_flag flags TH_ACK then
      match pending !! seg_ack s with
      | Some sent =>
          let rtt := (timestamp - sent) * 1000 in
          (delete (seg_ack s) pending,
           if Qle_bool 0 rtt && qltb rtt 10000 then rtt_samples t ++ [rtt]
           else rtt_samples t)
      | None => (pending, rtt_samples t)
      end
    else (pending, rtt_samples t) in
  mkST (packet_count t + 1)%Z (bytes_transferred t + payload_len)%Z start (Some timestamp)
    pending rtts seen re
    (if S then syn_count t + 1 else syn_count t)%Z
    (if F then fin_count t + 1 else fin_count t)%Z
    (if has_flag flags TH_RST then rst_count t + 1 else rst_count t)%Z.

End V5.

(* ------------------------------------------------------------------ *)
(** ** pcap_analyzer_v9.py: ForensicEngine, per-flow part *)

Module V9.

Definition RTO_THRESHOLD_MULTIPLIER : Q := 2.
Definition MIN_RTO_MS : Q := 200.

(** The fields of class FlowMetrics that the per-packet analysis reads or
    writes (the TCP-option fields, filled from raw option bytes, are left
    out: nothing below reads them). *)
Record FlowMetrics := mkFM {
  packet_count : Z;
  start_ts : Q;
  end_ts : Q;
  handshake_rtt : Q;
  rtt_samples : list Q;
  retrans_fast : Z;
  retrans_rto : Z;
  zero_win_events : Z;
  seq_tracker : gmap Z Q
}.

Definition new_FlowMetrics : FlowMetrics := mkFM 0 0 0 0 [] 0 0 0 ∅.

(** FlowMetrics.avg_rtt_ms *)
Definition avg_rtt_ms (f : FlowMetrics) : Q :=
  match rtt_samples f with
  | [] => 0
  | l => qsum l / inject_Z (Z.of_nat (length l)) * 1000
  end.

(** The RTO-versus-fast test of _analyze_packet for a retransmission
    observed [delta] seconds after the first transmission of its [seq]. *)
Definition is_rto (f : FlowMetrics) (delta : Q) : bool :=
  let baseline := avg_rtt_ms f / 1000 in
  let baseline := if Qeq_bool baseline 0 then 1 # 10 else baseline in
  qltb (baseline * RTO_THRESHOLD_MULTIPLIER) delta && qltb (MIN_RTO_MS / 1000) delta.

(** ForensicEngine._analyze_packet(flow, ts, ip, tcp, src_ip). *)
Definition analyze_packet (f : FlowMetrics) (ts : Q) (s : Segment) : FlowMetrics :=
  let flags := seg_flags s in
  let is_syn := has_flag flags TH_SYN in
  let is_ack := has_flag flags TH_ACK in
  (* 1. handshake *)
  let hrtt := if is_syn && is_ack && Z.leb 2 (packet_count f)
              then (ts - start_ts f) * 1000 else handshake_rtt f in
  (* 2. retransmission forensics *)
  let payload_len := seg_payload_len s in
  let seq := seg_seq s in
  let '(fast, rto, tracker) :=
    if Z.ltb 0 payload_len then
      match seq_tracker f !! seq with
      | Some original_ts =>
          if is_rto f (ts - original_ts)
          then (retrans_fast f, (retrans_rto f + 1)%Z, seq_tracker f)
          else ((retrans_fast f + 1)%Z, retrans_rto f, seq_tracker f)
      | None => (retrans_fast f, retrans_rto f, <[seq := ts]> (seq_tracker f))
      end
    else (retrans_fast f, retrans_rto f, seq_tracker f) in
  (* 3. RTT via ACKs: the script's body is [pass] *)
  (* 4. flow control *)
  let zw := if Z.eqb (seg_win s) 0 then (zero_win_events f + 1)%Z else zero_win_events f in
  mkFM (packet_count f) (start_ts f) (end_ts f) hrtt (rtt_samples f) fast rto zw tracker.

(** The per-flow part of the process_pcap loop: counters, then analysis. *)
Definition observe (f : FlowMetrics) (ts : Q) (s : Segment) : FlowMetrics :=
  let f := mkFM (packet_count f + 1)%Z
             (if Qeq_bool (start_ts f) 0 then ts else start_ts f) ts
             (handshake_rtt f) (rtt_samples f) (retrans_fast f) (retrans_rto f)
             (zero_win_events f) (seq_tracker f) in
  analyze_packet f ts s.

End V9.

(* ------------------------------------------------------------------ *)
(** ** pcap_analyzer_v10.py: ForensicsEngine.analyze_packet *)

Module V10.

(** The fields of class StreamMetrics that analyze_packet reads or writes
    (TCP-option fields left out); per-direction dicts are pairs indexed by
    the direction 0 or 1. *)
Record StreamMetrics := mkSM {
  start_ts : Q; last_ts : Q;
  packets : Z; bytes_payload : Z;
  syn_seen : bool; syn_ack_seen : bool; fin_seen : bool; rst_seen : bool;
  rtt_samples : list Q;
  retrans_fast : Z; retrans_rto : Z;
  zero_wins : Z;
  next_seq : Z * Z;
  unacked_segments : gmap Z Q * gmap Z Q
}.

Definition new_StreamMetrics (ts : Q) : StreamMetrics :=
  mkSM ts 0 0 0 false false false false [] 0 0 0 (0%Z, 0%Z) (∅, ∅).

Definition dir_get {A} (d : Z) (p : A * A) : A := if Z.eqb d 0 then p.1 else p.2.
Definition dir_set {A} (d : Z) (x : A) (p : A * A) : A * A :=
  if Z.eqb d 0 then (x, p.2) else (p.1, x).

(** The key normalisation: (flow_key, direction). *)
Definition flow_key_of (src_ip : string) (sport : Z) (dst_ip : string) (dport : Z)
    : (string * Z * string * Z) * Z :=
  match String.compare src_ip dst_ip with
  | Lt => ((src_ip, sport, dst_ip, dport), 0%Z)
  | Gt => ((dst_ip, dport, src_ip, sport), 1%Z)
  | Eq => if Z.ltb sport dport then ((src_ip, sport, dst_ip, dport), 0%Z)
          else ((dst_ip, dport, src_ip, sport), 1%Z)
  end.

Definition avg_rtt (f : StreamMetrics) : Q :=
  match rtt_samples f with
  | [] => 0
  | l => qmean l
  end.

(** analyze_packet after the stream lookup: [f] is [self.streams[flow_key]]. *)
Definition update_stream (direction : Z) (ts : Q) (s : Segment) (f : StreamMetrics)
    : StreamMetrics :=
  let flags := seg_flags s in
  let payload_len := seg_payload_len s in
  let syn := has_flag flags TH_SYN in
  let ack := has_flag flags TH_ACK in
  let rst := has_flag flags TH_RST in
  (* phase 4: window analysis *)
  let zw := if Z.eqb (seg_win s) 0 && negb rst then (zero_wins f + 1)%Z else zero_wins f in
  (* phase 3: retransmissions *)
  let '(fast, rto, nseq, unacked) :=
    if Z.ltb 0 payload_len then
      let expected := dir_get direction (next_seq f) in
      if negb (Z.eqb expected 0) && Z.ltb (seg_seq s) expected then
        match rtt_samples f with
        | [] => ((retrans_fast f + 1)%Z, retrans_rto f, next_seq f, unacked_segments f)
        | _ =>
          if qltb 0 (avg_rtt f) && qltb (avg_rtt f * 2) (ts - start_ts f)
          then (retrans_fast f, (retrans_rto f + 1)%Z, next_seq f, unacked_segments f)
          else ((retrans_fast f + 1)%Z, retrans_rto f, next_seq f, unacked_segments f)
        end
      else
        let e := (seg_seq s + payload_len)%Z in
        (retrans_fast f, retrans_rto f, dir_set direction e (next_seq f),
         dir_set direction (<[e := ts]> (dir_get direction (unacked_segments f)))
           (unacked_segments f))
    else (retrans_fast f, retrans_rto f, next_seq f, unacked_segments f) in
  (* phase 2: RTT *)
  let '(rtts, unacked) :=
    if ack then
      let rev_dir := (1 - direction)%Z in
      let pend := dir_get rev_dir unacked in
      match pend !! seg_ack s with
      | Some sent_ts =>
          let rtt := (ts - sent_ts) * 1000 in
          (if qltb 0 rtt && qltb rtt 5000 then rtt_samples f ++ [rtt] else rtt_samples f,
           dir_set rev_dir (delete (seg_ack s) pend) unacked)
      | None => (rtt_samples f, unacked)
      end
    else (rtt_samples f, unacked) in
  mkSM (start_ts f) ts (packets f + 1)%Z (bytes_payload f + payload_len)%Z
    (syn_seen f || (syn && negb ack)) (syn_ack_seen f || (syn && ack))
    (fin_seen f || has_flag flags TH_FIN) (rst_seen f || rst)
    rtts fast rto zw nseq unacked.

End V10.

(* ------------------------------------------------------------------ *)
(** ** Per-IP aggregation *)

Module Aggregate.

(** The fields of a [flow_rows] entry that the per-IP aggregation reads. *)
Record FlowRow := mkRow {
  row_src_ip : string; row_dst_ip : string;
  row_p_client : Q; row_p_network : Q; row_p_server : Q
}.

(** generate_plot (analyze_and_generate_report.py):
    [ip_stats = defaultdict(lambda: {'c':0, 'n':0, 's':0, 'count':0})]. *)
Record IpStat := mkIpStat { ip_c : Q; ip_n : Q; ip_s : Q; ip_count : Z }.

Definition ip_stat_zero : IpStat := mkIpStat 0 0 0 0.

Definition add_row (r : FlowRow) (st : IpStat) : IpStat :=
  mkIpStat (ip_c st + row_p_client r) (ip_n st + row_p_network r)
           (ip_s st + row_p_server r) (ip_count st + 1)%Z.

Definition ip_stats_step (m : gmap string IpStat) (r : FlowRow) : gmap string IpStat :=
  <[row_src_ip r := add_row r (default ip_stat_zero (m !! row_src_ip r))]> m.

(** The aggregation loop of generate_plot: a fresh defaultdict each call. *)
Definition ip_stats (flow_rows : list FlowRow) : gmap string IpStat :=
  fold_left ip_stats_step flow_rows ∅.

(** analyze_tcp_dpkt_full_trend.py:
    [ip_src_stats = defaultdict(lambda: {'prob':[0,0,0]})] and the loop over
    [flow_results] that adds each flow's probabilities at its source and at
    its destination address. *)
Definition prob_zero : Q * Q * Q := (0, 0, 0).

Definition add_prob (r : FlowRow) (p : Q * Q * Q) : Q * Q * Q :=
  let '(c, n, s) := p in (c + row_p_client r, n + row_p_network r, s + row_p_server r).

Definition trend_step (ms : gmap string (Q * Q * Q) * gmap string (Q * Q * Q)) (r : FlowRow)
    : gmap string (Q * Q * Q) * gmap string (Q * Q * Q) :=
  let '(src_m, dst_m) := ms in
  (<[row_src_ip r := add_prob r (default prob_zero (src_m !! row_src_ip r))]> src_m,
   <[row_dst_ip r := add_prob r (default prob_zero (dst_m !! row_dst_ip r))]> dst_m).

Definition trend_ip_stats (flow_results : list FlowRow)
    : gmap string (Q * Q * Q) * gmap string (Q * Q * Q) :=
  fold_left trend_step flow_results (∅, ∅).

End Aggregate.

(* ------------------------------------------------------------------ *)
(** ** Concrete segments used by the examples below *)

Module Samples.

Definition A_ip : string := "10.0.0.1".
Definition B_ip : string := "10.0.0.2".
Definition A_port : Z := 40000%Z.
Definition B_port : Z := 80%Z.

(** A segment from A to B, and one from B to A (wire length: 54-byte
    headers plus the payload). *)
Definition a2b (ts : Q) (seq ack flags win len : Z) : Segment :=
  mkSegment ts A_ip A_port B_ip B_port seq ack flags win len (54 + len)%Z.
Definition b2a (ts : Q) (seq ack flags win len : Z) : Segment :=
  mkSegment ts B_ip B_port A_ip A_port seq ack flags win len (54 + len)%Z.

Definition key_ab : string * Z * string * Z := (A_ip, A_port, B_ip, B_port).
Definition key_ba : string * Z * string * Z := (B_ip, B_port, A_ip, A_port).

Definition PSH_ACK : Z := (TH_PUSH + TH_ACK)%Z.

(** Payload segments at seq = 100, 200, 100, 300, 100 bytes each. *)
Definition retrans_flow : list Segment :=
  [a2b 1 100 1 PSH_ACK 65535 100; a2b 2 200 1 PSH_ACK 65535 100;
   a2b 3 100 1 PSH_ACK 65535 100; a2b 4 300 1 PSH_ACK 65535 100].

(** Data at t = 1.000 (seq 100, 50 bytes), its ACK from the peer at 1.050. *)
Definition rtt_flow : list Segment :=
  [a2b 1 100 1 PSH_ACK 65535 50; b2a (105 # 100) 1 150 TH_ACK 65535 0].

(** The same, with a retransmitted copy of the data at t = 1.020. *)
Definition rtt_flow_retrans : list Segment :=
  [a2b 1 100 1 PSH_ACK 65535 50; a2b (102 # 100) 100 1 PSH_ACK 65535 50;
   b2a (105 # 100) 1 150 TH_ACK 65535 0].

(** Two data segments (expecting ACKs 150 and 200), then a cumulative ACK 200. *)
Definition cumulative_ack_flow : list Segment :=
  [a2b 1 100 1 PSH_ACK 65535 50; a2b (101 # 100) 150 1 PSH_ACK 65535 50;
   b2a (105 # 100) 1 200 TH_ACK 65535 0].

(** seq 100 at t = 0, seq 200 at t = 0.5, seq 100 again at t = 0.6. *)
Definition v9_flow : list Segment :=
  [a2b 0 100 1 PSH_ACK 65535 100; a2b (1 # 2) 200 1 PSH_ACK 65535 100;
   a2b (6 # 10) 100 1 PSH_ACK 65535 100].

(** A RST with window 0. *)
Definition rst_zero_win : Segment := a2b 1 100 0 (TH_RST + TH_ACK)%Z 0 0.

(** The frames of a capture of TCP segments over IPv4. *)
Definition ipv4 (segs : list Segment) : list Frame := map (TcpFrame false) segs.

(** An ARP frame and a UDP datagram from A, then [retrans_flow]. *)
Definition mixed_capture : list Frame :=
  NonIpFrame (1 # 2) 42 :: UdpFrame false (3 # 4) A_ip 80 :: ipv4 retrans_flow.

(** Data at seq 100, then a segment of the same stream whose
    acknowledgment number is that seq. *)
Definition own_ack_flow : list Segment :=
  [a2b 1 100 1 PSH_ACK 65535 50; a2b 2 150 100 PSH_ACK 65535 50].

(** A single data segment, and a flow whose only signal is a retransmission. *)
Definition one_packet : list Segment := [a2b 1 100 1 PSH_ACK 65535 50].
Definition retrans_only : list Segment :=
  [a2b 1 100 1 PSH_ACK 65535 100; a2b (3 # 2) 100 1 PSH_ACK 65535 100].

End Samples.

(* ------------------------------------------------------------------ *)
(** ** tcp_professional_report.py: main's per-stream loop *)

Module ProfMain.

(** The per-stream dict of main's [streams] defaultdict (its
    [last_ack_seen] field is never read or written and is left out). *)
Record Stream := mkStream {
  s_count : Z;
  s_wins : list Z;
  s_seq_ack_time : list (Q * Q);
  s_retrans : Z;
  s_rto : Z;
  s_cont_retrans : Z;
  s_last_seq : option Z;
  s_psh_small : Z;
  s_seq_history : gmap Z Q
}.

Definition new_stream : Stream := mkStream 0 [] [] 0 0 0 None 0 ∅.

Abbreviation StreamKey := (string * Z * string * Z)%type.

(** The body of the loop for one TCP segment, on its stream's dict. *)
Definition stream_step (ts : Q) (seq ack win : Z) (s : Stream) : Stream :=
  let '(re, cr, rto) :=
    match s_seq_history s !! seq with
    | Some _ => (s_retrans s + 1,
                 (if bool_decide (s_last_seq s = Some seq) then s_cont_retrans s + 1
                  else s_cont_retrans s),
                 s_rto s + 1)%Z
    | None => (s_retrans s, s_cont_retrans s, s_rto s)
    end in
  let hist := <[seq := ts]> (s_seq_history s) in
  let sat := match hist !! ack with
             | Some t => s_seq_ack_time s ++ [(t, ts)]
             | None => s_seq_ack_time s
             end in
  mkStream (s_count s + 1)%Z (s_wins s ++ [win]) sat re rto cr (Some seq)
    (s_psh_small s + (if Z.ltb 0 win && Z.ltb win 200 then 1 else 0))%Z hist.

Definition main_step (streams : gmap StreamKey Stream) (seg : Segment) : gmap StreamKey Stream :=
  let k := (seg_src seg, seg_sport seg, seg_dst seg, seg_dport seg) in
  <[k := stream_step (seg_ts seg) (seg_seq seg) (seg_ack seg) (seg_win seg)
           (default new_stream (streams !! k))]> streams.

(** The [for ts, buf in pcap] loop over the decoded TCP segments. *)
Definition main_loop (segs : list Segment) : gmap StreamKey Stream :=
  fold_left main_step segs ∅.

(** The [stats] dict handed to compute_flow_metrics. *)
Definition to_stats (s : Stream) : Professional.Stats :=
  Professional.mkStats (s_wins s) (s_seq_ack_time s) (s_rto s) (s_retrans s) (s_cont_retrans s).

End ProfMain.

(* ------------------------------------------------------------------ *)
(** ** analyze_tcp_dpkt_full_trend.py: the per-stream loop and the scores *)

Module Trend.

Abbreviation StreamKey := (string * Z * string * Z)%type.

(** The per-stream dict of [streams]. *)
Record TStats := mkTStats {
  t_count : Z;
  t_wins : list Z;
  t_seqs : list Z;
  t_timestamps : list Q;
  t_retrans : Z;
  t_rto : Z;
  t_cont_retrans : Z;
  t_last_seq : option Z;
  t_psh_small : Z;
  t_win_ts : list (Q * Z)
}.

Definition new_stats : TStats := mkTStats 0 [] [] [] 0 0 0 None 0 [].

Definition int_of_bool (b : bool) : Z := if b then 1%Z else 0%Z.

Definition update_stats (stats : TStats) (win : Z) (is_rto is_retrans : bool) (seq : Z) (ts : Q)
    : TStats :=
  let '(cr, last) :=
    if is_retrans
    then ((if bool_decide (t_last_seq stats = Some seq) then t_cont_retrans stats + 1
           else t_cont_retrans stats)%Z, Some seq)
    else (t_cont_retrans stats, t_last_seq stats) in
  mkTStats (t_count stats + 1)%Z (t_wins stats ++ [win]) (t_seqs stats ++ [seq])
    (t_timestamps stats ++ [ts]) (t_retrans stats + int_of_bool is_retrans)%Z
    (t_rto stats + int_of_bool is_rto)%Z cr last
    (t_psh_small stats + int_of_bool (Z.ltb win 200 && Z.ltb 0 win))%Z
    (t_win_ts stats ++ [(ts, win)]).

(** np.diff *)
Fixpoint qdiff (l : list Q) : list Q :=
  match l with
  | a :: ((b :: _) as t) => (b - a) :: qdiff t
  | _ => []
  end.

Section Scorer.
Variable std : list Q -> Q.

(** compute_flow_prob: (client, network, server, avg_win, rtt_jitter). *)
Definition compute_flow_prob (stats : TStats) : Q * Q * Q * Q * Q :=
  let rto_w := 4 # 10 in
  let cont_retrans_w := 2 # 10 in
  let retrans_w := 2 # 10 in
  let win_w := 1 # 10 in
  let rtt_w := 1 # 10 in
  let avg_win := match t_wins stats with [] => 0 | ws => qmean (map inject_Z ws) end in
  let rtt_jitter :=
    if (1 <? length (t_timestamps stats))%nat then std (qdiff (t_timestamps stats)) else 0 in
  let '(pc, pn, ps) :=
    if qltb avg_win 200 then (0 + win_w, 0 + win_w / 2, 0 + win_w / 2) else (0, 0, 0) in
  let rto := inject_Z (t_rto stats) in
  let pn := pn + rto * rto_w in
  let pc := pc + rto * rto_w * (5 # 10) in
  let ps := ps + rto * rto_w * (5 # 10) in
  let re := inject_Z (t_retrans stats) in
  let pn := pn + re * retrans_w in
  let pc := pc + re * retrans_w * (5 # 10) in
  let ps := ps + re * retrans_w * (5 # 10) in
  let cr := inject_Z (t_cont_retrans stats) in
  let pn := pn + cr * cont_retrans_w in
  let pc := pc + cr * cont_retrans_w * (5 # 10) in
  let ps := ps + cr * cont_retrans_w * (5 # 10) in
  let '(pc, pn, ps) :=
    if qltb (3 # 100) rtt_jitter
    then (pc + rtt_w * (5 # 10), pn + rtt_w, ps + rtt_w * (5 # 10)) else (pc, pn, ps) in
  let total := pc + pn + ps in
  if qltb 0 total
  then (pc / total, pn / total, ps / total, avg_win, rtt_jitter)
  else (33 # 100, 33 # 100, 33 # 100, avg_win, rtt_jitter).

End Scorer.

Record State := mkState {
  streams : gmap StreamKey TStats;
  seen_seq : gmap StreamKey (gset Z)        (** defaultdict(dict) of seq -> True *)
}.

(** The body of the [for ts, buf in pcap] loop for one TCP segment. *)
Definition step (st : State) (x : Segment) : State :=
  let stream_key := (seg_src x, seg_sport x, seg_dst x, seg_dport x) in
  let seq := seg_seq x in
  let seen := default ∅ (seen_seq st !! stream_key) in
  let is_retrans := bool_decide (seq ∈ seen) in
  let seen_seq' := <[stream_key := {[seq]} ∪ seen]> (seen_seq st) in
  let is_rto := is_retrans && Z.ltb 0 (seg_payload_len x) in
  mkState (<[stream_key := update_stats (default new_stats (streams st !! stream_key))
                             (seg_win x) is_rto is_retrans seq (seg_ts x)]> (streams st))
          seen_seq'.

Definition run (segs : list Segment) : State := fold_left step segs (mkState ∅ ∅).




End Trend.

(* ------------------------------------------------------------------ *)
(** ** pcap_analyzer_v9.py: ForensicEngine.process_pcap and the verdict *)

Module V9Engine.

Definition HIGH_LATENCY_MS : Q := 100.

(** ForensicEngine._get_flow_key: [f"{ip}:{port}-{ip}:{port}"], the
    smaller (ip, port) tuple first. *)
Definition get_flow_key (ip_src : string) (sport : Z) (ip_dst : string) (dport : Z) : string :=
  if endpoint_ltb (ip_src, sport) (ip_dst, dport)
  then String.append ip_src (String.append ":" (String.append (pretty sport)
         (String.append "-" (String.append ip_dst (String.append ":" (pretty dport))))))
  else String.append ip_dst (String.append ":" (String.append (pretty dport)
         (String.append "-" (String.append ip_src (String.append ":" (pretty sport)))))).

Record Engine := mkEngine {
  flows : gmap string V9.FlowMetrics;
  total_packets : Z;
  total_bytes : Z;
  start_time_global : Q;
  end_time_global : Q
}.

Definition init_engine : Engine := mkEngine ∅ 0 0 0 0.

(** One iteration of the process_pcap loop: the global counters and
    times for every frame, then, for a TCP segment over IPv4 only, the
    update of its flow. *)
Definition step (e : Engine) (fr : Frame) : Engine :=
  let ts := frame_ts fr in
  let e := mkEngine (flows e) (total_packets e + 1)%Z (total_bytes e + frame_len fr)%Z
             (if Qeq_bool (start_time_global e) 0 then ts else start_time_global e) ts in
  match frame_segment4 fr with
  | None => e
  | Some s =>
      let key := get_flow_key (seg_src s) (seg_sport s) (seg_dst s) (seg_dport s) in
      let flow := default V9.new_FlowMetrics (flows e !! key) in
      mkEngine (<[key := V9.observe flow ts s]> (flows e))
        (total_packets e) (total_bytes e) (start_time_global e) (end_time_global e)
  end.

Definition process_pcap (frames : list Frame) : Engine := fold_left step frames init_engine.

(** The [issues] list of FlowMetrics.get_health_verdict. *)
Definition health_issues (f : V9.FlowMetrics) : list string :=
  (if Z.ltb 0 (V9.retrans_rto f) then ["CRITICAL: RTO Timeouts"] else []) ++
  (if Z.ltb 5 (V9.retrans_fast f) then ["WARN: Fast Retransmits"] else []) ++
  (if Z.ltb 0 (V9.zero_win_events f) then ["CRITICAL: Zero Window"] else []) ++
  (if qltb HIGH_LATENCY_MS (V9.avg_rtt_ms f) then ["WARN: High Latency"] else []).

(** [", ".join(issues)] *)
Fixpoint join (sep : string) (l : list string) : string :=
  match l with
  | [] => EmptyString
  | [x] => x
  | x :: r => String.append x (String.append sep (join sep r))
  end.

Definition get_health_verdict (f : V9.FlowMetrics) : string :=
  match health_issues f with
  | [] => "HEALTHY"
  | issues => join ", " issues
  end.

End V9Engine.

(* ------------------------------------------------------------------ *)
(** ** pcap_analyzer_v10.py: ForensicsEngine *)

Module V10Engine.

(** class AnalysisConfig *)
Definition CRITICAL_RETRANS_RATIO : Q := 5 # 100.
Definition DEGRADED_RETRANS_RATIO : Q := 1 # 100.
Definition HIGH_LATENCY_MS : Q := 150.
Definition ZERO_WIN_THRESHOLD : Z := 5.

Definition FlowKey : Type := string * Z * string * Z.

(** [self.streams] maps a flow key to its StreamMetrics object, whose
    [flow_id] is kept beside the fields of [V10.StreamMetrics];
    [start_capture = None] stands for the initial [float('inf')]. *)
Record Engine := mkEngine {
  streams : gmap FlowKey (Z * V10.StreamMetrics);
  global_packets : Z;
  global_bytes : Z;
  start_capture : option Q;
  end_capture : Q
}.

Definition init_engine : Engine := mkEngine ∅ 0 0 None 0.

(** [min(self.start_capture, ts)] *)
Definition min_capture (sc : option Q) (ts : Q) : Q :=
  match sc with
  | None => ts
  | Some x => Qmin x ts
  end.

(** ForensicsEngine.analyze_packet: the global counters and capture times
    for every frame; then, for a TCP segment over IPv4 or IPv6, the key
    normalisation, the creation of a stream numbered [len(self.streams) + 1]
    with [start_ts = ts], and the update of that stream. *)
Definition analyze_packet (e : Engine) (fr : Frame) : Engine :=
  let ts := frame_ts fr in
  let e := mkEngine (streams e) (global_packets e + 1)%Z (global_bytes e + frame_len fr)%Z
             (Some (min_capture (start_capture e) ts)) (Qmax (end_capture e) ts) in
  match frame_segment fr with
  | None => e
  | Some s =>
      let '(flow_key, direction) :=
        V10.flow_key_of (seg_src s) (seg_sport s) (seg_dst s) (seg_dport s) in
      let '(flow_id, flow) :=
        match streams e !! flow_key with
        | Some p => p
        | None => ((Z.of_nat (size (streams e)) + 1)%Z, V10.new_StreamMetrics ts)
        end in
      mkEngine (<[flow_key := (flow_id, V10.update_stream direction ts s flow)]> (streams e))
        (global_packets e) (global_bytes e) (start_capture e) (end_capture e)
  end.

(** main: [engine.analyze_packet(ts, buf)] for every packet of the capture. *)
Definition run (frames : list Frame) : Engine := fold_left analyze_packet frames init_engine.

(** [safe_div] *)
Definition safe_div (n d : Q) : Q := if qltb 0 d then n / d else 0.

(** [sum(f(s) for s in self.streams.values())]; an integer sum, so the
    order of the values does not matter. *)
Definition sum_streams (g : V10.StreamMetrics -> Z) (m : gmap FlowKey (Z * V10.StreamMetrics)) : Z :=
  map_fold (fun _ p acc => (acc + g p.2)%Z) 0%Z m.

Definition total_retrans (e : Engine) : Z :=
  (sum_streams V10.retrans_fast (streams e) + sum_streams V10.retrans_rto (streams e))%Z.

(** [all_rtts], the streams taken in key order for the dict's order. *)
Definition all_rtts (e : Engine) : list Q :=
  concat (map (fun kv => V10.rtt_samples kv.2.2) (map_to_list (streams e))).

Definition avg_rtt (e : Engine) : Q :=
  match all_rtts e with
  | [] => 0
  | l => qmean l
  end.

Definition retrans_ratio (e : Engine) : Q :=
  safe_div (inject_Z (total_retrans e)) (inject_Z (global_packets e)).

(** The verdict logic of generate_report: (health, primary_issue). *)
Definition verdict (e : Engine) : string * string :=
  let ratio := retrans_ratio e in
  let '(health, primary_issue) :=
    if qltb CRITICAL_RETRANS_RATIO ratio then ("CRITICAL", "Severe Packet Loss / Congestion")
    else if qltb DEGRADED_RETRANS_RATIO ratio then ("DEGRADED", "Packet Loss")
    else ("HEALTHY", "None") in
  let '(health, primary_issue) :=
    if qltb HIGH_LATENCY_MS (avg_rtt e)
    then (if String.eqb health "HEALTHY" then "DEGRADED" else health, "High Latency")
    else (health, primary_issue) in
  let total_zero_wins := sum_streams V10.zero_wins (streams e) in
  let primary_issue :=
    if Z.ltb ZERO_WIN_THRESHOLD total_zero_wins
    then "Flow Control / App Saturation" else primary_issue in
  (health, primary_issue).

End V10Engine.

(* ------------------------------------------------------------------ *)
(** ** pcap_analyzer_v5.py: TrafficAnalyzer and the report's totals *)

(** [sum(g(v) for v in d.values())] over integers. *)
Definition zsum_map {K} `{Countable K} {A} (g : A -> Z) (m : gmap K A) : Z :=
  map_fold (fun _ x acc => (acc + g x)%Z) 0%Z m.

Module V5Analyzer.

(** The fields of class TrafficAnalyzer that process_packet updates
    ([window_full_events] is never updated); [streams] is keyed by the
    stream id of [get_stream_id]. *)
Record Analyzer := mkAnalyzer {
  total_packets : Z;
  total_bytes : Z;
  start_time : option Q;
  end_time : option Q;
  ip_src_counts : gmap string Z;
  tcp_counts : Z;
  udp_counts : Z;
  other_counts : Z;
  zero_window_events : Z;
  streams : gmap (Endpoint * Endpoint) V5.StreamTracker
}.

Definition init_analyzer : Analyzer := mkAnalyzer 0 0 None None ∅ 0 0 0 0 ∅.

(** TrafficAnalyzer.process_packet on one frame: the totals and times,
    the protocol counting (with the zero-window check and the stream
    update for a TCP packet), then the per-source byte counts of an IP or
    IPv6 packet. *)
Definition process_packet (a : Analyzer) (fr : Frame) : Analyzer :=
  let ts := frame_ts fr in
  let tp := (total_packets a + 1)%Z in
  let tb := (total_bytes a + frame_len fr)%Z in
  let st := match start_time a with None => Some ts | st => st end in
  let '(tcp, udp, other, zw, strs) :=
    match fr with
    | TcpFrame _ s =>
        let flags := seg_flags s in
        let zw := if Z.eqb (seg_win s) 0 && (has_flag flags TH_ACK || negb (has_flag flags TH_RST))
                  then (zero_window_events a + 1)%Z else zero_window_events a in
        let '(s_id, direction) := get_stream_id (seg_src s) (seg_sport s) (seg_dst s) (seg_dport s) in
        let tracker := default V5.new_StreamTracker (streams a !! s_id) in
        ((tcp_counts a + 1)%Z, udp_counts a, other_counts a, zw,
         <[s_id := V5.update s ts direction tracker]> (streams a))
    | UdpFrame _ _ _ _ =>
        (tcp_counts a, (udp_counts a + 1)%Z, other_counts a, zero_window_events a, streams a)
    | _ =>
        (tcp_counts a, udp_counts a, (other_counts a + 1)%Z, zero_window_events a, streams a)
    end in
  let ipc := match frame_ip_src fr with
             | Some src => <[src := (default 0%Z (ip_src_counts a !! src) + frame_len fr)%Z]>
                             (ip_src_counts a)
             | None => ip_src_counts a
             end in
  mkAnalyzer tp tb st (Some ts) ipc tcp udp other zw strs.

(** main: [analyzer.process_packet(pkt)] for every packet read. *)
Definition run (frames : list Frame) : Analyzer := fold_left process_packet frames init_analyzer.

Definition total_retrans (a : Analyzer) : Z := zsum_map V5.retransmissions (streams a).

(** ReportGenerator.generate: [retrans_rate]. *)
Definition retrans_rate (a : Analyzer) : Q :=
  if Z.eqb (total_packets a) 0 then 0
  else inject_Z (total_retrans a) / inject_Z (total_packets a) * 100.

End V5Analyzer.

Module V4Report.
(** ReportGenerator.generate: [retrans_rate] from the totals loop. *)
Definition total_retrans (st : V4.GlobalState) : Z :=
  zsum_map V4.retransmissions (V4.flows st).
Definition total_pkts_tcp (st : V4.GlobalState) : Z :=
  zsum_map V4.packet_count (V4.flows st).
Definition retrans_rate (st : V4.GlobalState) : Q :=
  if Z.eqb (total_pkts_tcp st) 0 then 0
  else inject_Z (total_retrans st) / inject_Z (total_pkts_tcp st) * 100.
End V4Report.

(* ================================================================== *)
(** * Auxiliary definitions for the properties *)



(** The unordered endpoint pair of a directional key. *)
Definition pair_set (k : string * Z * string * Z) : gset Endpoint :=
  let '(a, p, b, q) := k in {[(a, p); (b, q)]}.

(** No flow of pcap_analyzer_v4 has counted an out-of-order segment. *)
Definition ooo_ok (m : gmap V4.FlowKey V4.FlowMetrics) : Prop :=
  map_Forall (fun _ f => V4.out_of_order f = 0%Z) m.

(** The per-flow invariant of analyze_pcap: one [wins], [timestamps] and
    [win_ts] entry per packet, RTO and consecutive retransmissions among the
    retransmissions, small windows among the packets, each packet adding
    at most one to [retrans + len(seen_seqs)], RTT samples inside the
    (0, 10) filter. *)
Definition report_fm_inv (fm : Report.FlowMetrics) : Prop :=
  (0 <= Report.rto_cnt fm <= Report.retrans fm)%Z /\
  (0 <= Report.cont_retrans fm <= Report.retrans fm)%Z /\
  (0 <= Report.small_win_cnt fm <= Report.count fm)%Z /\
  (Report.retrans fm + Z.of_nat (size (Report.seen_seqs fm)) <= Report.count fm)%Z /\
  Z.of_nat (length (Report.wins fm)) = Report.count fm /\
  Z.of_nat (length (Report.timestamps fm)) = Report.count fm /\
  Z.of_nat (length (Report.win_ts fm)) = Report.count fm /\
  Forall (fun r => 0 < r /\ r < 10) (Report.rtt_samples fm).

(** The state invariant: every flow in the table satisfies [report_fm_inv]
    and has a packet, and every pending-ACK table belongs to a flow. *)
Definition report_state_inv (st : Report.State) : Prop :=
  map_Forall (fun _ fm => report_fm_inv fm /\ (1 <= Report.count fm)%Z) (Report.flows st) /\
  (forall k p, Report.unacked_packets st !! k = Some p -> is_Some (Report.flows st !! k)).

(** The updates analyze_step makes to the sender's own flow after
    [fm_observe]: the retransmission block, then the window block. *)
Definition report_own_update (s : Segment) (fm : Report.FlowMetrics) : Report.FlowMetrics :=
  Report.fm_small_win (seg_win s) (seg_flags s)
    (Report.fm_retrans_step (seg_ts s) (seg_seq s) (seg_payload_len s) (seg_flags s) fm).

Definition report_P (fm : Report.FlowMetrics) : Prop :=
  report_fm_inv fm /\ (1 <= Report.count fm)%Z.

(** The counters main keeps for one stream of tcp_professional_report.py. *)
Definition prof_stream_inv (s : ProfMain.Stream) : Prop :=
  ProfMain.s_rto s = ProfMain.s_retrans s /\
  (0 <= ProfMain.s_cont_retrans s <= ProfMain.s_retrans s)%Z /\
  (ProfMain.s_retrans s + Z.of_nat (size (ProfMain.s_seq_history s)) = ProfMain.s_count s)%Z /\
  Z.of_nat (length (ProfMain.s_wins s)) = ProfMain.s_count s /\
  (0 <= ProfMain.s_psh_small s <= ProfMain.s_count s)%Z /\
  (Z.of_nat (length (ProfMain.s_seq_ack_time s)) <= ProfMain.s_count s)%Z.

(** Every recorded send time is at most [B], and every (send, ack) pair is
    in time order. *)
Definition prof_time_inv (B : Q) (s : ProfMain.Stream) : Prop :=
  map_Forall (fun _ t => t <= B) (ProfMain.s_seq_history s) /\
  Forall (fun p => fst p <= snd p) (ProfMain.s_seq_ack_time s).



(** The counters update_stats keeps for one stream of
    analyze_tcp_dpkt_full_trend.py, against its [seen_seq] entry [S]. *)
Definition trend_stats_inv (t : Trend.TStats) (S : gset Z) : Prop :=
  (0 <= Trend.t_rto t <= Trend.t_retrans t)%Z /\
  (0 <= Trend.t_cont_retrans t <= Trend.t_retrans t)%Z /\
  (Trend.t_retrans t + Z.of_nat (size S) = Trend.t_count t)%Z /\
  Z.of_nat (length (Trend.t_wins t)) = Trend.t_count t /\
  Z.of_nat (length (Trend.t_seqs t)) = Trend.t_count t /\
  Z.of_nat (length (Trend.t_timestamps t)) = Trend.t_count t /\
  Z.of_nat (length (Trend.t_win_ts t)) = Trend.t_count t /\
  (0 <= Trend.t_psh_small t <= Trend.t_count t)%Z.

Definition trend_state_inv (st : Trend.State) : Prop :=
  (forall k t, Trend.streams st !! k = Some t ->
     exists S, Trend.seen_seq st !! k = Some S /\ trend_stats_inv t S /\ (1 <= Trend.t_count t)%Z) /\
  (forall k S, Trend.seen_seq st !! k = Some S -> is_Some (Trend.streams st !! k)).

(** The rows of [flow_rows] whose source address is [ip], in order. *)
Definition rows_of (ip : string) (rows : list Aggregate.FlowRow) : list Aggregate.FlowRow :=
  filter (fun r => bool_decide (Aggregate.row_src_ip r = ip)) rows.

(** The 4-tuple with its two endpoints swapped. *)
Definition rev_key (k : string * Z * string * Z) : string * Z * string * Z :=
  let '(a, p, b, q) := k in (b, q, a, p).

(** The per-flow counters of pcap_analyzer_v9.py's process_pcap. *)
Definition v9_flow_inv (f : V9.FlowMetrics) : Prop :=
  V9.rtt_samples f = [] /\
  (0 <= V9.retrans_fast f)%Z /\ (0 <= V9.retrans_rto f)%Z /\
  (V9.retrans_fast f + V9.retrans_rto f + Z.of_nat (size (V9.seq_tracker f))
     <= V9.packet_count f)%Z.

(** The per-stream counters of pcap_analyzer_v10.py's ForensicsEngine. *)
Definition v10_stream_inv (f : V10.StreamMetrics) : Prop :=
  (0 <= V10.retrans_fast f)%Z /\ (0 <= V10.retrans_rto f)%Z /\
  (V10.retrans_fast f + V10.retrans_rto f < V10.packets f)%Z /\
  (0 <= V10.zero_wins f <= V10.packets f)%Z /\
  Forall (fun r => 0 < r /\ r < 5000) (V10.rtt_samples f) /\
  ((0 < V10.retrans_rto f)%Z -> V10.rtt_samples f <> []).

(** The stream table of ForensicsEngine: every stream satisfies
    [v10_stream_inv] and has a [flow_id] between 1 and the number of
    streams, no two streams share a [flow_id], and the streams' packet
    counts add up to [global_packets]. *)
Definition v10_engine_inv (e : V10Engine.Engine) : Prop :=
  map_Forall (fun _ p => v10_stream_inv p.2 /\
                (1 <= p.1 <= Z.of_nat (size (V10Engine.streams e)))%Z)
    (V10Engine.streams e) /\
  (forall k1 k2 i f1 f2, V10Engine.streams e !! k1 = Some (i, f1) ->
     V10Engine.streams e !! k2 = Some (i, f2) -> k1 = k2) /\
  (V10Engine.sum_streams V10.packets (V10Engine.streams e) <= V10Engine.global_packets e)%Z.

(** The counters StreamTracker.update keeps for one stream of
    pcap_analyzer_v5.py. *)
Definition v5_tracker_inv (t : V5.StreamTracker) : Prop :=
  (1 <= V5.packet_count t)%Z /\
  (0 <= V5.retransmissions t)%Z /\
  (V5.retransmissions t + Z.of_nat (size (V5.seen_seqs t)) <= V5.packet_count t)%Z /\
  (0 <= V5.syn_count t <= V5.packet_count t)%Z /\
  (0 <= V5.fin_count t <= V5.packet_count t)%Z /\
  (0 <= V5.rst_count t <= V5.packet_count t)%Z /\
  set_Forall (fun sk => sk.1 = 0%Z \/ sk.1 = 1%Z) (V5.seen_seqs t) /\
  Forall (fun r => 0 <= r /\ r < 10000) (V5.rtt_samples t) /\
  is_Some (V5.start_time t).

(** The invariant of TrafficAnalyzer: every stream satisfies
    [v5_tracker_inv] under a sorted key, the streams' packet counts add up
    to [tcp_counts], the TCP, UDP and other counts add up to
    [total_packets], and the zero-window events are among the TCP packets. *)
Definition v5_analyzer_inv (a : V5Analyzer.Analyzer) : Prop :=
  map_Forall (fun k t => v5_tracker_inv t /\ endpoint_ltb k.2 k.1 = false) (V5Analyzer.streams a) /\
  zsum_map V5.packet_count (V5Analyzer.streams a) = V5Analyzer.tcp_counts a /\
  (0 <= V5Analyzer.udp_counts a)%Z /\ (0 <= V5Analyzer.other_counts a)%Z /\
  (V5Analyzer.tcp_counts a + V5Analyzer.udp_counts a + V5Analyzer.other_counts a =
     V5Analyzer.total_packets a)%Z /\
  (0 <= V5Analyzer.zero_window_events a <= V5Analyzer.tcp_counts a)%Z.

(** [sum(len(buf))] over the frames of a capture, and over those that
    carry an IP or IPv6 packet. *)
Definition frames_bytes (frames : list Frame) : Z :=
  fold_right (fun fr acc => (frame_len fr + acc)%Z) 0%Z frames.
Definition ip_frames_bytes (frames : list Frame) : Z :=
  fold_right (fun fr acc => match frame_ip_src fr with
                            | Some _ => (frame_len fr + acc)%Z
                            | None => acc
                            end) 0%Z frames.

(** The counters of one flow of pcap_analyzer_v4.py, with [n] packets
    counted ahead of the anomaly step. *)
Definition v4_flow_inv (n : Z) (f : V4.FlowMetrics) : Prop :=
  (0 <= V4.retransmissions f)%Z /\
  (V4.retransmissions f + Z.of_nat (size (V4.seen_seqs f)) + n <= V4.packet_count f)%Z /\
  (0 <= V4.zero_window_count f)%Z /\
  (V4.zero_window_count f + n <= V4.packet_count f)%Z /\
  (0 <= V4.syn_count f)%Z /\ (0 <= V4.syn_ack_count f)%Z /\
  (V4.syn_count f + V4.syn_ack_count f <= V4.packet_count f)%Z /\
  Forall (fun r => 0 < r /\ r < 5) (V4.rtt_samples f) /\
  Forall (fun d => d < 1) (V4.jitter_samples f).

(** The endpoint fields of a flow. *)
Definition v4_fields (f : V4.FlowMetrics) : V4.FlowKey :=
  (V4.src f, V4.sport f, V4.dst f, V4.dport f).

Definition v4_state_inv (st : V4.GlobalState) : Prop :=
  map_Forall (fun k f => v4_flow_inv 0 f /\ v4_fields f = k) (V4.flows st) /\
  (forall k, is_Some (V4.flows st !! k) -> is_Some (V4.flows st !! rev_key k)) /\
  zsum_map V4.packet_count (V4.flows st) = V4.total_packets st.

(** [v4_flow_inv] with the flow [fk] of the current packet counted one
    step ahead of its anomaly update. *)
Definition v4_mid_inv (fk : V4.FlowKey) (m : gmap V4.FlowKey V4.FlowMetrics) : Prop :=
  map_Forall (fun k f => v4_flow_inv 0 f /\ v4_fields f = k /\ (k = fk -> v4_flow_inv 1 f)) m.

(* ================================================================== *)
(** * Properties *)

(* ------------------------------------------------------------------ *)
(** ** Diagnostic scorer: normalisation *)

Lemma normalised_sum (a b c : Q) :
  ~ (a + b + c == 0) -> a / (a + b + c) + b / (a + b + c) + c / (a + b + c) == 1.
Proof. intros H. field. exact H. Qed.

Lemma qltb_false (x y : Q) : qltb x y = false -> y <= x.
Proof.
  unfold qltb. destruct (Qle_bool y x) eqn:E; intros H; [|discriminate].
  now apply Qle_bool_iff.
Qed.

Lemma qltb_true (x y : Q) : qltb x y = true -> x < y.
Proof.
  unfold qltb. destruct (Qle_bool y x) eqn:E; [discriminate|]. intros _.
  apply Qnot_le_lt. intros H. apply Qle_bool_iff in H. congruence.
Qed.

Lemma within_tolerance (x : Q) : x == 1 -> Qabs (x - 1) <= 1 # 1000000.
Proof. intros H. rewrite H. discriminate. Qed.

Ltac destruct_inner_ifs :=
  repeat match goal with
  | |- context [if ?b then _ else _] =>
      lazymatch b with
      | context [if _ then _ else _] => fail
      | _ => destruct b eqn:?
      end
  end.

(** Closes [a/t + b/t + c/t == 1] or the fallback triple's sum, using the
    hypothesis that the total was not below the threshold [eps]. *)
Ltac close_norm :=
  lazymatch goal with
  | |- ?a / (?a + ?b + ?c) + ?b / (?a + ?b + ?c) + ?c / (?a + ?b + ?c) == 1 =>
      apply normalised_sum; intros Hz;
      match goal with
      | E : qltb _ (1 # 1000) = false |- _ =>
          apply qltb_false in E; rewrite Hz in E; vm_compute in E; now apply E
      | E : qltb 0 _ = true |- _ =>
          apply qltb_true in E; rewrite Hz in E; vm_compute in E; discriminate
      end
  | |- _ => vm_compute; reflexivity
  end.

Lemma Report_calc_sum (std : list Q -> Q) (fm : Report.FlowMetrics) :
  (1 <= Report.count fm)%Z ->
  exists p, Report.calculate_probabilities std fm = Some p /\
            Report.p_c p + Report.p_n p + Report.p_s p == 1.
Proof.
  intros Hc. unfold Report.calculate_probabilities.
  destruct_inner_ifs; cbn -[Qplus Qdiv Qmult qltb];
  try (match goal with H : (_ =? 0)%Z = true |- _ => apply Z.eqb_eq in H; lia end);
  eexists; (split; [reflexivity|]); cbn [Report.p_c Report.p_n Report.p_s]; close_norm.
Qed.

Lemma Professional_sum (std : list Q -> Q) (stats : Professional.Stats) :
  let m := Professional.compute_flow_metrics std stats in
  Professional.m_client m + Professional.m_network m + Professional.m_server m == 1.
Proof.
  unfold Professional.compute_flow_metrics.
  destruct_inner_ifs; cbn [Professional.m_client Professional.m_network Professional.m_server];
  close_norm.
Qed.

(** C1 (amended).  For every flow with at least one packet,
    calculate_probabilities (analyze_and_generate_report.py) returns a
    triple whose components sum to 1 within 1e-6; its no-signal fallback
    (total score below 0.001) is (0.33, 0.33, 0.34).  compute_flow_metrics
    (tcp_professional_report.py) returns a triple summing to 1 within 1e-6
    for every input; its fallback (total not positive) is 1/3 each. *)
Theorem diagnosis_sums_to_one (std : list Q -> Q) (fm : Report.FlowMetrics)
    (stats : Professional.Stats) (Hc : (1 <= Report.count fm)%Z) :
  (exists p, Report.calculate_probabilities std fm = Some p /\
     Qabs (Report.p_c p + Report.p_n p + Report.p_s p - 1) <= 1 # 1000000) /\
  (let m := Professional.compute_flow_metrics std stats in
   Qabs (Professional.m_client m + Professional.m_network m + Professional.m_server m - 1)
     <= 1 # 1000000).
Proof.
  split.
  - destruct (Report_calc_sum std fm Hc) as [p [Hp Hs]].
    exists p. split; [exact Hp | now apply within_tolerance].
  - apply within_tolerance, Professional_sum.
Qed.

Lemma diagnosis_sums_to_one_witness :
  (1 <= Report.count (Report.get_fm (Report.flows (Report.analyze_pcap Samples.retrans_only))
                        Samples.key_ab))%Z /\
  (exists p, Report.calculate_probabilities (fun _ => 0)
     (Report.get_fm (Report.flows (Report.analyze_pcap Samples.retrans_only)) Samples.key_ab)
     = Some p /\ Qabs (Report.p_c p + Report.p_n p + Report.p_s p - 1) <= 1 # 1000000).
Proof.
  assert (H : (1 <= Report.count (Report.get_fm (Report.flows
                 (Report.analyze_pcap Samples.retrans_only)) Samples.key_ab))%Z)
    by (vm_compute; discriminate).
  split; [exact H|].
  exact (proj1 (diagnosis_sums_to_one (fun _ => 0) _ (Professional.mkStats [] [] 0 0 0) H)).
Defined.

(** C1 counterexample: a one-packet flow with no signal gets the fallback
    triple of calculate_probabilities, which is (0.33, 0.33, 0.34) and not
    the uniform 1/3 triple. *)
Lemma fallback_triple_not_uniform :
  Report.calculate_probabilities (fun _ => 0)
    (Report.get_fm (Report.flows (Report.analyze_pcap Samples.one_packet)) Samples.key_ab)
  = Some (Report.mkProb (33 # 100) (33 # 100) (34 # 100) 0 0 0 65535) /\
  ~ (33 # 100 == 1 # 3) /\ ~ (34 # 100 == 1 # 3).
Proof.
  split; [vm_compute; reflexivity|].
  split; vm_compute; discriminate.
Qed.

(* ------------------------------------------------------------------ *)
(** ** analyze_pcap: every flow has [0 <= retrans <= count] *)

Section ReportInvariant.
Import Report.

Lemma get_fm_update_eq k f m : get_fm (update_fm k f m) k = f (get_fm m k).
Proof. unfold get_fm, update_fm. now rewrite lookup_insert_eq. Qed.

Lemma get_fm_update_ne k k' f m : k <> k' -> get_fm (update_fm k f m) k' = get_fm m k'.
Proof. intros H. unfold get_fm, update_fm. now rewrite lookup_insert_ne. Qed.





End ReportInvariant.

(* ------------------------------------------------------------------ *)
(** ** Diagnostic scorer on degenerate flows *)








(* ------------------------------------------------------------------ *)
(** ** Flow-key canonicalisation *)

Lemma endpoint_ltb_swap (e1 e2 : Endpoint) :
  e1 <> e2 -> endpoint_ltb e2 e1 = negb (endpoint_ltb e1 e2).
Proof.
  destruct e1 as [a p], e2 as [b q]. intros Hne. unfold endpoint_ltb. cbn.
  rewrite (String.compare_antisym b a).
  destruct (String.compare a b) eqn:E; cbn.
  - apply String.compare_eq_iff in E. subst b.
    assert (p <> q) by congruence.
    destruct (Z.ltb p q) eqn:E1, (Z.ltb q p) eqn:E2; cbn; try reflexivity;
      rewrite ?Z.ltb_lt, ?Z.ltb_ge in E1, E2; lia.
  - reflexivity.
  - reflexivity.
Qed.

Lemma session_key_swap (a : string) (p : Z) (b : string) (q : Z) :
  session_key (a, p, b, q) = session_key (b, q, a, p).
Proof.
  unfold session_key.
  destruct (decide ((a, p) = (b, q))) as [Heq|Hne].
  - injection Heq as -> ->. reflexivity.
  - rewrite (endpoint_ltb_swap (a, p) (b, q) Hne).
    destruct (endpoint_ltb (a, p) (b, q)); reflexivity.
Qed.

Lemma pair_set_session_key k : pair_set (session_key k) = pair_set k.
Proof.
  destruct k as [[[a p] b] q]. unfold session_key.
  destruct (endpoint_ltb (a, p) (b, q)); [reflexivity|]. cbn. set_solver.
Qed.

Lemma pair_set_eq (x y u v : Endpoint) :
  ({[x; y]} : gset Endpoint) = {[u; v]} -> (x = u /\ y = v) \/ (x = v /\ y = u).
Proof.
  intros H.
  assert (Hx : x ∈ ({[u; v]} : gset Endpoint)) by (rewrite <- H; set_solver).
  assert (Hy : y ∈ ({[u; v]} : gset Endpoint)) by (rewrite <- H; set_solver).
  assert (Hu : u ∈ ({[x; y]} : gset Endpoint)) by (rewrite H; set_solver).
  assert (Hv : v ∈ ({[x; y]} : gset Endpoint)) by (rewrite H; set_solver).
  apply elem_of_union in Hx, Hy, Hu, Hv.
  rewrite !elem_of_singleton in Hx, Hy, Hu, Hv.
  destruct Hx, Hy, Hu, Hv; subst; auto.
Qed.

Lemma session_key_iff k1 k2 : session_key k1 = session_key k2 <-> pair_set k1 = pair_set k2.
Proof.
  split.
  - intros H. rewrite <- (pair_set_session_key k1), <- (pair_set_session_key k2), H.
    reflexivity.
  - destruct k1 as [[[a p] b] q], k2 as [[[c r] d] t]. cbn. intros H.
    destruct (pair_set_eq _ _ _ _ H) as [[Hx Hy]|[Hx Hy]];
      injection Hx as -> ->; injection Hy as -> ->; [reflexivity|].
    apply session_key_swap.
Qed.

(** Two maps with the same kernel on a list build image sets of equal size. *)
Lemma size_image_same_kernel {A B C} `{Countable B} `{Countable C}
    (f : A -> B) (g : A -> C) (l : list A) :
  (forall x y, f x = f y <-> g x = g y) ->
  size (list_to_set (map f l) : gset B) = size (list_to_set (map g l) : gset C).
Proof.
  intros Hk. induction l as [|x l IH]; [reflexivity|]. cbn.
  destruct (decide (f x ∈ (list_to_set (map f l) : gset B))) as [Hin|Hout].
  - assert (Hg : g x ∈ (list_to_set (map g l) : gset C)).
    { apply elem_of_list_to_set in Hin. apply elem_of_list_to_set.
      apply list_elem_of_fmap in Hin as [y [Hy Hyl]].
      apply list_elem_of_fmap. exists y. split; [|exact Hyl]. now apply Hk. }
    rewrite !subseteq_union_1_L by set_solver. exact IH.
  - assert (Hg : g x ∉ (list_to_set (map g l) : gset C)).
    { intros Hin. apply Hout. apply elem_of_list_to_set in Hin. apply elem_of_list_to_set.
      apply list_elem_of_fmap in Hin as [y [Hy Hyl]].
      apply list_elem_of_fmap. exists y. split; [|exact Hyl]. now apply Hk. }
    rewrite !size_union by set_solver. rewrite !size_singleton. lia.
Qed.

Lemma unique_sessions_list (keys : list (string * Z * string * Z)) :
  unique_sessions keys = list_to_set (map session_key keys).
Proof.
  unfold unique_sessions.
  assert (G : forall (l : list (string * Z * string * Z))
                     (acc : gset (string * Z * string * Z)),
    fold_left (fun acc k => {[session_key k]} ∪ acc) l acc =
    list_to_set (map session_key l) ∪ acc).
  { induction l as [|x l IH]; intros acc; cbn; [set_solver|]. rewrite IH. set_solver. }
  rewrite G. set_solver.
Qed.

Lemma get_stream_id_swap_endpoints a p b q :
  (get_stream_id a p b q).1 = (get_stream_id b q a p).1.
Proof.
  unfold get_stream_id. cbn.
  destruct (decide ((a, p) = (b, q))) as [Heq|Hne].
  - injection Heq as -> ->. reflexivity.
  - rewrite (endpoint_ltb_swap (b, q) (a, p)) by congruence.
    destruct (endpoint_ltb (b, q) (a, p)); reflexivity.
Qed.

Lemma get_stream_id_directions a p b q :
  (a, p) <> (b, q) ->
  ((get_stream_id a p b q).2 + (get_stream_id b q a p).2)%Z = 1%Z.
Proof.
  intros Hne. unfold get_stream_id. cbn.
  rewrite (endpoint_ltb_swap (b, q) (a, p)) by congruence.
  destruct (endpoint_ltb (b, q) (a, p)); cbn;
    repeat case_bool_decide; try congruence; reflexivity.
Qed.

(** C2: flow keys are direction-symmetric. [session_key] maps A->B and B->A
    over the same 4-tuple to the same key; [get_stream_id] gives both
    directions the same stream, with direction 0 for one sender and 1 for
    the other; and the session count over any list of directional keys
    equals the number of distinct unordered endpoint pairs among them. *)
Theorem flow_key_symmetric (a : string) (p : Z) (b : string) (q : Z)
    (Hne : (a, p) <> (b, q)) :
  session_key (a, p, b, q) = session_key (b, q, a, p) /\
  (get_stream_id a p b q).1 = (get_stream_id b q a p).1 /\
  ((get_stream_id a p b q).2 + (get_stream_id b q a p).2)%Z = 1%Z /\
  (forall keys : list (string * Z * string * Z),
     total_tcp_sessions keys =
     size (list_to_set (map pair_set keys) : gset (gset Endpoint))).
Proof.
  split; [apply session_key_swap|].
  split; [apply get_stream_id_swap_endpoints|].
  split; [now apply get_stream_id_directions|].
  intros keys. unfold total_tcp_sessions. rewrite unique_sessions_list.
  apply size_image_same_kernel. apply session_key_iff.
Qed.

Lemma flow_key_symmetric_witness :
  ("10.0.0.1", 40000%Z) <> ("10.0.0.2", 80%Z) /\
  session_key ("10.0.0.1", 40000%Z, "10.0.0.2", 80%Z) =
  session_key ("10.0.0.2", 80%Z, "10.0.0.1", 40000%Z).
Proof.
  assert (H : ("10.0.0.1", 40000%Z) <> ("10.0.0.2", 80%Z)) by discriminate.
  split; [exact H|].
  exact (proj1 (flow_key_symmetric "10.0.0.1" 40000 "10.0.0.2" 80 H)).
Defined.

(* ------------------------------------------------------------------ *)
(** ** pcap_analyzer_v4.py: the out-of-order counter *)

Section V4OutOfOrder.
Import V4.

Lemma anomaly_process_ooo seq len win flags f :
  out_of_order (anomaly_process seq len win flags f) = out_of_order f.
Proof.
  unfold anomaly_process.
  destruct (Z.ltb 0 len); [|reflexivity].
  case_bool_decide as Hin; cbn.
  - rewrite bool_decide_false by (intros Hn; exact (Hn Hin)).
    rewrite andb_false_r. reflexivity.
  - rewrite bool_decide_false by (intros Hn; apply Hn; set_solver).
    rewrite andb_false_r. reflexivity.
Qed.

Lemma get_flow_ooo m k : ooo_ok m -> out_of_order (get_flow m k) = 0%Z.
Proof.
  intros Hm. unfold get_flow.
  destruct (m !! k) as [f|] eqn:E; cbn; [exact (Hm k f E)|reflexivity].
Qed.

Lemma modify_ooo k g m :
  (forall f, out_of_order (g f) = out_of_order f) ->
  ooo_ok m -> ooo_ok (modify k g m).
Proof.
  intros Hg Hm. unfold modify, ooo_ok.
  apply map_Forall_insert_2; [|exact Hm].
  rewrite Hg. now apply get_flow_ooo.
Qed.

Lemma ensure_ooo (m : gmap FlowKey FlowMetrics) k f0 :
  ooo_ok m -> out_of_order f0 = 0%Z ->
  ooo_ok (match m !! k with Some _ => m | None => <[k := f0]> m end).
Proof.
  intros Hm Hf. destruct (m !! k); [exact Hm|].
  apply map_Forall_insert_2; assumption.
Qed.

Lemma process_packet_ooo st s :
  ooo_ok (flows st) -> ooo_ok (flows (process_packet st s)).
Proof.
  intros H. unfold process_packet. cbn [flows].
  apply modify_ooo; [intros; apply anomaly_process_ooo|].
  apply modify_ooo; [reflexivity|].
  match goal with
  | |- ooo_ok (if _ then ?body else ?m0) => set (m1 := m0)
  end.
  assert (Hm1 : ooo_ok m1).
  { apply modify_ooo; [reflexivity|].
    apply ensure_ooo; [|reflexivity]. apply ensure_ooo; [exact H|reflexivity]. }
  clearbody m1.
  destruct (has_flag (seg_flags s) TH_ACK); [|exact Hm1].
  destruct (_ !! seg_ack s); [|exact Hm1].
  apply modify_ooo; [reflexivity|exact Hm1].
Qed.

Lemma run_ooo segs : ooo_ok (flows (run segs)).
Proof.
  unfold run.
  assert (G : forall l st, ooo_ok (flows st) -> ooo_ok (flows (fold_left process_packet l st))).
  { induction l as [|x l IH]; intros st Hst; cbn; [exact Hst|].
    apply IH, process_packet_ooo, Hst. }
  apply G. cbn [flows init_state]. apply map_Forall_empty.
Qed.

End V4OutOfOrder.

(** C10: in pcap_analyzer_v4.py the out-of-order test of
    AnomalyDetector.process runs after [seq] has been added to
    [seen_seqs], so it never fires: every flow that [run] builds over any
    segment list has [out_of_order = 0]. *)
Theorem out_of_order_never_counted (segs : list Segment) (k : V4.FlowKey)
    (fm : V4.FlowMetrics) (Hk : V4.flows (V4.run segs) !! k = Some fm) :
  V4.out_of_order fm = 0%Z.
Proof. exact (run_ooo segs k fm Hk). Qed.

Lemma out_of_order_never_counted_witness :
  V4.out_of_order
    (V4.get_flow (V4.flows (V4.run Samples.retrans_flow)) Samples.key_ab) = 0%Z.
Proof.
  assert (H : V4.flows (V4.run Samples.retrans_flow) !! Samples.key_ab =
              Some (V4.get_flow (V4.flows (V4.run Samples.retrans_flow)) Samples.key_ab))
    by (vm_compute; reflexivity).
  exact (out_of_order_never_counted _ _ _ H).
Defined.

(* ------------------------------------------------------------------ *)
(** ** Retransmission counting on the sample flow *)

(** C3: on the flow of payload segments with seq = 100, 200, 100, 300 (100
    bytes each), analyze_pcap counts one retransmission and pcap_analyzer_v4
    counts one retransmission and no out-of-order segment; in both, the
    high-water mark [max_seq] is updated to the largest start sequence
    number of a payload segment (not [seq + len]) and ends at 300. *)
Theorem retrans_flow_counts :
  let fm := Report.get_fm (Report.flows (Report.analyze_pcap Samples.retrans_flow))
              Samples.key_ab in
  let g := V4.get_flow (V4.flows (V4.run Samples.retrans_flow)) Samples.key_ab in
  Report.retrans fm = 1%Z /\ Report.max_seq fm = 300%Z /\
  V4.retransmissions g = 1%Z /\ V4.out_of_order g = 0%Z /\ V4.max_seq g = 300%Z /\
  (forall ts seq len flags f,
     Report.max_seq (Report.fm_retrans_step ts seq len flags f) =
     if Z.ltb 0 len then Z.max (Report.max_seq f) seq else Report.max_seq f) /\
  (forall seq len win flags f,
     V4.max_seq (V4.anomaly_process seq len win flags f) =
     if Z.ltb 0 len then Z.max (V4.max_seq f) seq else V4.max_seq f).
Proof.
  cbv zeta. split; [vm_compute; reflexivity|].
  split; [vm_compute; reflexivity|].
  split; [vm_compute; reflexivity|].
  split; [vm_compute; reflexivity|].
  split; [vm_compute; reflexivity|].
  split.
  - intros ts seq len flags f. unfold Report.fm_retrans_step.
    destruct (Z.ltb 0 len); [|reflexivity].
    destruct (_ && _); [reflexivity|].
    destruct (bool_decide _); reflexivity.
  - intros seq len win flags f. unfold V4.anomaly_process.
    destruct (Z.ltb 0 len); [|reflexivity].
    destruct (bool_decide _); cbn;
      destruct (Z.ltb_spec (V4.max_seq f) seq); lia.
Qed.

(** C3 does not hold as stated: [max_seq] ends at 300, not 400. *)
Lemma retrans_flow_max_seq_not_400 :
  Report.max_seq (Report.get_fm (Report.flows (Report.analyze_pcap Samples.retrans_flow))
                   Samples.key_ab) <> 400%Z /\
  V4.max_seq (V4.get_flow (V4.flows (V4.run Samples.retrans_flow)) Samples.key_ab)
    <> 400%Z.
Proof. vm_compute. split; discriminate. Qed.

(* ------------------------------------------------------------------ *)
(** ** RTT correlation and Karn's rule *)

(** C4: on data at t = 1.000 (seq 100, 50 bytes) and the peer's ACK 150 at
    t = 1.050, analyze_pcap and pcap_analyzer_v4 each record exactly one RTT
    sample, 0.050, on the data's direction and none on the other. Karn's rule
    holds in pcap_analyzer_v4: a payload segment whose seq was already seen
    registers no pending entry, and with a retransmitted copy of the data
    the single sample is still the one of the original send. *)
Theorem rtt_correlation (seq len : Z) (ts : Q) (f : V4.FlowMetrics)
    (Hlen : (0 < len)%Z) (Hseen : seq ∈ V4.seen_seqs f) :
  map Qred (Report.rtt_samples
    (Report.get_fm (Report.flows (Report.analyze_pcap Samples.rtt_flow)) Samples.key_ab))
    = [1 # 20] /\
  Report.rtt_samples
    (Report.get_fm (Report.flows (Report.analyze_pcap Samples.rtt_flow)) Samples.key_ba)
    = [] /\
  map Qred (V4.rtt_samples
    (V4.get_flow (V4.flows (V4.run Samples.rtt_flow)) Samples.key_ab)) = [1 # 20] /\
  V4.rtt_samples (V4.get_flow (V4.flows (V4.run Samples.rtt_flow)) Samples.key_ba) = [] /\
  V4.unacked_packets (V4.rtt_process seq len ts f) = V4.unacked_packets f /\
  map Qred (V4.rtt_samples
    (V4.get_flow (V4.flows (V4.run Samples.rtt_flow_retrans)) Samples.key_ab)) = [1 # 20].
Proof.
  split; [vm_compute; reflexivity|].
  split; [vm_compute; reflexivity|].
  split; [vm_compute; reflexivity|].
  split; [vm_compute; reflexivity|].
  split; [|vm_compute; reflexivity].
  unfold V4.rtt_process. cbn [V4.unacked_packets].
  rewrite (proj2 (Z.ltb_lt 0 len) Hlen).
  rewrite bool_decide_false by (intros Hn; exact (Hn Hseen)). reflexivity.
Qed.

Lemma rtt_correlation_witness :
  V4.unacked_packets
    (V4.rtt_process 100 50 (102 # 100)
       (V4.get_flow (V4.flows (V4.run [Samples.a2b 1 100 1 Samples.PSH_ACK 65535 50]))
          Samples.key_ab)) =
  V4.unacked_packets
    (V4.get_flow (V4.flows (V4.run [Samples.a2b 1 100 1 Samples.PSH_ACK 65535 50]))
       Samples.key_ab).
Proof.
  refine (proj1 (proj2 (proj2 (proj2 (proj2
            (rtt_correlation 100 50 (102 # 100) _ _ _)))))).
  - lia.
  - apply (bool_decide_unpack _). vm_compute. reflexivity.
Defined.

(** C4 does not hold for analyze_pcap: the retransmitted copy at t = 1.020
    re-registers the pending entry for ACK 150, so the one sample it records
    is 0.030, measured from the copy. *)
Lemma report_no_karn :
  map Qred (Report.rtt_samples
    (Report.get_fm (Report.flows (Report.analyze_pcap Samples.rtt_flow_retrans))
       Samples.key_ab)) = [3 # 100].
Proof. vm_compute. reflexivity. Qed.

(* ------------------------------------------------------------------ *)
(** ** Per-IP aggregation *)

Lemma Qplus_swap_r (x a b : Q) : x + a + b = x + b + a.
Proof.
  destruct x as [xn xd], a as [an ad], b as [bn bd]. unfold Qplus. cbn.
  f_equal.
  - rewrite !Pos2Z.inj_mul. ring.
  - apply Pos2Z.inj. rewrite !Pos2Z.inj_mul. ring.
Qed.

Lemma fold_left_perm {A B} (f : A -> B -> A)
    (Hf : forall a x y, f (f a x) y = f (f a y) x) (l1 l2 : list B) :
  Permutation l1 l2 -> forall a, fold_left f l1 a = fold_left f l2 a.
Proof.
  induction 1 as [|x l1 l2 _ IH|x y l|l1 l2 l3 _ IH1 _ IH2]; intros a; cbn.
  - reflexivity.
  - apply IH.
  - rewrite Hf. reflexivity.
  - rewrite IH1. apply IH2.
Qed.

(** A defaultdict update [m[key(r)] = g(r, m[key(r)])] commutes with itself
    when the per-entry updates commute. *)
Lemma map_step_comm {R K V} `{Countable K} (key : R -> K) (g : R -> V -> V) (z : V)
    (Hg : forall r1 r2 v, g r1 (g r2 v) = g r2 (g r1 v)) (m : gmap K V) (r1 r2 : R) :
  let step m r := <[key r := g r (default z (m !! key r))]> m in
  step (step m r1) r2 = step (step m r2) r1.
Proof.
  cbv zeta. destruct (decide (key r1 = key r2)) as [E|E].
  - rewrite <- E. rewrite !lookup_insert_eq, !insert_insert_eq. cbn. rewrite Hg. reflexivity.
  - rewrite !lookup_insert_ne by congruence. apply insert_insert_ne. congruence.
Qed.

Section AggregateProps.
Import Aggregate.

Lemma add_row_comm r1 r2 st : add_row r1 (add_row r2 st) = add_row r2 (add_row r1 st).
Proof.
  unfold add_row. cbn. f_equal; first [apply Qplus_swap_r | lia].
Qed.

Lemma add_prob_comm r1 r2 p : add_prob r1 (add_prob r2 p) = add_prob r2 (add_prob r1 p).
Proof.
  destruct p as [[c n] s]. unfold add_prob. cbn. rewrite !(Qplus_swap_r _ (row_p_client r1)),
    !(Qplus_swap_r _ (row_p_network r1)), !(Qplus_swap_r _ (row_p_server r1)).
  reflexivity.
Qed.

Lemma ip_stats_step_comm m r1 r2 :
  ip_stats_step (ip_stats_step m r1) r2 = ip_stats_step (ip_stats_step m r2) r1.
Proof. exact (map_step_comm row_src_ip add_row ip_stat_zero add_row_comm m r1 r2). Qed.

Lemma trend_step_comm ms r1 r2 :
  trend_step (trend_step ms r1) r2 = trend_step (trend_step ms r2) r1.
Proof.
  destruct ms as [sm dm]. unfold trend_step. f_equal.
  - exact (map_step_comm row_src_ip add_prob prob_zero add_prob_comm sm r1 r2).
  - exact (map_step_comm row_dst_ip add_prob prob_zero add_prob_comm dm r1 r2).
Qed.

End AggregateProps.

(** C9: the per-IP aggregation is a function of the set of flow rows alone.
    generate_plot starts from a fresh defaultdict on every call and the
    trend script's loop starts from its empty module-level defaultdicts, so
    two runs over the same rows, in the same or in any other order, give
    identical per-IP sums and counts. (The model's sums are exact; with
    floats, a different order may change the last bits.) *)
Theorem aggregation_idempotent (rows rows' : list Aggregate.FlowRow)
    (Hperm : Permutation rows rows') :
  Aggregate.ip_stats rows = Aggregate.ip_stats rows' /\
  Aggregate.trend_ip_stats rows = Aggregate.trend_ip_stats rows'.
Proof.
  split.
  - unfold Aggregate.ip_stats. apply fold_left_perm; [|exact Hperm].
    intros; apply ip_stats_step_comm.
  - unfold Aggregate.trend_ip_stats. apply fold_left_perm; [|exact Hperm].
    intros; apply trend_step_comm.
Qed.

Lemma aggregation_idempotent_witness :
  let r1 := Aggregate.mkRow "10.0.0.1" "10.0.0.2" (1 # 2) (1 # 4) (1 # 4) in
  let r2 := Aggregate.mkRow "10.0.0.1" "10.0.0.3" (1 # 5) (3 # 5) (1 # 5) in
  Aggregate.ip_stats [r1; r2] = Aggregate.ip_stats [r2; r1] /\
  Aggregate.trend_ip_stats [r1; r2] = Aggregate.trend_ip_stats [r2; r1].
Proof.
  cbv zeta. apply aggregation_idempotent. apply perm_swap.
Defined.

(* ------------------------------------------------------------------ *)
(** ** Resolving an ACK against the pending map *)

(** C5: an ACK-bearing segment resolves only the pending entry whose
    expected ACK equals its acknowledgment number, whatever its payload and
    flags. In analyze_pcap the reverse flow's pending map becomes
    [delete ack pending] (the segment's own data, if any, is registered
    under its own flow key, distinct from the reverse one unless both
    endpoints coincide); in StreamTracker.update the stream's
    [pending_acks], after this segment's own registration [p1], becomes
    [delete ack p1]. Every other entry stays, including those with a
    smaller expected ACK. *)
Theorem ack_deletes_matching_entry (st : Report.State) (s : Segment)
    (t : V5.StreamTracker) (ts : Q) (direction : Z) (sent sent' : Q) (p1 : gmap Z Q)
    (Hack : has_flag (seg_flags s) TH_ACK = true)
    (Hkey : (seg_src s, seg_sport s) <> (seg_dst s, seg_dport s))
    (HR : default ∅ (Report.unacked_packets st !!
                       (seg_dst s, seg_dport s, seg_src s, seg_sport s)) !! seg_ack s
          = Some sent)
    (Hp1 : p1 = if Z.ltb 0 (seg_payload_len s) || has_flag (seg_flags s) TH_SYN
                then <[(seg_seq s + seg_payload_len s
                        + (if has_flag (seg_flags s) TH_SYN then 1 else 0)
                        + (if has_flag (seg_flags s) TH_FIN then 1 else 0))%Z := ts]>
                       (V5.pending_acks t)
                else V5.pending_acks t)
    (HV : p1 !! seg_ack s = Some sent') :
  Report.unacked_packets (Report.analyze_step st s) !!
      (seg_dst s, seg_dport s, seg_src s, seg_sport s) =
    Some (delete (seg_ack s)
            (default ∅ (Report.unacked_packets st !!
                          (seg_dst s, seg_dport s, seg_src s, seg_sport s)))) /\
  V5.pending_acks (V5.update s ts direction t) = delete (seg_ack s) p1.
Proof.
  split.
  - unfold Report.analyze_step. rewrite Hack, HR. cbv zeta.
    destruct (qltb 0 (seg_ts s - sent) && qltb (seg_ts s - sent) 10); cbn beta iota;
      (destruct (Z.ltb 0 (seg_payload_len s)); cbn [Report.unacked_packets];
       [rewrite lookup_insert_ne by (intros E; apply Hkey; congruence)|]);
      apply lookup_insert_eq.
  - unfold V5.update. cbv zeta. rewrite <- Hp1. rewrite Hack, HV.
    destruct (Z.ltb 0 (seg_payload_len s)); [destruct (bool_decide _)|]; reflexivity.
Qed.

Lemma ack_deletes_matching_entry_witness :
  Report.unacked_packets
    (Report.analyze_step (Report.analyze_pcap [Samples.a2b 1 100 1 Samples.PSH_ACK 65535 50])
       (Samples.b2a (105 # 100) 1 150 Samples.PSH_ACK 65535 20)) !! Samples.key_ab = Some ∅ /\
  V5.pending_acks
    (V5.update (Samples.b2a (105 # 100) 1 150 Samples.PSH_ACK 65535 20) (105 # 100) 1
       (V5.update (Samples.a2b 1 100 1 Samples.PSH_ACK 65535 50) 1 0 V5.new_StreamTracker))
    = {[21%Z := 105 # 100]}.
Proof.
  destruct (ack_deletes_matching_entry
              (Report.analyze_pcap [Samples.a2b 1 100 1 Samples.PSH_ACK 65535 50])
              (Samples.b2a (105 # 100) 1 150 Samples.PSH_ACK 65535 20)
              (V5.update (Samples.a2b 1 100 1 Samples.PSH_ACK 65535 50) 1 0 V5.new_StreamTracker)
              (105 # 100) 1 1 1
              (<[21%Z := 105 # 100]> {[150%Z := 1]})
              eq_refl ltac:(vm_compute; congruence)
              ltac:(vm_compute; reflexivity) ltac:(vm_compute; reflexivity)
              ltac:(vm_compute; reflexivity)) as [H1 H2].
  split.
  - etransitivity; [exact H1|]. vm_compute. reflexivity.
  - etransitivity; [exact H2|]. vm_compute. reflexivity.
Defined.

(** C5 does not hold: with two segments pending (expected ACKs 150 and
    200), the cumulative ACK 200 resolves 200 and leaves 150 behind, in
    analyze_pcap and in pcap_analyzer_v5. *)
Lemma cumulative_ack_leaves_stale_entry :
  (default ∅ (Report.unacked_packets (Report.analyze_pcap Samples.cumulative_ack_flow)
                !! Samples.key_ab) : gmap Z Q) !! 150%Z = Some 1 /\
  V5.pending_acks
    (fold_left (fun t s =>
                  V5.update s (seg_ts s)
                    (get_stream_id (seg_src s) (seg_sport s) (seg_dst s) (seg_dport s)).2 t)
       Samples.cumulative_ack_flow V5.new_StreamTracker) !! 150%Z = Some 1.
Proof. vm_compute. split; reflexivity. Qed.

(* ------------------------------------------------------------------ *)
(** ** Fast versus timeout retransmissions *)





(* ------------------------------------------------------------------ *)
(** ** Zero-window events *)

(** C7: pcap_analyzer_v10 (ForensicsEngine.analyze_packet) and
    pcap_analyzer_v4 (AnomalyDetector.process) count a zero-window event
    exactly when the window is 0 and RST is not set, so a RST with window 0
    is never counted there; pcap_analyzer_v9 (ForensicEngine._analyze_packet)
    counts every segment with window 0, RST or not. *)
Theorem zero_window_rule (direction : Z) (ts : Q) (s : Segment)
    (f10 : V10.StreamMetrics) (f4 : V4.FlowMetrics) (f9 : V9.FlowMetrics) :
  V10.zero_wins (V10.update_stream direction ts s f10) =
    (if Z.eqb (seg_win s) 0 && negb (has_flag (seg_flags s) TH_RST)
     then V10.zero_wins f10 + 1 else V10.zero_wins f10)%Z /\
  V4.zero_window_count
      (V4.anomaly_process (seg_seq s) (seg_payload_len s) (seg_win s) (seg_flags s) f4) =
    (if Z.eqb (seg_win s) 0 && negb (has_flag (seg_flags s) TH_RST)
     then V4.zero_window_count f4 + 1 else V4.zero_window_count f4)%Z /\
  V9.zero_win_events (V9.analyze_packet f9 ts s) =
    (if Z.eqb (seg_win s) 0 then V9.zero_win_events f9 + 1 else V9.zero_win_events f9)%Z.
Proof.
  split; [|split].
  - unfold V10.update_stream.
    repeat match goal with
    | |- context [match ?x with pair _ _ => _ end] =>
        lazymatch x with pair _ _ => fail | _ => destruct x end
    end; reflexivity.
  - unfold V4.anomaly_process. destruct (Z.ltb 0 _); [|reflexivity].
    destruct (bool_decide _); reflexivity.
  - unfold V9.analyze_packet.
    repeat match goal with
    | |- context [match ?x with pair _ _ => _ end] =>
        lazymatch x with pair _ _ => fail | _ => destruct x end
    end; reflexivity.
Qed.

(** C7 does not hold for pcap_analyzer_v9: a RST with window 0 counts. *)
Lemma v9_counts_rst_zero_window :
  has_flag (seg_flags Samples.rst_zero_win) TH_RST = true /\
  V9.zero_win_events (V9.observe V9.new_FlowMetrics 1 Samples.rst_zero_win) = 1%Z.
Proof. vm_compute. split; reflexivity. Qed.

(* ================================================================== *)
(** * Further properties of the scripts *)

(* ------------------------------------------------------------------ *)
(** ** analyze_and_generate_report.py: the flow table *)

Lemma size_singleton_union `{Countable A} (x : A) (X : gset A) :
  size ({[x]} ∪ X) = if bool_decide (x ∈ X) then size X else S (size X).
Proof.
  case_bool_decide as Hx.
  - rewrite subseteq_union_1_L by set_solver. reflexivity.
  - rewrite size_union by set_solver. rewrite size_singleton. reflexivity.
Qed.

Section ReportTable.
Import Report.

Lemma report_new_inv : report_fm_inv new_FlowMetrics.
Proof. unfold report_fm_inv. cbn. rewrite size_empty. repeat (split; [lia|]). constructor. Qed.

Lemma report_fm_add_rtt_inv r fm :
  0 < r /\ r < 10 -> report_fm_inv fm -> report_fm_inv (fm_add_rtt r fm).
Proof.
  intros Hr (H1 & H2 & H3 & H4 & H5 & H6 & H7 & H8).
  unfold report_fm_inv; cbn [rto_cnt retrans cont_retrans small_win_cnt count seen_seqs
    wins timestamps win_ts rtt_samples fm_add_rtt].
  repeat split; try lia. apply Forall_app. split; [exact H8|]. constructor; [exact Hr|constructor].
Qed.

Lemma fm_retrans_step_add_rtt ts seq len flags r fm :
  fm_retrans_step ts seq len flags (fm_add_rtt r fm) =
  fm_add_rtt r (fm_retrans_step ts seq len flags fm).
Proof.
  unfold fm_retrans_step, rto_hit. cbn [timestamps seen_seqs last_seq fm_add_rtt].
  destruct_inner_ifs; reflexivity.
Qed.

Lemma fm_small_win_add_rtt win flags r fm :
  fm_small_win win flags (fm_add_rtt r fm) = fm_add_rtt r (fm_small_win win flags fm).
Proof. unfold fm_small_win. destruct_inner_ifs; reflexivity. Qed.

Lemma report_own_update_inv s fm :
  report_fm_inv fm ->
  report_fm_inv (report_own_update s (fm_observe (seg_ts s) (seg_win s) (seg_payload_len s) fm)) /\
  (1 <= count (report_own_update s (fm_observe (seg_ts s) (seg_win s) (seg_payload_len s) fm)))%Z.
Proof.
  intros (H1 & H2 & H3 & H4 & H5 & H6 & H7 & H8).
  unfold report_own_update, fm_small_win, fm_retrans_step, fm_observe, report_fm_inv.
  cbn [rto_cnt retrans cont_retrans small_win_cnt count seen_seqs wins timestamps
       win_ts rtt_samples last_seq].
  destruct_inner_ifs;
  cbn [rto_cnt retrans cont_retrans small_win_cnt count seen_seqs wins timestamps
       win_ts rtt_samples];
  rewrite ?length_app, ?size_singleton_union; cbn [length];
  repeat match goal with H : bool_decide ?P = _ |- context [bool_decide ?P] => rewrite H end;
  repeat match goal with |- context [bool_decide ?P] => destruct (bool_decide P) end.
  all: try (repeat split; try exact H8; lia).
Qed.

Lemma report_obs_inv ts win len fm :
  report_fm_inv fm -> report_fm_inv (fm_observe ts win len fm) /\ (1 <= count (fm_observe ts win len fm))%Z.
Proof.
  intros (H1 & H2 & H3 & H4 & H5 & H6 & H7 & H8).
  unfold fm_observe, report_fm_inv.
  cbn [rto_cnt retrans cont_retrans small_win_cnt count seen_seqs wins timestamps
       win_ts rtt_samples].
  rewrite !length_app. cbn [length]. repeat split; try exact H8; lia.
Qed.

Lemma report_own_update_add_rtt s r fm : report_own_update s (fm_add_rtt r fm) = fm_add_rtt r (report_own_update s fm).
Proof. unfold report_own_update. rewrite fm_retrans_step_add_rtt. apply fm_small_win_add_rtt. Qed.

Lemma update_fm_forall (P : FlowMetrics -> Prop) k f m :
  map_Forall (fun _ => P) m -> P (f (get_fm m k)) -> map_Forall (fun _ => P) (update_fm k f m).
Proof. intros Hm Hk. unfold update_fm. apply map_Forall_insert_2; assumption. Qed.

Lemma get_fm_forall (P : FlowMetrics -> Prop) m k :
  map_Forall (fun _ => P) m -> is_Some (m !! k) -> P (get_fm m k).
Proof. intros Hm [v Hv]. unfold get_fm. rewrite Hv. exact (Hm k v Hv). Qed.

Lemma update_fm_compose k f g m : update_fm k g (update_fm k f m) = update_fm k (fun x => g (f x)) m.
Proof. unfold update_fm, get_fm. rewrite lookup_insert_eq, insert_insert_eq. reflexivity. Qed.

Lemma update_fm_is_Some k f m k' :
  is_Some (update_fm k f m !! k') <-> k = k' \/ is_Some (m !! k').
Proof.
  unfold update_fm. destruct (decide (k = k')) as [<-|Hne].
  - rewrite lookup_insert_eq. split; [auto|intros _; eexists; reflexivity].
  - rewrite lookup_insert_ne by exact Hne. split; [auto|intros [?|?]; [congruence|assumption]].
Qed.

Lemma report_step_inv st s : report_state_inv st -> report_state_inv (analyze_step st s).
Proof.
  intros [Hf Hu]. unfold analyze_step.
  set (fk := (seg_src s, seg_sport s, seg_dst s, seg_dport s)).
  set (rk := (seg_dst s, seg_dport s, seg_src s, seg_sport s)).
  set (M := flows st).
  set (obs := fm_observe (seg_ts s) (seg_win s) (seg_payload_len s)).
  assert (HP : map_Forall (fun _ => report_P) M) by exact Hf.
  assert (HM0 : map_Forall (fun _ => report_P) (update_fm fk obs M)).
  { apply update_fm_forall; [exact HP|]. apply report_obs_inv.
    destruct (M !! fk) eqn:E.
    - exact (proj1 (get_fm_forall _ M fk HP ltac:(rewrite E; eexists; reflexivity))).
    - unfold get_fm. rewrite E. apply report_new_inv. }
  assert (G : forall fl un,
    map_Forall (fun _ => report_P) fl ->
    report_P (report_own_update s (get_fm fl fk)) ->
    (forall k p, un !! k = Some p -> is_Some (fl !! k)) ->
    is_Some (fl !! fk) ->
    report_state_inv
      (mkState (update_fm fk (fm_small_win (seg_win s) (seg_flags s))
                  (update_fm fk (fm_retrans_step (seg_ts s) (seg_seq s)
                                   (seg_payload_len s) (seg_flags s)) fl))
               (if (0 <? seg_payload_len s)%Z
                then <[fk := <[(seg_seq s + seg_payload_len s)%Z := seg_ts s]>
                               (default ∅ (un !! fk))]> un
                else un)
               (packet_count st + 1))).
  { intros fl un Hfl Hown Hun Hfk. split; cbn [flows unacked_packets].
    - rewrite update_fm_compose. apply update_fm_forall; [exact Hfl|exact Hown].
    - intros k p Hk. rewrite update_fm_compose. apply update_fm_is_Some. right.
      destruct (0 <? seg_payload_len s)%Z; [|exact (Hun k p Hk)].
      destruct (decide (fk = k)) as [<-|Hne]; [exact Hfk|].
      rewrite lookup_insert_ne in Hk by exact Hne. exact (Hun k p Hk). }
  assert (Hobs : report_P (report_own_update s (obs (get_fm M fk)))).
  { assert (Hx : report_fm_inv (get_fm M fk)).
    { destruct (M !! fk) eqn:E.
      - exact (proj1 (get_fm_forall _ M fk HP ltac:(rewrite E; eexists; reflexivity))).
      - unfold get_fm. rewrite E. apply report_new_inv. }
    exact (report_own_update_inv s _ Hx). }
  assert (Hfk0 : is_Some (update_fm fk obs M !! fk)) by (apply update_fm_is_Some; auto).
  assert (Hun0 : forall k p, unacked_packets st !! k = Some p -> is_Some (update_fm fk obs M !! k)).
  { intros k p Hk. apply update_fm_is_Some. right. exact (Hu k p Hk). }
  assert (Hown0 : report_P (report_own_update s (get_fm (update_fm fk obs M) fk))).
  { rewrite get_fm_update_eq. exact Hobs. }
  destruct (has_flag (seg_flags s) TH_ACK); [|apply G; assumption].
  destruct (default ∅ (unacked_packets st !! rk) !! seg_ack s) as [sent|] eqn:Hp;
    [|apply G; assumption].
  assert (Hrk : is_Some (M !! rk)).
  { destruct (unacked_packets st !! rk) as [p|] eqn:E.
    - exact (Hu rk p E).
    - cbn in Hp. rewrite lookup_empty in Hp. discriminate. }
  assert (Hun1 : forall k p,
    <[rk := delete (seg_ack s) (default ∅ (unacked_packets st !! rk))]> (unacked_packets st) !! k
      = Some p -> is_Some (update_fm fk obs M !! k)).
  { intros k p Hk. destruct (decide (rk = k)) as [<-|Hne].
    - apply update_fm_is_Some. right. exact Hrk.
    - rewrite lookup_insert_ne in Hk by exact Hne. exact (Hun0 k p Hk). }
  destruct (qltb 0 (seg_ts s - sent) && qltb (seg_ts s - sent) 10) eqn:Hr;
    [|apply G; assumption].
  apply andb_true_iff in Hr as [Hr1 Hr2]. apply qltb_true in Hr1, Hr2.
  apply G.
  - apply update_fm_forall; [exact HM0|].
    destruct (get_fm_forall _ _ rk HM0 ltac:(apply update_fm_is_Some; right; exact Hrk))
      as [Hi Hc].
    split; [apply report_fm_add_rtt_inv; [split; assumption|exact Hi]|exact Hc].
  - destruct (decide (rk = fk)) as [Heq|Hne].
    + rewrite Heq, get_fm_update_eq, report_own_update_add_rtt.
      destruct Hown0 as [Hi Hc]. split; [apply report_fm_add_rtt_inv; [split; assumption|exact Hi]|exact Hc].
    + rewrite get_fm_update_ne by exact Hne. exact Hown0.
  - intros k p Hk. apply update_fm_is_Some. right. exact (Hun1 k p Hk).
  - apply update_fm_is_Some. right. exact Hfk0.
Qed.

Lemma report_pcap_inv segs : report_state_inv (analyze_pcap segs).
Proof.
  unfold analyze_pcap.
  assert (G : forall l st, report_state_inv st -> report_state_inv (fold_left analyze_step l st)).
  { induction l as [|x l IH]; intros st Hst; cbn; [exact Hst|]. apply IH, report_step_inv, Hst. }
  apply G. split; cbn.
  - apply map_Forall_empty.
  - intros k p Hk. rewrite lookup_empty in Hk. discriminate.
Qed.

End ReportTable.

Lemma Qnonneg_inject (z : Z) : (0 <= z)%Z -> 0 <= inject_Z z.
Proof. intros H. change 0 with (inject_Z 0). now rewrite <- Zle_Qle. Qed.

Lemma Qadd_nonneg (a b : Q) : 0 <= a -> 0 <= b -> 0 <= a + b.
Proof. intros Ha Hb. rewrite <- (Qplus_0_l 0). now apply Qplus_le_compat. Qed.

Ltac qnonneg :=
  repeat match goal with
  | |- 0 <= _ + _ => apply Qadd_nonneg
  | |- 0 <= _ * _ => apply Qmult_le_0_compat
  | |- 0 <= _ / _ => apply Qmult_le_0_compat; [|apply Qinv_le_0_compat]
  | |- 0 <= inject_Z _ => apply Qnonneg_inject; lia
  | |- 0 <= _ # _ => discriminate
  | |- 0 <= 0 => apply Qle_refl
  end.

Lemma ratio_range (a b c : Q) :
  0 <= a -> 0 <= b -> 0 <= c -> 0 < a + b + c ->
  0 <= a / (a + b + c) <= 1.
Proof.
  intros Ha Hb Hc Ht. split.
  - apply Qle_shift_div_l; [exact Ht|]. rewrite Qmult_0_l. exact Ha.
  - apply Qle_shift_div_r; [exact Ht|]. rewrite Qmult_1_l.
    rewrite <- (Qplus_0_r a) at 1. rewrite <- Qplus_assoc. apply Qplus_le_r.
    apply Qadd_nonneg; assumption.
Qed.

Lemma ratio_range_b (a b c : Q) :
  0 <= a -> 0 <= b -> 0 <= c -> 0 < a + b + c -> 0 <= b / (a + b + c) <= 1.
Proof.
  intros Ha Hb Hc Ht. assert (E : a + b + c == b + a + c) by ring.
  rewrite E in *. now apply ratio_range.
Qed.

Lemma ratio_range_c (a b c : Q) :
  0 <= a -> 0 <= b -> 0 <= c -> 0 < a + b + c -> 0 <= c / (a + b + c) <= 1.
Proof.
  intros Ha Hb Hc Ht. assert (E : a + b + c == c + a + b) by ring.
  rewrite E in *. now apply ratio_range.
Qed.

Lemma ratio_range3 (a b c : Q) :
  0 <= a -> 0 <= b -> 0 <= c -> 0 < a + b + c ->
  (0 <= a / (a + b + c) <= 1) /\ (0 <= b / (a + b + c) <= 1) /\ (0 <= c / (a + b + c) <= 1).
Proof.
  intros Ha Hb Hc Ht. split; [now apply ratio_range|]. split.
  - assert (E : a + b + c == b + a + c) by ring. rewrite E in *. now apply ratio_range.
  - assert (E : a + b + c == c + a + b) by ring. rewrite E in *. now apply ratio_range.
Qed.

Lemma Report_calc_range (std : list Q -> Q) (fm : Report.FlowMetrics) :
  (1 <= Report.count fm)%Z -> (0 <= Report.retrans fm)%Z -> (0 <= Report.rto_cnt fm)%Z ->
  exists p, Report.calculate_probabilities std fm = Some p /\
    (0 <= Report.p_c p <= 1) /\ (0 <= Report.p_n p <= 1) /\ (0 <= Report.p_s p <= 1).
Proof.
  intros Hc Hr Hrto. unfold Report.calculate_probabilities.
  destruct_inner_ifs; cbn -[Qplus Qdiv Qmult qltb];
  try (match goal with H : (_ =? 0)%Z = true |- _ => apply Z.eqb_eq in H; lia end);
  eexists; (split; [reflexivity|]); cbn [Report.p_c Report.p_n Report.p_s].
  all: try (split; [split; discriminate|split; split; discriminate]).
  all: match goal with
       | E : qltb _ (1 # 1000) = false |- _ => apply qltb_false in E
       end.
  all: apply ratio_range3; [qnonneg..|];
    (eapply Qlt_le_trans; [|eassumption]; reflexivity).
Qed.

(** Every flow of the table built by analyze_pcap
    (analyze_and_generate_report.py) has seen at least one packet; its
    timeout count and its consecutive-retransmission count never exceed its
    retransmission count; its small-window count never exceeds its packet
    count; its retransmissions plus its distinct sequence numbers never
    exceed its packet count; its window, timestamp and window-timestamp
    lists have one entry per packet; and every RTT sample lies in (0, 10)
    seconds. *)
Theorem report_flow_invariant (segs : list Segment) (k : Report.FlowKey)
    (fm : Report.FlowMetrics) (Hk : Report.flows (Report.analyze_pcap segs) !! k = Some fm) :
  (1 <= Report.count fm)%Z /\
  (0 <= Report.rto_cnt fm <= Report.retrans fm)%Z /\
  (0 <= Report.cont_retrans fm <= Report.retrans fm)%Z /\
  (0 <= Report.small_win_cnt fm <= Report.count fm)%Z /\
  (Report.retrans fm + Z.of_nat (size (Report.seen_seqs fm)) <= Report.count fm)%Z /\
  Z.of_nat (length (Report.wins fm)) = Report.count fm /\
  Z.of_nat (length (Report.timestamps fm)) = Report.count fm /\
  Z.of_nat (length (Report.win_ts fm)) = Report.count fm /\
  Forall (fun r => 0 < r /\ r < 10) (Report.rtt_samples fm).
Proof.
  destruct (report_pcap_inv segs) as [Hfl _].
  destruct (Hfl k fm Hk) as [Hi Hc]. split; [exact Hc|exact Hi].
Qed.

Lemma report_flow_invariant_witness :
  Report.flows (Report.analyze_pcap Samples.retrans_flow) !! Samples.key_ab =
    Some (Report.get_fm (Report.flows (Report.analyze_pcap Samples.retrans_flow))
            Samples.key_ab) /\
  (1 <= Report.count (Report.get_fm (Report.flows (Report.analyze_pcap Samples.retrans_flow))
            Samples.key_ab))%Z.
Proof.
  assert (H : Report.flows (Report.analyze_pcap Samples.retrans_flow) !! Samples.key_ab =
    Some (Report.get_fm (Report.flows (Report.analyze_pcap Samples.retrans_flow))
            Samples.key_ab)) by (vm_compute; reflexivity).
  split; [exact H|]. exact (proj1 (report_flow_invariant _ _ _ H)).
Defined.

(** Every entry of analyze_pcap's unacked_packets table belongs to a flow
    of its flow table: an expected ACK is only recorded for a flow that has
    been counted. *)
Theorem report_unacked_has_flow (segs : list Segment) (k : Report.FlowKey) (e : gmap Z Q)
    (Hk : Report.unacked_packets (Report.analyze_pcap segs) !! k = Some e) :
  is_Some (Report.flows (Report.analyze_pcap segs) !! k).
Proof. exact (proj2 (report_pcap_inv segs) k e Hk). Qed.

Lemma report_unacked_has_flow_witness :
  is_Some (Report.flows (Report.analyze_pcap Samples.one_packet) !! Samples.key_ab).
Proof.
  apply (report_unacked_has_flow Samples.one_packet Samples.key_ab {[150%Z := 1]}).
  vm_compute. reflexivity.
Defined.

(** For every flow of analyze_pcap's table, calculate_probabilities
    (analyze_and_generate_report.py) returns a triple whose three
    components each lie in [0, 1] and sum to 1, whatever the RTT standard
    deviation function. *)
Theorem report_flow_probabilities_range (std : list Q -> Q) (segs : list Segment)
    (k : Report.FlowKey) (fm : Report.FlowMetrics)
    (Hk : Report.flows (Report.analyze_pcap segs) !! k = Some fm) :
  exists p, Report.calculate_probabilities std fm = Some p /\
    (0 <= Report.p_c p <= 1) /\ (0 <= Report.p_n p <= 1) /\ (0 <= Report.p_s p <= 1) /\
    Report.p_c p + Report.p_n p + Report.p_s p == 1.
Proof.
  destruct (report_pcap_inv segs) as [Hfl _].
  destruct (Hfl k fm Hk) as [Hi Hc].
  destruct Hi as [Hrto [_ [_ [Hr _]]]].
  destruct (Report_calc_range std fm Hc ltac:(lia) ltac:(lia)) as [p [Hp Hrange]].
  destruct (Report_calc_sum std fm Hc) as [p' [Hp' Hs]].
  rewrite Hp in Hp'. injection Hp' as <-.
  exists p. split; [exact Hp|]. destruct Hrange as [H1 [H2 H3]]. auto.
Qed.

Lemma report_flow_probabilities_range_witness :
  exists p, Report.calculate_probabilities (fun _ => 0)
     (Report.get_fm (Report.flows (Report.analyze_pcap Samples.retrans_flow)) Samples.key_ab)
     = Some p /\ 0 <= Report.p_n p <= 1.
Proof.
  assert (H : Report.flows (Report.analyze_pcap Samples.retrans_flow) !! Samples.key_ab =
    Some (Report.get_fm (Report.flows (Report.analyze_pcap Samples.retrans_flow))
            Samples.key_ab)) by (vm_compute; reflexivity).
  destruct (report_flow_probabilities_range (fun _ => 0) _ _ _ H) as [p [Hp [_ [Hn _]]]].
  exists p. split; [exact Hp|exact Hn].
Defined.

Section ProfMainProps.
Import ProfMain.

Lemma prof_new_inv : prof_stream_inv new_stream.
Proof. unfold prof_stream_inv. cbn. rewrite map_size_empty. lia. Qed.

Lemma prof_step_inv ts seq ack win s :
  prof_stream_inv s -> prof_stream_inv (stream_step ts seq ack win s) /\
  (1 <= s_count (stream_step ts seq ack win s))%Z.
Proof.
  intros (Hrto & Hcr & Hh & Hw & Hp & Hsat). unfold stream_step.
  destruct (s_seq_history s !! seq) as [t0|] eqn:Hseq.
  - destruct (insert _ _ _ !! ack); cbn;
    unfold prof_stream_inv; cbn; rewrite ?length_app, ?map_size_insert, Hseq; cbn;
    case_bool_decide; destruct (_ && _); lia.
  - destruct (insert _ _ _ !! ack); cbn;
    unfold prof_stream_inv; cbn; rewrite ?length_app, ?map_size_insert, Hseq; cbn;
    destruct (_ && _); lia.
Qed.

Lemma prof_main_inv segs :
  map_Forall (fun _ s => prof_stream_inv s /\ (1 <= s_count s)%Z) (main_loop segs).
Proof.
  unfold main_loop.
  assert (G : forall l m,
    map_Forall (fun _ s => prof_stream_inv s /\ (1 <= s_count s)%Z) m ->
    map_Forall (fun _ s => prof_stream_inv s /\ (1 <= s_count s)%Z) (fold_left main_step l m)).
  { induction l as [|x l IH]; intros m Hm; cbn; [exact Hm|]. apply IH.
    unfold main_step. apply map_Forall_insert_2; [|exact Hm].
    apply prof_step_inv.
    destruct (m !! _) as [s0|] eqn:E; cbn.
    - exact (proj1 (Hm _ _ E)).
    - exact prof_new_inv. }
  apply G, map_Forall_empty.
Qed.

Lemma prof_time_mono B B' s : B <= B' -> prof_time_inv B s -> prof_time_inv B' s.
Proof.
  intros HB [Hh Hs]. split; [|exact Hs].
  eapply map_Forall_impl; [exact Hh|]. intros i t Ht. exact (Qle_trans _ _ _ Ht HB).
Qed.

Lemma prof_time_step B ts seq ack win s :
  B <= ts -> prof_time_inv B s -> prof_time_inv ts (stream_step ts seq ack win s).
Proof.
  intros HB Hs. destruct (prof_time_mono B ts s HB Hs) as [Hh Hsat].
  assert (Hh' : map_Forall (fun _ t => t <= ts) (<[seq := ts]> (s_seq_history s))).
  { apply map_Forall_insert_2; [apply Qle_refl|exact Hh]. }
  unfold stream_step.
  assert (Hsat' : Forall (fun p => fst p <= snd p)
     (match <[seq := ts]> (s_seq_history s) !! ack with
      | Some t => s_seq_ack_time s ++ [(t, ts)]
      | None => s_seq_ack_time s
      end)).
  { destruct (<[seq := ts]> (s_seq_history s) !! ack) as [t|] eqn:Ht; [|exact Hsat].
    apply Forall_app. split; [exact Hsat|]. constructor; [|constructor].
    exact (map_Forall_lookup_1 _ _ _ _ Hh' Ht). }
  destruct (s_seq_history s !! seq); split; cbn [s_seq_history s_seq_ack_time];
  assumption.
Qed.

Lemma prof_main_time l m B :
  map_Forall (fun _ s => prof_time_inv B s) m ->
  Forall (fun x => B <= seg_ts x) l ->
  StronglySorted Qle (map seg_ts l) ->
  map_Forall (fun _ s => Forall (fun p => fst p <= snd p) (s_seq_ack_time s))
    (fold_left main_step l m).
Proof.
  revert m B. induction l as [|x l IH]; intros m B Hm Hl Hsort; cbn.
  - eapply map_Forall_impl; [exact Hm|]. intros i s [_ Hs]. exact Hs.
  - inversion Hl as [|? ? Hx Hl']; subst. inversion Hsort as [|? ? Hsort' Hxl]; subst.
    apply (IH _ (seg_ts x)).
    + unfold main_step. apply map_Forall_insert_2.
      * apply (prof_time_step B); [exact Hx|].
        destruct (m !! _) as [s0|] eqn:E; cbn.
        -- exact (Hm _ _ E).
        -- split; [apply map_Forall_empty|constructor].
      * eapply map_Forall_impl; [exact Hm|]. intros i s Hs. exact (prof_time_mono B _ s Hx Hs).
    + apply Forall_forall. intros y Hy. rewrite Forall_forall in Hxl.
      apply Hxl. exact (list_elem_of_fmap_2 seg_ts l y Hy).
    + exact Hsort'.
Qed.

End ProfMainProps.





Lemma Professional_range (std : list Q -> Q) (stats : Professional.Stats) :
  (0 <= Professional.st_rto stats)%Z -> (0 <= Professional.st_retrans stats)%Z ->
  (0 <= Professional.st_cont_retrans stats)%Z ->
  let m := Professional.compute_flow_metrics std stats in
  (0 <= Professional.m_client m <= 1) /\ (0 <= Professional.m_network m <= 1) /\
  (0 <= Professional.m_server m <= 1).
Proof.
  intros Hrto Hr Hc. unfold Professional.compute_flow_metrics.
  destruct_inner_ifs; cbn [Professional.m_client Professional.m_network Professional.m_server].
  all: try (split; [split; discriminate|split; split; discriminate]).
  all: match goal with E : qltb 0 _ = true |- _ => apply qltb_true in E;
         apply ratio_range3; [qnonneg..|exact E] end.
Qed.

Section ProfOrigin.
Import ProfMain.




End ProfOrigin.

(** In main (tcp_professional_report.py), every stream of the table has
    seen at least one packet; its timeout count always equals its
    retransmission count (every repeated sequence number counts as both);
    its consecutive-retransmission count never exceeds it; its
    retransmissions plus its distinct sequence numbers equal its packet
    count; its window list has one entry per packet; its small-window
    count never exceeds its packet count; and it holds at most one
    (send, ack) pair per packet. *)
Theorem prof_stream_counters (segs : list Segment) (k : ProfMain.StreamKey)
    (s : ProfMain.Stream) (Hk : ProfMain.main_loop segs !! k = Some s) :
  (1 <= ProfMain.s_count s)%Z /\
  ProfMain.s_rto s = ProfMain.s_retrans s /\
  (0 <= ProfMain.s_cont_retrans s <= ProfMain.s_retrans s)%Z /\
  (ProfMain.s_retrans s + Z.of_nat (size (ProfMain.s_seq_history s)) = ProfMain.s_count s)%Z /\
  Z.of_nat (length (ProfMain.s_wins s)) = ProfMain.s_count s /\
  (0 <= ProfMain.s_psh_small s <= ProfMain.s_count s)%Z /\
  (Z.of_nat (length (ProfMain.s_seq_ack_time s)) <= ProfMain.s_count s)%Z.
Proof.
  destruct (prof_main_inv segs k s Hk) as [Hi Hc]. split; [exact Hc|exact Hi].
Qed.

Lemma prof_stream_counters_witness :
  let s := default ProfMain.new_stream
             (ProfMain.main_loop Samples.retrans_flow !! Samples.key_ab) in
  ProfMain.main_loop Samples.retrans_flow !! Samples.key_ab = Some s /\
  ProfMain.s_rto s = ProfMain.s_retrans s.
Proof.
  intros s.
  assert (H : ProfMain.main_loop Samples.retrans_flow !! Samples.key_ab = Some s)
    by (vm_compute; reflexivity).
  split; [exact H|].
  exact (proj1 (proj2 (prof_stream_counters Samples.retrans_flow Samples.key_ab s H))).
Defined.

(** In main (tcp_professional_report.py), if the capture's timestamps
    never decrease, every RTT sample compute_flow_metrics derives from a
    stream's (send, ack) pairs is non-negative. *)
Theorem prof_rtt_nonneg (segs : list Segment) (k : ProfMain.StreamKey) (s : ProfMain.Stream)
    (Hsorted : StronglySorted Qle (map seg_ts segs))
    (Hk : ProfMain.main_loop segs !! k = Some s) :
  Forall (fun r => 0 <= r) (map (fun '(ts, ack_ts) => ack_ts - ts) (ProfMain.s_seq_ack_time s)).
Proof.
  assert (H : Forall (fun p => fst p <= snd p) (ProfMain.s_seq_ack_time s)).
  { destruct segs as [|x l].
    - cbn in Hk. rewrite lookup_empty in Hk. discriminate.
    - refine (prof_main_time (x :: l) ∅ (seg_ts x) _ _ Hsorted k s Hk).
      + apply map_Forall_empty.
      + constructor; [apply Qle_refl|].
        inversion Hsorted as [|? ? _ Hxl]; subst.
        apply Forall_forall. intros y Hy. rewrite Forall_forall in Hxl.
        apply Hxl. exact (list_elem_of_fmap_2 seg_ts l y Hy). }
  induction H as [|[t a] l Hp _ IH]; cbn; constructor; [|exact IH].
  cbn in Hp. rewrite <- (Qplus_opp_r t). apply Qplus_le_l. exact Hp.
Qed.

Lemma prof_rtt_nonneg_witness :
  let s := default ProfMain.new_stream
             (ProfMain.main_loop Samples.own_ack_flow !! Samples.key_ab) in
  ProfMain.s_seq_ack_time s = [(1, 2)] /\
  Forall (fun r => 0 <= r) (map (fun '(ts, ack_ts) => ack_ts - ts) (ProfMain.s_seq_ack_time s)).
Proof.
  intros s. split; [vm_compute; reflexivity|].
  apply (prof_rtt_nonneg Samples.own_ack_flow Samples.key_ab s).
  - repeat constructor; apply Qle_bool_imp_le; reflexivity.
  - vm_compute. reflexivity.
Defined.

(** For every stream of main's table (tcp_professional_report.py),
    compute_flow_metrics returns client, network and server probabilities
    that each lie in [0, 1], whatever the standard deviation function. *)
Theorem prof_flow_probabilities_range (std : list Q -> Q) (segs : list Segment)
    (k : ProfMain.StreamKey) (s : ProfMain.Stream)
    (Hk : ProfMain.main_loop segs !! k = Some s) :
  let m := Professional.compute_flow_metrics std (ProfMain.to_stats s) in
  (0 <= Professional.m_client m <= 1) /\ (0 <= Professional.m_network m <= 1) /\
  (0 <= Professional.m_server m <= 1).
Proof.
  destruct (prof_main_inv segs k s Hk) as [(Hrto & Hcr & Hh & _) _].
  apply Professional_range; cbn; lia.
Qed.

Lemma prof_flow_probabilities_range_witness :
  let s := default ProfMain.new_stream
             (ProfMain.main_loop Samples.retrans_flow !! Samples.key_ab) in
  0 <= Professional.m_network (Professional.compute_flow_metrics (fun _ => 0) (ProfMain.to_stats s)) <= 1.
Proof.
  intros s.
  exact (proj1 (proj2 (prof_flow_probabilities_range (fun _ => 0) Samples.retrans_flow
                         Samples.key_ab s ltac:(vm_compute; reflexivity)))).
Defined.



Section TrendProps.
Import Trend.

Lemma trend_update_inv t S win p seq ts :
  trend_stats_inv t S ->
  trend_stats_inv (update_stats t win (bool_decide (seq ∈ S) && p) (bool_decide (seq ∈ S)) seq ts)
    ({[seq]} ∪ S).
Proof.
  intros (Hrto & Hcr & Hs & Hw & Hq & Ht & Hwt & Hp).
  unfold trend_stats_inv, update_stats. rewrite size_singleton_union.
  case_bool_decide; cbn [andb];
  [case_bool_decide|]; cbn; rewrite ?length_app; cbn;
  destruct p; destruct (_ && _); cbn; lia.
Qed.

Lemma trend_new_inv : trend_stats_inv new_stats ∅.
Proof. unfold trend_stats_inv. cbn. rewrite size_empty. lia. Qed.

Lemma trend_step_inv st x : trend_state_inv st -> trend_state_inv (step st x).
Proof.
  intros [Hs Hseen]. unfold step.
  set (k0 := (seg_src x, seg_sport x, seg_dst x, seg_dport x)).
  assert (Hk0 : exists t S, default new_stats (streams st !! k0) = t /\
                 default ∅ (seen_seq st !! k0) = S /\ trend_stats_inv t S).
  { destruct (streams st !! k0) as [t|] eqn:E.
    - destruct (Hs _ _ E) as (S & HS & Hi & _). exists t, S. rewrite HS. auto.
    - destruct (seen_seq st !! k0) as [S|] eqn:E'.
      + destruct (Hseen _ _ E') as [? Hx]. congruence.
      + exists new_stats, ∅. split; [reflexivity|]. split; [reflexivity|]. exact trend_new_inv. }
  destruct Hk0 as (t & S & Ht & HS & Hi). rewrite Ht, HS.
  split; cbn [Trend.streams Trend.seen_seq].
  - intros k t' Hk. destruct (decide (k = k0)) as [->|Hne].
    + rewrite lookup_insert_eq in Hk. injection Hk as <-.
      exists ({[seg_seq x]} ∪ S). rewrite lookup_insert_eq. split; [reflexivity|].
      split; [now apply trend_update_inv|]. unfold update_stats; destruct (bool_decide _); cbn;
      destruct Hi as (Hr1 & _ & Hc & _); lia.
    + rewrite lookup_insert_ne in Hk by congruence. rewrite lookup_insert_ne by congruence.
      exact (Hs _ _ Hk).
  - intros k S' Hk. destruct (decide (k = k0)) as [->|Hne].
    + rewrite lookup_insert_eq. eexists; reflexivity.
    + rewrite lookup_insert_ne in Hk by congruence. rewrite lookup_insert_ne by congruence.
      exact (Hseen _ _ Hk).
Qed.

Lemma trend_run_inv segs : trend_state_inv (run segs).
Proof.
  unfold run.
  assert (G : forall l st, trend_state_inv st -> trend_state_inv (fold_left step l st)).
  { induction l as [|x l IH]; intros st Hst; cbn; [exact Hst|]. apply IH, trend_step_inv, Hst. }
  apply G. split; cbn; intros k v Hk; rewrite lookup_empty in Hk; discriminate.
Qed.

End TrendProps.

Lemma Qdiv3_sum (a b c : Q) : 0 < a + b + c -> a / (a + b + c) + b / (a + b + c) + c / (a + b + c) == 1.
Proof.
  intros Ht. assert (Hn : ~ a + b + c == 0) by (intros E; rewrite E in Ht; discriminate).
  field. exact Hn.
Qed.

Lemma Trend_prob_range (std : list Q -> Q) (t : Trend.TStats) :
  (0 <= Trend.t_rto t)%Z -> (0 <= Trend.t_retrans t)%Z -> (0 <= Trend.t_cont_retrans t)%Z ->
  let '(c, n, s, _, _) := Trend.compute_flow_prob std t in
  (0 <= c <= 1) /\ (0 <= n <= 1) /\ (0 <= s <= 1) /\
  (c + n + s == 1 \/ (c = 33 # 100 /\ n = 33 # 100 /\ s = 33 # 100)).
Proof.
  intros Hrto Hr Hc. unfold Trend.compute_flow_prob.
  destruct_inner_ifs.
  all: try (match goal with H : qltb (3 # 100) 0 = true |- _ => vm_compute in H; discriminate H end).
  all: try (split; [split; discriminate|split; [split; discriminate|split; [split; discriminate|]]];
            right; repeat split).
  all: match goal with E : qltb 0 _ = true |- _ => apply qltb_true in E;
         refine (conj _ (conj _ (conj _ (or_introl (Qdiv3_sum _ _ _ E)))));
         [apply ratio_range|apply ratio_range_b|apply ratio_range_c]; qnonneg end.
  all: assumption.
Qed.





Section TrendRunProps.
Import Trend.



End TrendRunProps.

Lemma qltb_le_false (x y : Q) : y <= x -> qltb x y = false.
Proof. intros H. unfold qltb. apply Qle_bool_iff in H. rewrite H. reflexivity. Qed.

(** In analyze_tcp_dpkt_full_trend.py, every stream of the table has a
    [seen_seq] entry [S] and has seen at least one packet; its timeout and
    consecutive-retransmission counts never exceed its retransmission
    count; its retransmissions plus the size of [S] equal its packet count;
    its window, sequence, timestamp and (timestamp, window) lists have one
    entry per packet; and its small-window count never exceeds its packet
    count. *)
Theorem trend_stream_counters (segs : list Segment) (k : Trend.StreamKey) (t : Trend.TStats)
    (Hk : Trend.streams (Trend.run segs) !! k = Some t) :
  exists S, Trend.seen_seq (Trend.run segs) !! k = Some S /\
    (1 <= Trend.t_count t)%Z /\
    (0 <= Trend.t_rto t <= Trend.t_retrans t)%Z /\
    (0 <= Trend.t_cont_retrans t <= Trend.t_retrans t)%Z /\
    (Trend.t_retrans t + Z.of_nat (size S) = Trend.t_count t)%Z /\
    Z.of_nat (length (Trend.t_wins t)) = Trend.t_count t /\
    Z.of_nat (length (Trend.t_seqs t)) = Trend.t_count t /\
    Z.of_nat (length (Trend.t_timestamps t)) = Trend.t_count t /\
    Z.of_nat (length (Trend.t_win_ts t)) = Trend.t_count t /\
    (0 <= Trend.t_psh_small t <= Trend.t_count t)%Z.
Proof.
  destruct (proj1 (trend_run_inv segs) k t Hk) as (S & HS & Hi & Hc).
  exists S. split; [exact HS|]. split; [exact Hc|exact Hi].
Qed.

Lemma trend_stream_counters_witness :
  let t := default Trend.new_stats
             (Trend.streams (Trend.run Samples.retrans_flow) !! Samples.key_ab) in
  Trend.streams (Trend.run Samples.retrans_flow) !! Samples.key_ab = Some t /\
  (1 <= Trend.t_count t)%Z.
Proof.
  intros t.
  assert (H : Trend.streams (Trend.run Samples.retrans_flow) !! Samples.key_ab = Some t)
    by (vm_compute; reflexivity).
  split; [exact H|].
  destruct (trend_stream_counters Samples.retrans_flow Samples.key_ab t H) as (S & _ & Hc & _).
  exact Hc.
Defined.

(** For every stream of analyze_tcp_dpkt_full_trend.py, compute_flow_prob
    returns client, network and server values that each lie in [0, 1] and
    either sum to 1 or are the fallback 0.33 each, whose sum is 0.99. *)
Theorem trend_flow_prob_shape (std : list Q -> Q) (segs : list Segment) (k : Trend.StreamKey)
    (t : Trend.TStats) (Hk : Trend.streams (Trend.run segs) !! k = Some t) :
  let '(c, n, s, _, _) := Trend.compute_flow_prob std t in
  (0 <= c <= 1) /\ (0 <= n <= 1) /\ (0 <= s <= 1) /\
  (c + n + s == 1 \/ (c = 33 # 100 /\ n = 33 # 100 /\ s = 33 # 100)).
Proof.
  destruct (proj1 (trend_run_inv segs) k t Hk) as (S & _ & (Hrto & Hcr & _) & _).
  apply Trend_prob_range; lia.
Qed.

Lemma trend_flow_prob_shape_witness :
  let t := default Trend.new_stats
             (Trend.streams (Trend.run Samples.retrans_flow) !! Samples.key_ab) in
  let '(c, n, s, _, _) := Trend.compute_flow_prob (fun _ => 0) t in
  (0 <= c <= 1) /\ (0 <= n <= 1) /\ (0 <= s <= 1) /\
  (c + n + s == 1 \/ (c = 33 # 100 /\ n = 33 # 100 /\ s = 33 # 100)).
Proof.
  intros t. apply (trend_flow_prob_shape (fun _ => 0) Samples.retrans_flow Samples.key_ab t).
  vm_compute. reflexivity.
Defined.

(** In analyze_tcp_dpkt_full_trend.py, a stream with no retransmission,
    an average window of at least 200 and a timestamp-gap jitter of at
    most 0.03 (or fewer than two packets) scores 0 on every node, and
    compute_flow_prob returns the fallback 0.33 for client, network and
    server, whose sum is 0.99 rather than 1. *)
Theorem trend_quiet_flow_fallback (std : list Q -> Q) (segs : list Segment)
    (k : Trend.StreamKey) (t : Trend.TStats)
    (Hk : Trend.streams (Trend.run segs) !! k = Some t)
    (Hre : Trend.t_retrans t = 0%Z)
    (Hwin : 200 <= qmean (map inject_Z (Trend.t_wins t)))
    (Hjit : (length (Trend.t_timestamps t) <= 1)%nat \/
            std (Trend.qdiff (Trend.t_timestamps t)) <= 3 # 100) :
  let '(c, n, s, _, _) := Trend.compute_flow_prob std t in
  c = 33 # 100 /\ n = 33 # 100 /\ s = 33 # 100 /\ c + n + s == 99 # 100.
Proof.
  destruct (proj1 (trend_run_inv segs) k t Hk) as (S & _ & (Hrto & Hcr & _ & Hw & _) & Hc).
  assert (Hrto0 : Trend.t_rto t = 0%Z) by lia.
  assert (Hcr0 : Trend.t_cont_retrans t = 0%Z) by lia.
  unfold Trend.compute_flow_prob.
  assert (Havg : qltb (match Trend.t_wins t with [] => 0 | ws => qmean (map inject_Z ws) end) 200
                 = false).
  { destruct (Trend.t_wins t) as [|w ws] eqn:E; [cbn in Hw; lia|].
    apply qltb_le_false. exact Hwin. }
  rewrite Havg, Hrto0, Hre, Hcr0.
  assert (Hj : qltb (3 # 100)
                 (if (1 <? length (Trend.t_timestamps t))%nat
                  then std (Trend.qdiff (Trend.t_timestamps t)) else 0) = false).
  { destruct (1 <? length (Trend.t_timestamps t))%nat eqn:E.
    - apply Nat.ltb_lt in E. destruct Hjit as [Hl|Hs]; [lia|]. apply qltb_le_false. exact Hs.
    - reflexivity. }
  rewrite Hj. cbn -[Qplus Qmult Qdiv qltb].
  match goal with |- context [qltb 0 ?e] =>
    replace (qltb 0 e) with false by (vm_compute; reflexivity) end.
  repeat split.
Qed.

Lemma trend_quiet_flow_fallback_witness :
  let t := default Trend.new_stats
             (Trend.streams (Trend.run Samples.one_packet) !! Samples.key_ab) in
  let '(c, n, s, _, _) := Trend.compute_flow_prob (fun _ => 0) t in
  c = 33 # 100 /\ n = 33 # 100 /\ s = 33 # 100 /\ c + n + s == 99 # 100.
Proof.
  intros t. apply (trend_quiet_flow_fallback (fun _ => 0) Samples.one_packet Samples.key_ab t).
  - vm_compute. reflexivity.
  - vm_compute. reflexivity.
  - apply Qle_bool_imp_le. vm_compute. reflexivity.
  - left. vm_compute. lia.
Defined.


Section IpStatsProps.
Import Aggregate.

Lemma ip_stats_fold ip rows m :
  fold_left ip_stats_step rows m !! ip =
  match rows_of ip rows with
  | [] => m !! ip
  | rs => Some (fold_left (fun st r => add_row r st) rs (default ip_stat_zero (m !! ip)))
  end.
Proof.
  revert m. induction rows as [|r rows IH]; intros m; cbn; [reflexivity|].
  rewrite IH. unfold rows_of. cbn. unfold ip_stats_step.
  case_bool_decide as Hr.
  - subst ip. rewrite lookup_insert_eq. cbn.
    destruct (filter _ rows); reflexivity.
  - rewrite lookup_insert_ne by congruence. reflexivity.
Qed.

End IpStatsProps.

(** In generate_plot (analyze_and_generate_report.py), [ip_stats] has an
    entry for an address exactly when some flow row has it as source; the
    entry's count is the number of those rows, so the per-IP averages
    [c / count] never divide by zero, and its [c], [n] and [s] fields are
    the running sums of the client, network and server probabilities of
    those rows, in row order. *)
Theorem ip_stats_entries (rows : list Aggregate.FlowRow) (ip : string) :
  (Aggregate.ip_stats rows !! ip = None <-> rows_of ip rows = []) /\
  (forall st, Aggregate.ip_stats rows !! ip = Some st ->
     Aggregate.ip_count st = Z.of_nat (length (rows_of ip rows)) /\
     (1 <= Aggregate.ip_count st)%Z /\
     Aggregate.ip_c st = fold_left (fun a r => a + Aggregate.row_p_client r) (rows_of ip rows) 0 /\
     Aggregate.ip_n st = fold_left (fun a r => a + Aggregate.row_p_network r) (rows_of ip rows) 0 /\
     Aggregate.ip_s st = fold_left (fun a r => a + Aggregate.row_p_server r) (rows_of ip rows) 0).
Proof.
  assert (G : forall rs (z : Aggregate.IpStat),
    let st := fold_left (fun st r => Aggregate.add_row r st) rs z in
    Aggregate.ip_count st = (Aggregate.ip_count z + Z.of_nat (length rs))%Z /\
    Aggregate.ip_c st = fold_left (fun a r => a + Aggregate.row_p_client r) rs (Aggregate.ip_c z) /\
    Aggregate.ip_n st = fold_left (fun a r => a + Aggregate.row_p_network r) rs (Aggregate.ip_n z) /\
    Aggregate.ip_s st = fold_left (fun a r => a + Aggregate.row_p_server r) rs (Aggregate.ip_s z)).
  { induction rs as [|r rs IH]; intros z; cbn.
    - rewrite Z.add_0_r. auto.
    - destruct (IH (Aggregate.add_row r z)) as (H1 & H2 & H3 & H4). cbn in *.
      rewrite H1. split; [lia|auto]. }
  unfold Aggregate.ip_stats. rewrite ip_stats_fold, lookup_empty. split.
  - destruct (rows_of ip rows); split; intros H; congruence.
  - intros st. destruct (rows_of ip rows) as [|r rs] eqn:E; [discriminate|].
    intros H. injection H as <-.
    change (default Aggregate.ip_stat_zero None) with Aggregate.ip_stat_zero.
    destruct (G (r :: rs) Aggregate.ip_stat_zero) as (H1 & H2 & H3 & H4).
    cbn [fold_left Aggregate.ip_count Aggregate.ip_c Aggregate.ip_n Aggregate.ip_s
         Aggregate.ip_stat_zero] in *.
    rewrite H1, H2, H3, H4. cbn [length]. split; [lia|]. split; [lia|]. auto.
Qed.

Lemma size_list_to_set_le `{Countable A} (l : list A) :
  (size (list_to_set l : gset A) <= length l)%nat.
Proof.
  induction l as [|x l IH]; cbn; [rewrite size_empty; lia|].
  rewrite size_singleton_union. case_bool_decide; lia.
Qed.

Lemma rev_key_inj k1 k2 : rev_key k1 = rev_key k2 -> k1 = k2.
Proof.
  destruct k1 as [[[a p] b] q], k2 as [[[a' p'] b'] q']. cbn. congruence.
Qed.

Lemma session_key_cover k : k = session_key k \/ k = rev_key (session_key k).
Proof.
  destruct k as [[[a p] b] q]. unfold session_key.
  destruct (endpoint_ltb (a, p) (b, q)); [left|right]; reflexivity.
Qed.

Lemma sessions_lower_bound (keys : list (string * Z * string * Z)) :
  NoDup keys -> (length keys <= 2 * total_tcp_sessions keys)%nat.
Proof.
  intros Hnd. unfold total_tcp_sessions. rewrite unique_sessions_list.
  set (X := list_to_set (map session_key keys) : gset (string * Z * string * Z)).
  set (Y := list_to_set (map (fun k => rev_key (session_key k)) keys)
              : gset (string * Z * string * Z)).
  assert (HY : size Y = size X).
  { unfold X, Y. symmetry. apply size_image_same_kernel.
    intros x y. split; [congruence|apply rev_key_inj]. }
  assert (Hsub : (list_to_set keys : gset _) ⊆ X ∪ Y).
  { intros k Hk. apply elem_of_list_to_set in Hk. apply elem_of_union.
    destruct (session_key_cover k) as [E|E]; [left|right]; apply elem_of_list_to_set;
      apply list_elem_of_fmap; exists k; (split; [exact E|exact Hk]). }
  apply subseteq_size in Hsub. rewrite size_list_to_set in Hsub by exact Hnd.
  rewrite size_union_alt in Hsub.
  assert (Hd : (size (Y ∖ X) <= size Y)%nat) by (apply subseteq_size; set_solver).
  lia.
Qed.

(** In main (analyze_and_generate_report.py), the number of TCP sessions
    counted over the flow table of analyze_pcap is at most the number of
    directional flows and at least half of it: each session groups the one
    or two directions of one endpoint pair. *)
Theorem session_count_bounds (segs : list Segment) :
  let keys := map fst (map_to_list (Report.flows (Report.analyze_pcap segs))) in
  (total_tcp_sessions keys <= length keys <= 2 * total_tcp_sessions keys)%nat.
Proof.
  intros keys. split.
  - unfold total_tcp_sessions. rewrite unique_sessions_list.
    etransitivity; [apply size_list_to_set_le|]. rewrite length_map. lia.
  - apply sessions_lower_bound. apply NoDup_fst_map_to_list.
Qed.

Lemma qltb_proper (x y d : Q) : x == y -> qltb x d = qltb y d.
Proof.
  intros E. destruct (qltb x d) eqn:Hx, (qltb y d) eqn:Hy; try reflexivity.
  - apply qltb_true in Hx. apply qltb_false in Hy. rewrite E in Hx.
    exfalso. exact (Qlt_not_le _ _ Hx Hy).
  - apply qltb_false in Hx. apply qltb_true in Hy. rewrite E in Hx.
    exfalso. exact (Qlt_not_le _ _ Hy Hx).
Qed.

Section ZsumMap.
Context {K} `{Countable K} {A : Type}.

Lemma zsum_map_empty (g : A -> Z) : zsum_map g (∅ : gmap K A) = 0%Z.
Proof. unfold zsum_map. apply map_fold_empty. Qed.

Lemma zsum_map_insert (g : A -> Z) (k : K) (x : A) (m : gmap K A) :
  zsum_map g (<[k := x]> m) = (zsum_map g (delete k m) + g x)%Z.
Proof.
  unfold zsum_map. rewrite <- insert_delete_eq.
  rewrite map_fold_insert_L; [reflexivity | intros; lia | apply lookup_delete_eq].
Qed.

Lemma zsum_map_delete (g : A -> Z) (k : K) (x : A) (m : gmap K A) :
  m !! k = Some x -> zsum_map g m = (zsum_map g (delete k m) + g x)%Z.
Proof. intros Hk. rewrite <- (zsum_map_insert g k x m), (insert_id m k x Hk). reflexivity. Qed.

Lemma zsum_map_le (g1 g2 : A -> Z) (m : gmap K A) :
  map_Forall (fun _ x => (g1 x <= g2 x)%Z) m -> (zsum_map g1 m <= zsum_map g2 m)%Z.
Proof.
  induction m as [|k x m Hk IH] using map_ind; intros Hm.
  - rewrite !zsum_map_empty. lia.
  - rewrite !zsum_map_insert, !delete_id by exact Hk.
    apply map_Forall_insert in Hm; [|exact Hk]. destruct Hm as [Hx Hm].
    specialize (IH Hm). lia.
Qed.

Lemma zsum_map_nonneg (g : A -> Z) (m : gmap K A) :
  map_Forall (fun _ x => (0 <= g x)%Z) m -> (0 <= zsum_map g m)%Z.
Proof.
  induction m as [|k x m Hk IH] using map_ind; intros Hm.
  - rewrite zsum_map_empty. lia.
  - rewrite zsum_map_insert, delete_id by exact Hk.
    apply map_Forall_insert in Hm; [|exact Hk]. destruct Hm as [Hx Hm].
    specialize (IH Hm). lia.
Qed.

End ZsumMap.

Lemma frames_bytes_cons x l : frames_bytes (x :: l) = (frame_len x + frames_bytes l)%Z.
Proof. reflexivity. Qed.

Lemma ip_frames_bytes_cons x l :
  ip_frames_bytes (x :: l) =
    (match frame_ip_src x with Some _ => frame_len x | None => 0 end + ip_frames_bytes l)%Z.
Proof. unfold ip_frames_bytes. cbn [fold_right]. destruct (frame_ip_src x); lia. Qed.

Lemma omap_cons_length {A B} (f : A -> option B) x l :
  Z.of_nat (length (omap f (x :: l))) =
    (match f x with Some _ => 1 | None => 0 end + Z.of_nat (length (omap f l)))%Z.
Proof.
  change (omap f (x :: l)) with (match f x with Some y => y :: omap f l | None => omap f l end).
  destruct (f x); cbn [length]; lia.
Qed.

Section V9EngineProps.
Import V9Engine.

Lemma v9_new_inv : v9_flow_inv V9.new_FlowMetrics.
Proof. unfold v9_flow_inv. cbn. rewrite map_size_empty. repeat split; lia. Qed.

Lemma v9_observe_inv f ts s :
  v9_flow_inv f -> v9_flow_inv (V9.observe f ts s) /\ (1 <= V9.packet_count (V9.observe f ts s))%Z.
Proof.
  intros (Hr & Hf & Ho & Hc). unfold V9.observe, V9.analyze_packet.
  cbn [V9.packet_count V9.rtt_samples V9.retrans_fast V9.retrans_rto V9.seq_tracker].
  destruct (0 <? seg_payload_len s)%Z.
  - destruct (V9.seq_tracker f !! seg_seq s) as [t0|] eqn:E.
    + destruct (V9.is_rto _ _); unfold v9_flow_inv; cbn; repeat split; try assumption; lia.
    + unfold v9_flow_inv; cbn. rewrite map_size_insert, E. repeat split; try assumption; lia.
  - unfold v9_flow_inv; cbn. repeat split; try assumption; lia.
Qed.

Lemma v9_observe_pc f ts s : V9.packet_count (V9.observe f ts s) = (V9.packet_count f + 1)%Z.
Proof.
  unfold V9.observe, V9.analyze_packet. cbn [V9.packet_count].
  destruct (0 <? seg_payload_len s)%Z; [|reflexivity].
  destruct (_ !! seg_seq s); [|reflexivity]. destruct (V9.is_rto _ _); reflexivity.
Qed.

Lemma v9_engine_fold frames e :
  map_Forall (fun _ f => v9_flow_inv f /\ (1 <= V9.packet_count f)%Z) (flows e) ->
  let e' := fold_left step frames e in
  map_Forall (fun _ f => v9_flow_inv f /\ (1 <= V9.packet_count f)%Z) (flows e') /\
  total_packets e' = (total_packets e + Z.of_nat (length frames))%Z /\
  total_bytes e' = (total_bytes e + frames_bytes frames)%Z /\
  zsum_map V9.packet_count (flows e') =
    (zsum_map V9.packet_count (flows e) + Z.of_nat (length (omap frame_segment4 frames)))%Z.
Proof.
  revert e. induction frames as [|x l IH]; intros e He; cbn zeta; cbn [fold_left].
  - split; [exact He|]. cbn [length frames_bytes fold_right omap list_omap]. repeat split; lia.
  - assert (Hx : map_Forall (fun _ f => v9_flow_inv f /\ (1 <= V9.packet_count f)%Z) (flows (step e x)) /\
                 total_packets (step e x) = (total_packets e + 1)%Z /\
                 total_bytes (step e x) = (total_bytes e + frame_len x)%Z /\
                 zsum_map V9.packet_count (flows (step e x)) =
                   (zsum_map V9.packet_count (flows e) +
                    match frame_segment4 x with Some _ => 1 | None => 0 end)%Z).
    { unfold step. destruct (frame_segment4 x) as [sg|]; cbn [flows total_packets total_bytes].
      - split; [|split; [reflexivity|split; [reflexivity|]]].
        + apply map_Forall_insert_2; [|exact He]. apply v9_observe_inv.
          destruct (flows e !! _) as [f0|] eqn:E; cbn.
          * exact (proj1 (He _ _ E)).
          * exact v9_new_inv.
        + rewrite zsum_map_insert, v9_observe_pc.
          match goal with |- context [flows e !! ?key] =>
            destruct (flows e !! key) as [f0|] eqn:E;
            [rewrite (zsum_map_delete _ key f0 _ E)|rewrite (delete_id _ _ E)] end; cbn; lia.
      - split; [exact He|]. split; [reflexivity|]. split; [reflexivity|]. lia. }
    destruct Hx as (H1 & H2 & H3 & H4).
    destruct (IH (step e x) H1) as (I1 & I2 & I3 & I4).
    split; [exact I1|]. rewrite I2, I3, I4, H2, H3, H4, frames_bytes_cons, omap_cons_length.
    cbn [length]. split; [lia|split; lia].
Qed.

Lemma v9_engine_inv frames :
  let e := process_pcap frames in
  map_Forall (fun _ f => v9_flow_inv f /\ (1 <= V9.packet_count f)%Z) (flows e) /\
  total_packets e = Z.of_nat (length frames) /\
  total_bytes e = frames_bytes frames /\
  zsum_map V9.packet_count (flows e) = Z.of_nat (length (omap frame_segment4 frames)).
Proof.
  destruct (v9_engine_fold frames init_engine (map_Forall_empty _)) as (H1 & H2 & H3 & H4).
  unfold process_pcap. cbn zeta. split; [exact H1|].
  rewrite H2, H3, H4. cbn [init_engine total_packets total_bytes flows].
  rewrite zsum_map_empty. lia.
Qed.

End V9EngineProps.

(** ForensicEngine._get_flow_key (pcap_analyzer_v9.py) gives the same
    string for both directions of a connection: swapping the source and
    destination endpoints never changes the flow key. *)
Theorem v9_flow_key_symmetric (a : string) (p : Z) (b : string) (q : Z) :
  V9Engine.get_flow_key a p b q = V9Engine.get_flow_key b q a p.
Proof.
  unfold V9Engine.get_flow_key.
  destruct (decide ((a, p) = (b, q))) as [Heq|Hne].
  - injection Heq as -> ->. reflexivity.
  - rewrite (endpoint_ltb_swap (a, p) (b, q) Hne).
    destruct (endpoint_ltb (a, p) (b, q)); reflexivity.
Qed.

(** In ForensicEngine.process_pcap (pcap_analyzer_v9.py), the packet and
    byte counters cover every frame of the capture, TCP or not, while the
    flows' packet counts add up to the number of TCP segments over IPv4;
    every flow has seen at least one packet, with its fast retransmissions,
    its timeout retransmissions and its tracked sequence numbers together
    never exceeding its packet count. *)
Theorem v9_engine_counters (frames : list Frame) (key : string) (f : V9.FlowMetrics)
    (Hk : V9Engine.flows (V9Engine.process_pcap frames) !! key = Some f) :
  V9Engine.total_packets (V9Engine.process_pcap frames) = Z.of_nat (length frames) /\
  V9Engine.total_bytes (V9Engine.process_pcap frames) = frames_bytes frames /\
  zsum_map V9.packet_count (V9Engine.flows (V9Engine.process_pcap frames)) =
    Z.of_nat (length (omap frame_segment4 frames)) /\
  (1 <= V9.packet_count f)%Z /\
  (0 <= V9.retrans_fast f)%Z /\ (0 <= V9.retrans_rto f)%Z /\
  (V9.retrans_fast f + V9.retrans_rto f + Z.of_nat (size (V9.seq_tracker f))
     <= V9.packet_count f)%Z.
Proof.
  destruct (v9_engine_inv frames) as (Hfl & Htot & Hb & Hs).
  destruct (Hfl key f Hk) as [(_ & Hf & Ho & Hc) H1].
  auto 10.
Qed.

Lemma v9_engine_counters_witness :
  let frames := NonIpFrame 0 42 :: Samples.ipv4 Samples.v9_flow in
  let key := V9Engine.get_flow_key Samples.A_ip Samples.A_port Samples.B_ip Samples.B_port in
  let f := default V9.new_FlowMetrics (V9Engine.flows (V9Engine.process_pcap frames) !! key) in
  V9Engine.total_packets (V9Engine.process_pcap frames) = 4%Z /\
  zsum_map V9.packet_count (V9Engine.flows (V9Engine.process_pcap frames)) = 3%Z /\
  V9.retrans_rto f = 1%Z.
Proof.
  intros frames key f.
  assert (H : V9Engine.flows (V9Engine.process_pcap frames) !! key = Some f)
    by (vm_compute; reflexivity).
  destruct (v9_engine_counters frames key f H) as (H1 & _ & H3 & _).
  split; [rewrite H1; reflexivity|]. split; [rewrite H3; reflexivity|].
  vm_compute. reflexivity.
Defined.

(** process_pcap (pcap_analyzer_v9.py) never records an RTT sample (the
    ACK branch of _analyze_packet is [pass]), so every flow's average RTT
    stays 0, the baseline falls back to 0.1 s, and a retransmission counts
    as a timeout exactly when it comes more than 0.2 s after the first
    transmission of its sequence number; get_health_verdict never reports
    "WARN: High Latency". *)
Theorem v9_no_rtt_samples (frames : list Frame) (key : string) (f : V9.FlowMetrics)
    (Hk : V9Engine.flows (V9Engine.process_pcap frames) !! key = Some f) :
  V9.rtt_samples f = [] /\ V9.avg_rtt_ms f = 0 /\
  (forall delta, V9.is_rto f delta = qltb (1 # 5) delta) /\
  ~ In "WARN: High Latency" (V9Engine.health_issues f).
Proof.
  destruct (v9_engine_inv frames) as [Hfl _].
  destruct (Hfl key f Hk) as [(Hr & _) _].
  assert (Havg : V9.avg_rtt_ms f = 0) by (unfold V9.avg_rtt_ms; rewrite Hr; reflexivity).
  split; [exact Hr|]. split; [exact Havg|]. split.
  - intros delta. unfold V9.is_rto. rewrite Havg.
    change (Qeq_bool (0 / 1000) 0) with true. cbv iota.
    rewrite (qltb_proper ((1 # 10) * V9.RTO_THRESHOLD_MULTIPLIER) (1 # 5)) by reflexivity.
    rewrite (qltb_proper (V9.MIN_RTO_MS / 1000) (1 # 5)) by reflexivity.
    destruct (qltb (1 # 5) delta); reflexivity.
  - unfold V9Engine.health_issues. rewrite Havg.
    change (qltb V9Engine.HIGH_LATENCY_MS 0) with false. rewrite app_nil_r.
    destruct (0 <? V9.retrans_rto f)%Z, (5 <? V9.retrans_fast f)%Z, (0 <? V9.zero_win_events f)%Z;
      cbn; intuition discriminate.
Qed.

Lemma v9_no_rtt_samples_witness :
  let key := V9Engine.get_flow_key Samples.A_ip Samples.A_port Samples.B_ip Samples.B_port in
  let f := default V9.new_FlowMetrics
             (V9Engine.flows (V9Engine.process_pcap (Samples.ipv4 Samples.v9_flow)) !! key) in
  V9.is_rto f (6 # 10) = true.
Proof.
  intros key f.
  assert (H : V9Engine.flows (V9Engine.process_pcap (Samples.ipv4 Samples.v9_flow)) !! key = Some f)
    by (vm_compute; reflexivity).
  destruct (v9_no_rtt_samples (Samples.ipv4 Samples.v9_flow) key f H) as (_ & _ & Hr & _).
  rewrite Hr. reflexivity.
Defined.

(* ------------------------------------------------------------------ *)
(** ** pcap_analyzer_v10.py: the ForensicsEngine *)

Ltac split_cases :=
  repeat (first
    [ progress cbn beta iota zeta
    | match goal with
      | |- context [if ?b then _ else _] =>
          lazymatch b with
          | context [if _ then _ else _] => fail
          | true => fail | false => fail
          | _ => destruct b eqn:?
          end
      | |- context [match ?o with Some _ => _ | None => _ end] =>
          lazymatch o with Some _ => fail | None => fail | _ => destruct o eqn:? end
      | |- context [match ?l with [] => _ | _ :: _ => _ end] =>
          lazymatch l with [] => fail | _ :: _ => fail | _ => destruct l eqn:? end
      end ]).

Lemma v10_update_inv (d : Z) (ts : Q) (s : Segment) (f : V10.StreamMetrics) :
  v10_stream_inv f -> v10_stream_inv (V10.update_stream d ts s f).
Proof.
  intros (Hf & Hr & Hlt & Hz & Hs & Hne).
  unfold V10.update_stream, v10_stream_inv.
  split_cases.
  all: cbn [V10.retrans_fast V10.retrans_rto V10.packets V10.zero_wins V10.rtt_samples].
  all: repeat split; try lia.
  all: repeat match goal with
       | H : _ && _ = true |- _ => apply andb_true_iff in H; destruct H
       end.
  all: try (apply Forall_app; split; [assumption | constructor; [|constructor]];
            split; apply qltb_true; assumption).
  all: try assumption.
  all: try (intros ?; simpl; discriminate).
  all: try (intros ?; apply Hne; lia).
  all: intros _ Happ; apply app_eq_nil in Happ; destruct Happ as [_ Hc]; discriminate Hc.
Qed.

Lemma v10_new_update (d : Z) (ts ts' : Q) (s : Segment) :
  v10_stream_inv (V10.update_stream d ts s (V10.new_StreamMetrics ts')).
Proof.
  unfold V10.update_stream, v10_stream_inv, V10.new_StreamMetrics.
  assert (Hd : V10.dir_get d (0%Z, 0%Z) = 0%Z) by (unfold V10.dir_get; destruct (Z.eqb d 0); reflexivity).
  cbn [V10.next_seq V10.rtt_samples V10.retrans_fast V10.retrans_rto V10.zero_wins V10.packets].
  rewrite Hd.
  split_cases.
  all: cbn [V10.retrans_fast V10.retrans_rto V10.packets V10.zero_wins V10.rtt_samples].
  all: repeat split; try lia.
  all: repeat match goal with
       | H : _ && _ = true |- _ => apply andb_true_iff in H; destruct H
       end.
  all: try (constructor; [|constructor]; split; apply qltb_true; assumption).
  all: try constructor.
  all: try (intros ?; simpl; discriminate).
Qed.

Lemma sum_streams_empty (g : V10.StreamMetrics -> Z) :
  V10Engine.sum_streams g ∅ = 0%Z.
Proof. unfold V10Engine.sum_streams. apply map_fold_empty. Qed.

Lemma sum_streams_insert (g : V10.StreamMetrics -> Z) k p m :
  V10Engine.sum_streams g (<[k := p]> m) = (V10Engine.sum_streams g (delete k m) + g p.2)%Z.
Proof.
  unfold V10Engine.sum_streams. rewrite <- insert_delete_eq.
  rewrite map_fold_insert_L; [reflexivity | intros; lia | apply lookup_delete_eq].
Qed.

Lemma sum_streams_delete (g : V10.StreamMetrics -> Z) k p m :
  m !! k = Some p ->
  V10Engine.sum_streams g m = (V10Engine.sum_streams g (delete k m) + g p.2)%Z.
Proof.
  intros H. rewrite <- (sum_streams_insert g k p m), (insert_id m k p H). reflexivity.
Qed.

Lemma sum_streams_le2 (g1 g2 h : V10.StreamMetrics -> Z) m :
  map_Forall (fun _ p => (g1 p.2 + g2 p.2 <= h p.2)%Z) m ->
  (V10Engine.sum_streams g1 m + V10Engine.sum_streams g2 m <= V10Engine.sum_streams h m)%Z.
Proof.
  induction m as [|k p m Hk IH] using map_ind; intros Hm.
  - rewrite !sum_streams_empty. lia.
  - rewrite !sum_streams_insert, !delete_id by exact Hk.
    apply map_Forall_insert in Hm; [|exact Hk]. destruct Hm as [Hp Hm].
    specialize (IH Hm). lia.
Qed.

Lemma sum_streams_nonneg (g : V10.StreamMetrics -> Z) m :
  map_Forall (fun _ p => (0 <= g p.2)%Z) m -> (0 <= V10Engine.sum_streams g m)%Z.
Proof.
  induction m as [|k p m Hk IH] using map_ind; intros Hm.
  - rewrite sum_streams_empty. lia.
  - rewrite sum_streams_insert, delete_id by exact Hk.
    apply map_Forall_insert in Hm; [|exact Hk]. destruct Hm as [Hp Hm].
    specialize (IH Hm). lia.
Qed.

Lemma v10_init_inv : v10_engine_inv V10Engine.init_engine.
Proof.
  split; [apply map_Forall_empty|split].
  - intros k1 k2 i f1 f2 H. cbn [V10Engine.init_engine V10Engine.streams] in H.
    rewrite lookup_empty in H. discriminate H.
  - rewrite sum_streams_empty. cbn. lia.
Qed.

Lemma v10_packets_update d ts s f :
  V10.packets (V10.update_stream d ts s f) = (V10.packets f + 1)%Z.
Proof.
  unfold V10.update_stream.
  repeat match goal with
  | |- context [match ?x with pair _ _ => _ end] =>
      lazymatch x with pair _ _ => fail | _ => destruct x end
  end; reflexivity.
Qed.

(** One frame adds one packet to the streams exactly when it carries a
    TCP segment. *)
Lemma v10_sum_step (e : V10Engine.Engine) (fr : Frame) :
  V10Engine.sum_streams V10.packets (V10Engine.streams (V10Engine.analyze_packet e fr)) =
    (V10Engine.sum_streams V10.packets (V10Engine.streams e) +
     match frame_segment fr with Some _ => 1 | None => 0 end)%Z.
Proof.
  unfold V10Engine.analyze_packet. cbv zeta.
  destruct (frame_segment fr) as [s|]; [|cbn [V10Engine.streams]; lia].
  cbn [V10Engine.streams].
  destruct (V10.flow_key_of _ _ _ _) as [fk d]. cbn beta iota zeta.
  destruct (V10Engine.streams e !! fk) as [[i f]|] eqn:Hk; cbn beta iota zeta;
    cbn [V10Engine.streams]; rewrite sum_streams_insert; cbn [snd];
    rewrite v10_packets_update.
  - rewrite (sum_streams_delete _ _ _ _ Hk). cbn [snd]. lia.
  - rewrite delete_id by exact Hk. cbn. lia.
Qed.

Lemma v10_step_inv (e : V10Engine.Engine) (fr : Frame) :
  v10_engine_inv e -> v10_engine_inv (V10Engine.analyze_packet e fr).
Proof.
  intros He. pose proof (v10_sum_step e fr) as Hstep.
  destruct He as (Hf & Hinj & Hsum).
  assert (Hg : V10Engine.global_packets (V10Engine.analyze_packet e fr) =
               (V10Engine.global_packets e + 1)%Z).
  { unfold V10Engine.analyze_packet. cbv zeta. destruct (frame_segment fr) as [s|]; [|reflexivity].
    destruct (V10.flow_key_of _ _ _ _) as [fk d]. cbn beta iota zeta.
    destruct (V10Engine.streams _ !! fk) as [[i f]|]; reflexivity. }
  split; [|split]; [| |rewrite Hstep, Hg; destruct (frame_segment fr); lia].
  all: unfold V10Engine.analyze_packet; cbv zeta.
  all: destruct (frame_segment fr) as [s|]; [|cbn [V10Engine.streams]; assumption].
  all: cbn [V10Engine.streams].
  all: destruct (V10.flow_key_of _ _ _ _) as [fk d]; cbn beta iota zeta.
  all: destruct (V10Engine.streams e !! fk) as [[i f]|] eqn:Hk; cbn beta iota zeta;
         cbn [V10Engine.streams].
  - pose proof (map_Forall_lookup_1 _ _ _ _ Hf Hk) as [Hfi Hi]. cbn in Hfi, Hi.
    rewrite map_size_insert_Some by (eexists; exact Hk).
    apply map_Forall_insert_2; [split; [apply v10_update_inv; exact Hfi | exact Hi]|exact Hf].
  - set (n := size (V10Engine.streams e)).
    rewrite map_size_insert_None by exact Hk.
    apply map_Forall_insert_2.
    + split; [apply v10_new_update | cbn; lia].
    + eapply map_Forall_impl; [exact Hf|]. intros k [j g] [Hg' Hj]. cbn in *. split; [exact Hg'|lia].
  - intros k1 k2 j f1 f2 H1 H2.
    destruct (decide (k1 = fk)) as [->|N1]; destruct (decide (k2 = fk)) as [->|N2].
    + reflexivity.
    + rewrite lookup_insert_eq in H1. rewrite lookup_insert_ne in H2 by congruence.
      injection H1 as <- _. symmetry. exact (Hinj _ _ _ _ _ H2 Hk).
    + rewrite lookup_insert_eq in H2. rewrite lookup_insert_ne in H1 by congruence.
      injection H2 as <- _. exact (Hinj _ _ _ _ _ H1 Hk).
    + rewrite lookup_insert_ne in H1, H2 by congruence. exact (Hinj _ _ _ _ _ H1 H2).
  - set (n := size (V10Engine.streams e)).
    assert (Hlt : forall k j g, V10Engine.streams e !! k = Some (j, g) -> j <> (Z.of_nat n + 1)%Z).
    { intros k j g Hkj. pose proof (map_Forall_lookup_1 _ _ _ _ Hf Hkj) as [_ Hj]. cbn in Hj. fold n in Hj. lia. }
    intros k1 k2 j f1 f2 H1 H2.
    destruct (decide (k1 = fk)) as [->|N1]; destruct (decide (k2 = fk)) as [->|N2].
    + reflexivity.
    + rewrite lookup_insert_eq in H1. rewrite lookup_insert_ne in H2 by congruence.
      injection H1 as <- _. exfalso. exact (Hlt _ _ _ H2 eq_refl).
    + rewrite lookup_insert_eq in H2. rewrite lookup_insert_ne in H1 by congruence.
      injection H2 as <- _. exfalso. exact (Hlt _ _ _ H1 eq_refl).
    + rewrite lookup_insert_ne in H1, H2 by congruence. exact (Hinj _ _ _ _ _ H1 H2).
Qed.

Lemma v10_run_inv (frames : list Frame) : v10_engine_inv (V10Engine.run frames).
Proof.
  unfold V10Engine.run. generalize V10Engine.init_engine v10_init_inv.
  induction frames as [|x r IH]; intros e He; [exact He|]. cbn. apply IH, v10_step_inv, He.
Qed.

Lemma flow_key_of_ltb (a : string) (p : Z) (b : string) (q : Z) :
  V10.flow_key_of a p b q =
    if endpoint_ltb (a, p) (b, q) then ((a, p, b, q), 0%Z) else ((b, q, a, p), 1%Z).
Proof. unfold V10.flow_key_of, endpoint_ltb. cbn. destruct (String.compare a b); reflexivity. Qed.

Lemma v10_capture_fold (frames : list Frame) (e : V10Engine.Engine) :
  let e' := fold_left V10Engine.analyze_packet frames e in
  V10Engine.global_packets e' = (V10Engine.global_packets e + Z.of_nat (length frames))%Z /\
  V10Engine.sum_streams V10.packets (V10Engine.streams e') =
    (V10Engine.sum_streams V10.packets (V10Engine.streams e) +
     Z.of_nat (length (omap frame_segment frames)))%Z /\
  (forall sc0, V10Engine.start_capture e = Some sc0 ->
     exists sc, V10Engine.start_capture e' = Some sc /\ sc <= sc0) /\
  V10Engine.end_capture e <= V10Engine.end_capture e' /\
  (frames = [] -> V10Engine.start_capture e' = V10Engine.start_capture e) /\
  (forall x, In x frames -> exists sc, V10Engine.start_capture e' = Some sc /\
     sc <= frame_ts x <= V10Engine.end_capture e').
Proof.
  revert e. induction frames as [|x r IH]; intros e; cbn zeta; cbn [fold_left].
  - split; [cbn [length]; lia|]. split; [cbn; lia|].
    split; [intros sc0 H; exists sc0; split; [exact H|apply Qle_refl]|].
    split; [apply Qle_refl|]. split; [reflexivity|]. intros y [].
  - assert (Hst : V10Engine.start_capture (V10Engine.analyze_packet e x) =
                  Some (V10Engine.min_capture (V10Engine.start_capture e) (frame_ts x)) /\
                  V10Engine.end_capture (V10Engine.analyze_packet e x) =
                  Qmax (V10Engine.end_capture e) (frame_ts x) /\
                  V10Engine.global_packets (V10Engine.analyze_packet e x) =
                  (V10Engine.global_packets e + 1)%Z).
    { unfold V10Engine.analyze_packet. cbv zeta.
      destruct (frame_segment x) as [s|]; [|repeat split].
      destruct (V10.flow_key_of _ _ _ _) as [fk d]. cbn beta iota zeta.
      match goal with
      | |- context [V10Engine.streams ?e0 !! ?k] => destruct (V10Engine.streams e0 !! k) as [[i f]|]
      end; repeat split. }
    destruct Hst as (Hs & He & Hg).
    pose proof (v10_sum_step e x) as Hsum.
    destruct (IH (V10Engine.analyze_packet e x)) as (IHg & IHsum & IHs & IHe & _ & IHx).
    set (e' := fold_left V10Engine.analyze_packet r (V10Engine.analyze_packet e x)) in *.
    destruct (IHs _ Hs) as (sc & Hsc & Hle).
    assert (Hmin1 : forall sc0, V10Engine.start_capture e = Some sc0 ->
              V10Engine.min_capture (V10Engine.start_capture e) (frame_ts x) <= sc0).
    { intros sc0 H0. rewrite H0. apply Q.le_min_l. }
    assert (Hmin2 : V10Engine.min_capture (V10Engine.start_capture e) (frame_ts x) <= frame_ts x).
    { destruct (V10Engine.start_capture e); [apply Q.le_min_r|apply Qle_refl]. }
    rewrite He in IHe.
    split; [rewrite IHg, Hg; cbn [length]; lia|].
    split; [rewrite IHsum, Hsum, omap_cons_length; lia|].
    split; [intros sc0 H0; exists sc; split; [exact Hsc|exact (Qle_trans _ _ _ Hle (Hmin1 _ H0))]|].
    split; [exact (Qle_trans _ _ _ (Q.le_max_l _ _) IHe)|].
    split; [discriminate|].
    intros y [<-|Hy].
    + exists sc. split; [exact Hsc|]. split; [exact (Qle_trans _ _ _ Hle Hmin2)|].
      exact (Qle_trans _ _ _ (Q.le_max_r _ _) IHe).
    + exact (IHx y Hy).
Qed.

Lemma v10_run_fold (frames : list Frame) :
  V10Engine.run frames = fold_left V10Engine.analyze_packet frames V10Engine.init_engine.
Proof. reflexivity. Qed.

(** ForensicsEngine.analyze_packet (pcap_analyzer_v10.py) files both
    directions of a connection between two distinct endpoints under one
    flow key, with direction 0 for one and 1 for the other; the key is the
    packet's own 4-tuple in direction 0 and the swapped one in direction 1. *)
Theorem v10_flow_key_symmetric (a : string) (p : Z) (b : string) (q : Z)
    (Hne : (a, p) <> (b, q)) :
  (V10.flow_key_of a p b q).1 = (V10.flow_key_of b q a p).1 /\
  ((V10.flow_key_of a p b q).2 + (V10.flow_key_of b q a p).2 = 1)%Z /\
  (V10.flow_key_of a p b q = ((a, p, b, q), 0%Z) \/
   V10.flow_key_of a p b q = ((b, q, a, p), 1%Z)).
Proof.
  rewrite !flow_key_of_ltb, (endpoint_ltb_swap (a, p) (b, q) Hne).
  destruct (endpoint_ltb (a, p) (b, q)); cbn; auto.
Qed.

Lemma v10_flow_key_symmetric_witness :
  V10.flow_key_of Samples.A_ip Samples.A_port Samples.B_ip Samples.B_port = (Samples.key_ab, 0%Z) /\
  (V10.flow_key_of Samples.B_ip Samples.B_port Samples.A_ip Samples.A_port).1 = Samples.key_ab.
Proof.
  assert (Hne : (Samples.A_ip, Samples.A_port) <> (Samples.B_ip, Samples.B_port))
    by (intros H; vm_compute in H; discriminate H).
  destruct (v10_flow_key_symmetric _ _ _ _ Hne) as (Hk & _ & _).
  split; [vm_compute; reflexivity|]. rewrite <- Hk. vm_compute. reflexivity.
Defined.

(** ForensicsEngine (pcap_analyzer_v10.py) numbers its streams 1, 2, ...
    as it creates them: after any capture, every stream's [flow_id] lies
    between 1 and the number of streams, and no two streams share one. *)
Theorem v10_stream_ids (frames : list Frame) (k : V10Engine.FlowKey) (i : Z) (f : V10.StreamMetrics)
    (Hk : V10Engine.streams (V10Engine.run frames) !! k = Some (i, f)) :
  (1 <= i <= Z.of_nat (size (V10Engine.streams (V10Engine.run frames))))%Z /\
  (forall k' f', V10Engine.streams (V10Engine.run frames) !! k' = Some (i, f') -> k' = k).
Proof.
  destruct (v10_run_inv frames) as (Hf & Hinj & _).
  split.
  - exact (proj2 (map_Forall_lookup_1 _ _ _ _ Hf Hk)).
  - intros k' f' Hk'. exact (Hinj _ _ _ _ _ Hk' Hk).
Qed.

Lemma v10_stream_ids_witness :
  let frames := Samples.mixed_capture ++
    [TcpFrame false (mkSegment 5 Samples.B_ip 5000 Samples.A_ip 22 1 0 TH_SYN 65535 0 54)] in
  let k := (Samples.A_ip, 22%Z, Samples.B_ip, 5000%Z) in
  let p := default (0%Z, V10.new_StreamMetrics 0) (V10Engine.streams (V10Engine.run frames) !! k) in
  p.1 = 2%Z /\ (1 <= p.1 <= Z.of_nat (size (V10Engine.streams (V10Engine.run frames))))%Z.
Proof.
  intros frames k p.
  assert (H : V10Engine.streams (V10Engine.run frames) !! k = Some (p.1, p.2))
    by (vm_compute; reflexivity).
  split; [vm_compute; reflexivity|]. exact (proj1 (v10_stream_ids frames k p.1 p.2 H)).
Defined.

(** In every stream of ForensicsEngine (pcap_analyzer_v10.py), the fast
    and timeout retransmissions together stay below the packet count (the
    first packet of a stream is never a retransmission), the zero-window
    events never exceed it, every RTT sample lies in the (0, 5000) ms
    window, and a timeout retransmission is only ever counted once the
    stream has an RTT sample. *)
Theorem v10_stream_counters (frames : list Frame) (k : V10Engine.FlowKey) (i : Z) (f : V10.StreamMetrics)
    (Hk : V10Engine.streams (V10Engine.run frames) !! k = Some (i, f)) :
  (0 <= V10.retrans_fast f)%Z /\ (0 <= V10.retrans_rto f)%Z /\
  (V10.retrans_fast f + V10.retrans_rto f < V10.packets f)%Z /\
  (0 <= V10.zero_wins f <= V10.packets f)%Z /\
  Forall (fun r => 0 < r /\ r < 5000) (V10.rtt_samples f) /\
  ((0 < V10.retrans_rto f)%Z -> V10.rtt_samples f <> []).
Proof.
  destruct (v10_run_inv frames) as (Hf & _ & _).
  exact (proj1 (map_Forall_lookup_1 _ _ _ _ Hf Hk)).
Qed.

Lemma v10_stream_counters_witness :
  let p := default (0%Z, V10.new_StreamMetrics 0)
             (V10Engine.streams (V10Engine.run Samples.mixed_capture) !! Samples.key_ab) in
  V10.retrans_fast p.2 = 1%Z /\ (V10.retrans_fast p.2 + V10.retrans_rto p.2 < V10.packets p.2)%Z.
Proof.
  intros p.
  assert (H : V10Engine.streams (V10Engine.run Samples.mixed_capture) !! Samples.key_ab = Some (p.1, p.2))
    by (vm_compute; reflexivity).
  split; [vm_compute; reflexivity|].
  exact (proj1 (proj2 (proj2 (v10_stream_counters Samples.mixed_capture _ _ _ H)))).
Defined.

(** Over a whole capture, ForensicsEngine (pcap_analyzer_v10.py) counts
    every frame once globally, TCP or not, and every TCP segment (over IPv4
    or IPv6) once in its stream; after at least one frame,
    [start_capture] is no longer infinite, and every frame's time lies
    between [start_capture] and [end_capture]. *)
Theorem v10_capture_totals (frames : list Frame) :
  V10Engine.global_packets (V10Engine.run frames) = Z.of_nat (length frames) /\
  V10Engine.sum_streams V10.packets (V10Engine.streams (V10Engine.run frames)) =
    Z.of_nat (length (omap frame_segment frames)) /\
  (V10Engine.start_capture (V10Engine.run frames) = None <-> frames = []) /\
  (forall x, In x frames -> exists sc, V10Engine.start_capture (V10Engine.run frames) = Some sc /\
     sc <= frame_ts x <= V10Engine.end_capture (V10Engine.run frames)).
Proof.
  destruct (v10_capture_fold frames V10Engine.init_engine) as (Hg & Hs & _ & _ & Hnil & Hx).
  rewrite <- v10_run_fold in Hg, Hs, Hnil, Hx.
  cbn [V10Engine.init_engine V10Engine.global_packets V10Engine.streams] in Hg, Hs.
  rewrite sum_streams_empty in Hs.
  split; [lia|]. split; [lia|]. split; [|exact Hx].
  split.
  - destruct frames as [|x r]; [reflexivity|]. intros Hn.
    destruct (Hx x (or_introl eq_refl)) as (sc & Hsc & _). congruence.
  - intros ->. reflexivity.
Qed.

(** After any capture, generate_report's retransmission ratio
    (pcap_analyzer_v10.py), whose denominator counts every frame, lies
    between 0 and 1, and every RTT in [all_rtts] lies in the (0, 5000) ms
    window. *)
Theorem v10_retrans_ratio_range (frames : list Frame) :
  0 <= V10Engine.retrans_ratio (V10Engine.run frames) <= 1 /\
  Forall (fun r => 0 < r /\ r < 5000) (V10Engine.all_rtts (V10Engine.run frames)).
Proof.
  destruct (v10_run_inv frames) as (Hf & _ & Hsum).
  set (e := V10Engine.run frames) in *.
  split.
  - assert (Hle : (V10Engine.total_retrans e <= V10Engine.global_packets e)%Z).
    { unfold V10Engine.total_retrans.
      assert (V10Engine.sum_streams V10.retrans_fast (V10Engine.streams e) +
              V10Engine.sum_streams V10.retrans_rto (V10Engine.streams e) <=
              V10Engine.sum_streams V10.packets (V10Engine.streams e))%Z.
      { apply sum_streams_le2.
        eapply map_Forall_impl; [exact Hf|]. intros _ p [(_ & _ & Hlt & _) _]. lia. }
      lia. }
    assert (H0 : (0 <= V10Engine.total_retrans e)%Z).
    { unfold V10Engine.total_retrans.
      assert (0 <= V10Engine.sum_streams V10.retrans_fast (V10Engine.streams e))%Z.
      { apply sum_streams_nonneg. eapply map_Forall_impl; [exact Hf|]. intros _ p [(? & _) _]. lia. }
      assert (0 <= V10Engine.sum_streams V10.retrans_rto (V10Engine.streams e))%Z.
      { apply sum_streams_nonneg. eapply map_Forall_impl; [exact Hf|]. intros _ p [(_ & ? & _) _]. lia. }
      lia. }
    unfold V10Engine.retrans_ratio, V10Engine.safe_div.
    destruct (qltb 0 (inject_Z (V10Engine.global_packets e))) eqn:Hp.
    + apply qltb_true in Hp. split.
      * apply Qle_shift_div_l; [exact Hp|]. rewrite Qmult_0_l. apply Qnonneg_inject; lia.
      * apply Qle_shift_div_r; [exact Hp|]. rewrite Qmult_1_l. rewrite <- Zle_Qle. exact Hle.
    + split; discriminate.
  - unfold V10Engine.all_rtts. apply Forall_concat. apply Forall_forall.
    intros l Hl. apply list_elem_of_fmap in Hl as ([k p] & -> & Hkp).
    apply elem_of_map_to_list in Hkp.
    exact (proj1 (proj2 (proj2 (proj2 (proj2 (proj1 (map_Forall_lookup_1 _ _ _ _ Hf Hkp))))))).
Qed.

(** generate_report's verdict (pcap_analyzer_v10.py) is always HEALTHY,
    DEGRADED or CRITICAL; it is CRITICAL exactly when the retransmission
    ratio is above 5 % (high latency never raises it further, zero windows
    never touch it), and HEALTHY exactly when the ratio is at most 1 % and
    the average RTT at most 150 ms. *)
Theorem v10_verdict_health (e : V10Engine.Engine) :
  (fst (V10Engine.verdict e) = "HEALTHY" \/ fst (V10Engine.verdict e) = "DEGRADED" \/
   fst (V10Engine.verdict e) = "CRITICAL")%string /\
  (fst (V10Engine.verdict e) = "CRITICAL"%string <->
     V10Engine.CRITICAL_RETRANS_RATIO < V10Engine.retrans_ratio e) /\
  (fst (V10Engine.verdict e) = "HEALTHY"%string <->
     V10Engine.retrans_ratio e <= V10Engine.DEGRADED_RETRANS_RATIO /\
     V10Engine.avg_rtt e <= V10Engine.HIGH_LATENCY_MS).
Proof.
  unfold V10Engine.verdict.
  destruct (qltb V10Engine.CRITICAL_RETRANS_RATIO (V10Engine.retrans_ratio e)) eqn:Hc;
  [|destruct (qltb V10Engine.DEGRADED_RETRANS_RATIO (V10Engine.retrans_ratio e)) eqn:Hd];
  destruct (qltb V10Engine.HIGH_LATENCY_MS (V10Engine.avg_rtt e)) eqn:Hl;
  cbn.
  all: repeat match goal with
       | H : qltb _ _ = true |- _ => apply qltb_true in H
       | H : qltb _ _ = false |- _ => apply qltb_false in H
       end.
  all: split; [first [left; reflexivity | right; left; reflexivity | right; right; reflexivity]|].
  all: split; split; intros H; try discriminate H; try assumption; try (split; assumption).
  all: exfalso; try (match goal with H : _ /\ _ |- _ => destruct H as [H H'] end).
  all: match goal with
       | H1 : ?a < ?b, H2 : ?b <= ?c |- _ =>
           pose proof (Qlt_le_trans _ _ _ H1 H2) as Hx; vm_compute in Hx; discriminate Hx
       end.
Qed.

(* ------------------------------------------------------------------ *)
(** ** pcap_analyzer_v5.py: the TrafficAnalyzer *)


Lemma endpoint_ltb_asym (e1 e2 : Endpoint) :
  endpoint_ltb e1 e2 = true -> endpoint_ltb e2 e1 = false.
Proof.
  intros H. destruct (decide (e1 = e2)) as [->|Hne].
  - destruct e2 as [a p]. unfold endpoint_ltb in *. cbn in *.
    pose proof (String.compare_antisym a a) as Ha.
    destruct (String.compare a a); cbn in Ha; try discriminate Ha.
    rewrite Z.ltb_irrefl in H. discriminate H.
  - rewrite (endpoint_ltb_swap e1 e2 Hne), H. reflexivity.
Qed.

Lemma get_stream_id_sorted (a : string) (p : Z) (b : string) (q : Z) :
  endpoint_ltb (get_stream_id a p b q).1.2 (get_stream_id a p b q).1.1 = false /\
  ((get_stream_id a p b q).2 = 0%Z \/ (get_stream_id a p b q).2 = 1%Z).
Proof.
  unfold get_stream_id. cbn.
  destruct (endpoint_ltb (b, q) (a, p)) eqn:E; cbn.
  - split; [exact (endpoint_ltb_asym _ _ E)|]. case_bool_decide; auto.
  - split; [exact E|]. case_bool_decide; auto.
Qed.

Lemma v5_update_inv (s : Segment) (ts : Q) (d : Z) (t : V5.StreamTracker) :
  (d = 0%Z \/ d = 1%Z) ->
  (t = V5.new_StreamTracker \/ v5_tracker_inv t) ->
  v5_tracker_inv (V5.update s ts d t).
Proof.
  intros Hd Ht.
  assert (Hb : (0 <= V5.retransmissions t)%Z /\
               (V5.retransmissions t + Z.of_nat (size (V5.seen_seqs t)) <= V5.packet_count t)%Z /\
               (0 <= V5.syn_count t <= V5.packet_count t)%Z /\
               (0 <= V5.fin_count t <= V5.packet_count t)%Z /\
               (0 <= V5.rst_count t <= V5.packet_count t)%Z /\
               set_Forall (fun sk => sk.1 = 0%Z \/ sk.1 = 1%Z) (V5.seen_seqs t) /\
               Forall (fun r => 0 <= r /\ r < 10000) (V5.rtt_samples t)).
  { destruct Ht as [->|(_ & H1 & H2 & H3 & H4 & H5 & H6 & H7 & _)].
    - cbn. rewrite size_empty. repeat split; try lia; [apply set_Forall_empty|constructor].
    - repeat split; assumption || lia. }
  clear Ht. destruct Hb as (Hr & Hseen & Hsyn & Hfin & Hrst & Hdir & Hrtt).
  unfold V5.update, v5_tracker_inv.
  split_cases.
  all: cbn [V5.packet_count V5.retransmissions V5.seen_seqs V5.syn_count V5.fin_count
            V5.rst_count V5.rtt_samples V5.start_time].
  all: repeat match goal with
       | H : _ && _ = true |- _ => apply andb_true_iff in H; destruct H
       | H : bool_decide _ = true |- _ => apply bool_decide_eq_true in H
       | H : bool_decide _ = false |- _ => apply bool_decide_eq_false in H
       end.
  all: try rewrite size_union by set_solver.
  all: try rewrite size_singleton.
  all: repeat split; try lia.
  all: try (apply set_Forall_union; [apply set_Forall_singleton; cbn; exact Hd | exact Hdir]).
  all: try assumption.
  all: try (apply Forall_app; split; [exact Hrtt|constructor; [|constructor]];
            split; [apply Qle_bool_iff; assumption | apply qltb_true; assumption]).
  all: try (destruct (V5.start_time t); eexists; reflexivity).
Qed.

Lemma v5_init_inv : v5_analyzer_inv V5Analyzer.init_analyzer.
Proof.
  split; [apply map_Forall_empty|].
  cbn [V5Analyzer.init_analyzer V5Analyzer.streams V5Analyzer.total_packets
       V5Analyzer.tcp_counts V5Analyzer.udp_counts V5Analyzer.other_counts
       V5Analyzer.zero_window_events].
  rewrite zsum_map_empty. repeat split; lia.
Qed.

Lemma v5_pc_update s ts d t :
  V5.packet_count (V5.update s ts d t) = (V5.packet_count t + 1)%Z.
Proof.
  unfold V5.update.
  repeat match goal with
  | |- context [match ?x with pair _ _ => _ end] =>
      lazymatch x with pair _ _ => fail | _ => destruct x end
  end; reflexivity.
Qed.

Lemma v5_step_inv (a : V5Analyzer.Analyzer) (fr : Frame) :
  v5_analyzer_inv a -> v5_analyzer_inv (V5Analyzer.process_packet a fr).
Proof.
  intros (Hf & Hsum & Hu & Ho & Htot & Hzw).
  unfold V5Analyzer.process_packet, v5_analyzer_inv.
  destruct fr as [v6 s|v6 ts src len|v6 ts src len|ts len]; cbn beta iota zeta;
    [|cbn [V5Analyzer.streams V5Analyzer.total_packets V5Analyzer.tcp_counts
           V5Analyzer.udp_counts V5Analyzer.other_counts V5Analyzer.zero_window_events];
      split; [exact Hf|]; repeat split; lia ..].
  destruct (get_stream_id_sorted (seg_src s) (seg_sport s) (seg_dst s) (seg_dport s)) as [Hsort Hd].
  destruct (get_stream_id _ _ _ _) as [sid d]. cbn beta iota zeta. cbn in Hsort, Hd.
  cbn [V5Analyzer.streams V5Analyzer.total_packets V5Analyzer.tcp_counts
       V5Analyzer.udp_counts V5Analyzer.other_counts V5Analyzer.zero_window_events].
  split; [|split; [|split; [|split; [|split]]]].
  - apply map_Forall_insert_2; [|exact Hf]. split; [|exact Hsort].
    apply v5_update_inv; [exact Hd|].
    destruct (V5Analyzer.streams a !! sid) as [t|] eqn:Hk; cbn; [|left; reflexivity].
    right. exact (proj1 (map_Forall_lookup_1 _ _ _ _ Hf Hk)).
  - rewrite zsum_map_insert, v5_pc_update.
    destruct (V5Analyzer.streams a !! sid) as [t|] eqn:Hk; cbn [default].
    + rewrite (zsum_map_delete _ _ _ _ Hk) in Hsum. unfold id. lia.
    + rewrite delete_id by exact Hk. cbn. unfold id. lia.
  - lia.
  - lia.
  - lia.
  - destruct (_ && _); lia.
Qed.

Lemma v5_run_inv (frames : list Frame) : v5_analyzer_inv (V5Analyzer.run frames).
Proof.
  unfold V5Analyzer.run. generalize V5Analyzer.init_analyzer v5_init_inv.
  induction frames as [|x r IH]; intros a Ha; [exact Ha|]. cbn. apply IH, v5_step_inv, Ha.
Qed.

(** What one frame adds to the totals of TrafficAnalyzer. *)
Lemma v5_step_fields (a : V5Analyzer.Analyzer) (x : Frame) :
  let a' := V5Analyzer.process_packet a x in
  V5Analyzer.total_packets a' = (V5Analyzer.total_packets a + 1)%Z /\
  V5Analyzer.total_bytes a' = (V5Analyzer.total_bytes a + frame_len x)%Z /\
  V5Analyzer.tcp_counts a' =
    (V5Analyzer.tcp_counts a + match frame_segment x with Some _ => 1 | None => 0 end)%Z /\
  zsum_map id (V5Analyzer.ip_src_counts a') =
    (zsum_map id (V5Analyzer.ip_src_counts a) +
     match frame_ip_src x with Some _ => frame_len x | None => 0 end)%Z /\
  V5Analyzer.start_time a' =
    (match V5Analyzer.start_time a with None => Some (frame_ts x) | st => st end) /\
  V5Analyzer.end_time a' = Some (frame_ts x).
Proof.
  cbv zeta.
  assert (Hip : V5Analyzer.ip_src_counts (V5Analyzer.process_packet a x) =
            match frame_ip_src x with
            | Some src => <[src := (default 0%Z (V5Analyzer.ip_src_counts a !! src) + frame_len x)%Z]>
                            (V5Analyzer.ip_src_counts a)
            | None => V5Analyzer.ip_src_counts a
            end).
  { unfold V5Analyzer.process_packet. cbv zeta.
    destruct x as [v6 s|v6 ts src len|v6 ts src len|ts len]; cbn beta iota;
      [destruct (get_stream_id _ _ _ _)|..]; reflexivity. }
  assert (Hzs : zsum_map id (V5Analyzer.ip_src_counts (V5Analyzer.process_packet a x)) =
            (zsum_map id (V5Analyzer.ip_src_counts a) +
             match frame_ip_src x with Some _ => frame_len x | None => 0 end)%Z).
  { rewrite Hip. destruct (frame_ip_src x) as [src|]; [|lia].
    rewrite zsum_map_insert. unfold id.
    destruct (V5Analyzer.ip_src_counts a !! src) as [c|] eqn:Hk; cbn [default].
    - rewrite (zsum_map_delete _ _ _ _ Hk). unfold id. lia.
    - rewrite delete_id by exact Hk. lia. }
  refine (conj _ (conj _ (conj _ (conj Hzs _)))); clear Hip Hzs;
    unfold V5Analyzer.process_packet; cbv zeta;
    destruct x as [v6 s|v6 ts src len|v6 ts src len|ts len]; cbn beta iota;
    try (destruct (get_stream_id _ _ _ _)); cbn; try (split; reflexivity); try lia.
Qed.

Lemma v5_fold (frames : list Frame) (a : V5Analyzer.Analyzer) :
  let a' := fold_left V5Analyzer.process_packet frames a in
  V5Analyzer.total_packets a' = (V5Analyzer.total_packets a + Z.of_nat (length frames))%Z /\
  V5Analyzer.total_bytes a' = (V5Analyzer.total_bytes a + frames_bytes frames)%Z /\
  V5Analyzer.tcp_counts a' =
    (V5Analyzer.tcp_counts a + Z.of_nat (length (omap frame_segment frames)))%Z /\
  zsum_map id (V5Analyzer.ip_src_counts a') =
    (zsum_map id (V5Analyzer.ip_src_counts a) + ip_frames_bytes frames)%Z /\
  V5Analyzer.start_time a' =
    (match V5Analyzer.start_time a with
    | None => option_map frame_ts (hd_error frames)
    | st => st
    end) /\
  V5Analyzer.end_time a' =
    (match last frames with
    | None => V5Analyzer.end_time a
    | Some x => Some (frame_ts x)
    end).
Proof.
  revert a. induction frames as [|x r IH]; intros a; cbn zeta; cbn [fold_left hd_error option_map].
  - destruct (V5Analyzer.start_time a); cbn; repeat split; lia.
  - destruct (IH (V5Analyzer.process_packet a x)) as (Hp & Hb & Ht & Hi & Hs & He).
    destruct (v5_step_fields a x) as (Hxp & Hxb & Hxt & Hxi & Hxs & Hxe).
    rewrite Hxs in Hs. rewrite Hxe in He.
    split; [rewrite Hp, Hxp; cbn [length]; lia|].
    split; [rewrite Hb, Hxb, frames_bytes_cons; lia|].
    split; [rewrite Ht, Hxt, omap_cons_length; lia|].
    split; [rewrite Hi, Hxi, ip_frames_bytes_cons; lia|].
    split.
    + rewrite Hs. destruct (V5Analyzer.start_time a); reflexivity.
    + rewrite He. destruct r as [|y r']; [reflexivity|].
      rewrite last_cons_cons. destruct (last (y :: r')) eqn:E; [reflexivity|].
      apply last_None in E. discriminate E.
Qed.


(** In every stream of TrafficAnalyzer (pcap_analyzer_v5.py), built by
    process_packet over any capture, the stream id is the sorted endpoint
    pair, the stream has seen a packet and has a start time, its
    retransmissions and distinct (direction, seq) keys together never
    exceed its packet count, every recorded direction is 0 or 1, the SYN,
    FIN and RST counts never exceed the packet count, and every RTT sample
    lies in the [0, 10000) ms window. *)
Theorem v5_stream_counters (frames : list Frame) (k : Endpoint * Endpoint) (t : V5.StreamTracker)
    (Hk : V5Analyzer.streams (V5Analyzer.run frames) !! k = Some t) :
  endpoint_ltb k.2 k.1 = false /\ v5_tracker_inv t.
Proof.
  destruct (v5_run_inv frames) as (Hf & _).
  destruct (map_Forall_lookup_1 _ _ _ _ Hf Hk) as [Ht Hs]. split; assumption.
Qed.

Lemma v5_stream_counters_witness :
  let k := ((Samples.A_ip, Samples.A_port), (Samples.B_ip, Samples.B_port)) in
  let t := default V5.new_StreamTracker (V5Analyzer.streams (V5Analyzer.run Samples.mixed_capture) !! k) in
  V5.retransmissions t = 1%Z /\ v5_tracker_inv t.
Proof.
  intros k t.
  assert (H : V5Analyzer.streams (V5Analyzer.run Samples.mixed_capture) !! k = Some t)
    by (vm_compute; reflexivity).
  split; [vm_compute; reflexivity|]. exact (proj2 (v5_stream_counters Samples.mixed_capture k t H)).
Defined.

(** TrafficAnalyzer.process_packet (pcap_analyzer_v5.py) over any
    capture: [total_packets] counts every frame and [total_bytes] adds up
    every frame's length; [tcp_counts] counts the TCP frames and equals
    the sum of the streams' packet counts; the TCP, UDP and other counts
    add up to [total_packets]; the per-source byte counts add up to the
    bytes of the IP and IPv6 frames; the zero-window events are among the
    TCP frames; [start_time] and [end_time] are the times of the first
    and the last frame (not the earliest and the latest). *)
Theorem v5_analyzer_totals (frames : list Frame) :
  let a := V5Analyzer.run frames in
  V5Analyzer.total_packets a = Z.of_nat (length frames) /\
  V5Analyzer.total_bytes a = frames_bytes frames /\
  V5Analyzer.tcp_counts a = Z.of_nat (length (omap frame_segment frames)) /\
  zsum_map V5.packet_count (V5Analyzer.streams a) = V5Analyzer.tcp_counts a /\
  (V5Analyzer.tcp_counts a + V5Analyzer.udp_counts a + V5Analyzer.other_counts a =
     V5Analyzer.total_packets a)%Z /\
  zsum_map id (V5Analyzer.ip_src_counts a) = ip_frames_bytes frames /\
  (0 <= V5Analyzer.zero_window_events a <= V5Analyzer.tcp_counts a)%Z /\
  V5Analyzer.start_time a = option_map frame_ts (hd_error frames) /\
  V5Analyzer.end_time a = option_map frame_ts (last frames).
Proof.
  intros a.
  destruct (v5_run_inv frames) as (_ & Hsum & _ & _ & Htot & Hzw).
  destruct (v5_fold frames V5Analyzer.init_analyzer) as (Hp & Hb & Ht & Hi & Hs & He).
  fold (V5Analyzer.run frames) in Hp, Hb, Ht, Hi, Hs, He.
  fold a in Hp, Hb, Ht, Hi, Hs, He, Hsum, Htot, Hzw.
  cbn [V5Analyzer.init_analyzer V5Analyzer.start_time V5Analyzer.end_time
       V5Analyzer.total_packets V5Analyzer.total_bytes V5Analyzer.tcp_counts
       V5Analyzer.ip_src_counts] in Hp, Hb, Ht, Hi, Hs, He.
  rewrite zsum_map_empty in Hi.
  split; [lia|]. split; [lia|]. split; [lia|]. split; [exact Hsum|]. split; [exact Htot|].
  split; [lia|]. split; [exact Hzw|].
  split; [exact Hs|]. rewrite He. destruct (last frames); reflexivity.
Qed.

Lemma v5_analyzer_totals_witness :
  let a := V5Analyzer.run Samples.mixed_capture in
  V5Analyzer.total_packets a = 6%Z /\ V5Analyzer.tcp_counts a = 4%Z /\
  V5Analyzer.udp_counts a = 1%Z /\ V5Analyzer.other_counts a = 1%Z /\
  V5Analyzer.total_packets a = Z.of_nat (length Samples.mixed_capture) /\
  V5Analyzer.tcp_counts a = Z.of_nat (length (omap frame_segment Samples.mixed_capture)).
Proof.
  intros a. destruct (v5_analyzer_totals Samples.mixed_capture) as (H1 & _ & H2 & _).
  split; [vm_compute; reflexivity|]. split; [vm_compute; reflexivity|].
  split; [vm_compute; reflexivity|]. split; [vm_compute; reflexivity|].
  split; [exact H1|exact H2].
Defined.

(** ReportGenerator.generate's retransmission rate (pcap_analyzer_v5.py),
    whose denominator counts every frame, is after any capture a
    percentage between 0 and 100. *)
Theorem v5_retrans_rate_range (frames : list Frame) :
  0 <= V5Analyzer.retrans_rate (V5Analyzer.run frames) <= 100.
Proof.
  destruct (v5_run_inv frames) as (Hf & Hsum & Hu & Ho & Htot & _).
  destruct (v5_fold frames V5Analyzer.init_analyzer) as (Hn & _).
  fold (V5Analyzer.run frames) in Hn. cbn [V5Analyzer.init_analyzer V5Analyzer.total_packets] in Hn.
  set (a := V5Analyzer.run frames) in *.
  assert (Hle : (V5Analyzer.total_retrans a <= V5Analyzer.total_packets a)%Z).
  { unfold V5Analyzer.total_retrans.
    assert (zsum_map V5.retransmissions (V5Analyzer.streams a) <=
            zsum_map V5.packet_count (V5Analyzer.streams a))%Z.
    { apply zsum_map_le. eapply map_Forall_impl; [exact Hf|]. intros _ t [(_ & _ & Ht & _) _]. lia. }
    lia. }
  assert (H0 : (0 <= V5Analyzer.total_retrans a)%Z).
  { unfold V5Analyzer.total_retrans. apply zsum_map_nonneg.
    eapply map_Forall_impl; [exact Hf|]. intros _ t [(_ & Ht & _) _]. exact Ht. }
  unfold V5Analyzer.retrans_rate.
  destruct (Z.eqb (V5Analyzer.total_packets a) 0) eqn:Hz.
  - split; discriminate.
  - apply Z.eqb_neq in Hz.
    assert (Hp : 0 < inject_Z (V5Analyzer.total_packets a)).
    { change 0 with (inject_Z 0). rewrite <- Zlt_Qlt. lia. }
    split.
    + apply Qmult_le_0_compat; [|discriminate].
      apply Qle_shift_div_l; [exact Hp|]. rewrite Qmult_0_l. apply Qnonneg_inject; lia.
    + rewrite <- (Qmult_1_l 100) at 2. apply Qmult_le_compat_r; [|discriminate].
      apply Qle_shift_div_r; [exact Hp|]. rewrite Qmult_1_l. rewrite <- Zle_Qle. exact Hle.
Qed.

(* ------------------------------------------------------------------ *)
(** ** pcap_analyzer_v4.py: flow table *)

Section V4Table.
Import V4.

Lemma v4_new_inv a p b q : v4_flow_inv 0 (new_FlowMetrics a p b q).
Proof. unfold v4_flow_inv, new_FlowMetrics. cbn [retransmissions seen_seqs packet_count zero_window_count syn_count syn_ack_count rtt_samples jitter_samples].
  rewrite size_empty. repeat split; try lia; constructor. Qed.

Lemma v4_basic_inv flags len f :
  v4_flow_inv 0 f -> v4_flow_inv 1 (basic_process flags len f).
Proof.
  intros (H1 & H2 & H3 & H4 & H5 & H6 & H7 & H8 & H9). unfold basic_process, v4_flow_inv. cbn.
  destruct (has_flag flags TH_SYN), (has_flag flags TH_ACK); cbn; repeat split; try lia; assumption.
Qed.

Lemma v4_resolve_inv n ack ok rtt f :
  (ok = true -> 0 < rtt /\ rtt < 5) ->
  v4_flow_inv n f -> v4_flow_inv n (resolve_ack ack ok rtt f).
Proof.
  intros Hok (H1 & H2 & H3 & H4 & H5 & H6 & H7 & H8 & H9). unfold resolve_ack, v4_flow_inv. cbn.
  repeat split; try assumption.
  destruct ok; [|assumption]. apply Forall_app; split; [assumption|constructor; [|constructor]].
  now apply Hok.
Qed.

Lemma v4_rtt_inv n seq len ts f :
  v4_flow_inv n f -> v4_flow_inv n (rtt_process seq len ts f).
Proof.
  intros (H1 & H2 & H3 & H4 & H5 & H6 & H7 & H8 & H9). unfold rtt_process, v4_flow_inv. cbn.
  repeat split; try assumption.
  destruct (qltb 0 (last_packet_ts f)); [|assumption].
  destruct (qltb (ts - last_packet_ts f) 1) eqn:E; [|assumption].
  apply Forall_app; split; [assumption|constructor; [|constructor]]. now apply qltb_true.
Qed.

Lemma v4_anomaly_inv seq len win flags f :
  v4_flow_inv 1 f -> v4_flow_inv 0 (anomaly_process seq len win flags f).
Proof.
  intros (H1 & H2 & H3 & H4 & H5 & H6 & H7 & H8 & H9). unfold anomaly_process, v4_flow_inv.
  destruct (Z.ltb 0 len).
  - case_bool_decide as Hin; cbn.
    + destruct (_ && _); cbn; repeat split; try lia; assumption.
    + rewrite size_union by set_solver. rewrite size_singleton.
      destruct (_ && _); cbn; repeat split; try lia; assumption.
  - destruct (_ && _); cbn; repeat split; try lia; assumption.
Qed.

Lemma v4_fields_basic flags len f : v4_fields (basic_process flags len f) = v4_fields f.
Proof. reflexivity. Qed.
Lemma v4_fields_resolve ack ok rtt f : v4_fields (resolve_ack ack ok rtt f) = v4_fields f.
Proof. reflexivity. Qed.
Lemma v4_fields_rtt seq len ts f : v4_fields (rtt_process seq len ts f) = v4_fields f.
Proof. reflexivity. Qed.
Lemma v4_fields_anomaly seq len win flags f : v4_fields (anomaly_process seq len win flags f) = v4_fields f.
Proof. unfold anomaly_process. destruct (Z.ltb 0 len); [|reflexivity]. destruct (bool_decide _); reflexivity. Qed.

Lemma v4_pc_resolve ack ok rtt f : packet_count (resolve_ack ack ok rtt f) = packet_count f.
Proof. reflexivity. Qed.
Lemma v4_pc_rtt seq len ts f : packet_count (rtt_process seq len ts f) = packet_count f.
Proof. reflexivity. Qed.
Lemma v4_pc_anomaly seq len win flags f : packet_count (anomaly_process seq len win flags f) = packet_count f.
Proof. unfold anomaly_process. destruct (Z.ltb 0 len); [|reflexivity]. destruct (bool_decide _); reflexivity. Qed.

(** [modify] on a key of the table. *)
Lemma modify_lookup k g m f :
  m !! k = Some f -> modify k g m = <[k := g f]> m.
Proof. intros H. unfold modify, get_flow. rewrite H. reflexivity. Qed.

Lemma modify_dom k g m k' :
  is_Some (m !! k) -> is_Some (modify k g m !! k') <-> is_Some (m !! k').
Proof.
  intros [f Hf]. rewrite (modify_lookup _ _ _ _ Hf).
  destruct (decide (k' = k)) as [->|Hne].
  - rewrite lookup_insert_eq, Hf. split; eauto.
  - rewrite lookup_insert_ne by congruence. reflexivity.
Qed.

Lemma modify_forall (P : FlowKey -> FlowMetrics -> Prop) k g m :
  map_Forall P m -> (forall f, m !! k = Some f -> P k (g f)) ->
  is_Some (m !! k) -> map_Forall P (modify k g m).
Proof.
  intros Hm Hg [f Hf]. rewrite (modify_lookup _ _ _ _ Hf).
  apply map_Forall_insert_2; [exact (Hg f Hf)|exact Hm].
Qed.

Lemma modify_zsum k g m f :
  m !! k = Some f ->
  zsum_map packet_count (modify k g m) =
    (zsum_map packet_count m - packet_count f + packet_count (g f))%Z.
Proof.
  intros Hf. rewrite (modify_lookup _ _ _ _ Hf), zsum_map_insert, (zsum_map_delete _ _ _ _ Hf). lia.
Qed.

Lemma v4_flow_inv_weaken f : v4_flow_inv 1 f -> v4_flow_inv 0 f.
Proof. intros (H1 & H2 & H3 & H4 & H5). repeat split; try lia; tauto. Qed.

Lemma v4_ensure_inv (m : gmap FlowKey FlowMetrics) k f0 :
  map_Forall (fun k f => v4_flow_inv 0 f /\ v4_fields f = k) m ->
  v4_flow_inv 0 f0 -> v4_fields f0 = k ->
  map_Forall (fun k f => v4_flow_inv 0 f /\ v4_fields f = k)
    (match m !! k with Some _ => m | None => <[k := f0]> m end) /\
  is_Some ((match m !! k with Some _ => m | None => <[k := f0]> m end) !! k) /\
  (forall k', is_Some (m !! k') ->
     is_Some ((match m !! k with Some _ => m | None => <[k := f0]> m end) !! k')) /\
  (forall k', is_Some ((match m !! k with Some _ => m | None => <[k := f0]> m end) !! k') ->
     k' = k \/ is_Some (m !! k')) /\
  zsum_map packet_count (match m !! k with Some _ => m | None => <[k := f0]> m end) =
    (zsum_map packet_count m + (match m !! k with Some _ => 0 | None => packet_count f0 end))%Z.
Proof.
  intros Hm Hf0 Hk0. destruct (m !! k) as [f|] eqn:E.
  - split; [exact Hm|]. split; [eexists; exact E|]. split; [tauto|]. split; [tauto|lia].
  - split; [apply map_Forall_insert_2; [split; assumption|exact Hm]|].
    split; [rewrite lookup_insert_eq; eexists; reflexivity|].
    split.
    + intros k' [g Hg]. destruct (decide (k' = k)) as [->|Hne]; [congruence|].
      rewrite lookup_insert_ne by congruence. eexists; exact Hg.
    + split.
      * intros k' Hk'. destruct (decide (k' = k)) as [->|Hne]; [left; reflexivity|right].
        rewrite lookup_insert_ne in Hk' by congruence. exact Hk'.
      * rewrite zsum_map_insert, delete_id by exact E. lia.
Qed.

Lemma v4_basic_mid fk m f flags len :
  map_Forall (fun k f => v4_flow_inv 0 f /\ v4_fields f = k) m -> m !! fk = Some f ->
  v4_mid_inv fk (modify fk (basic_process flags len) m).
Proof.
  intros Hm Hf. rewrite (modify_lookup _ _ _ _ Hf). intros k g Hk.
  destruct (decide (k = fk)) as [->|Hne].
  - rewrite lookup_insert_eq in Hk. injection Hk as <-.
    destruct (map_Forall_lookup_1 _ _ _ _ Hm Hf) as [Hi Hfd].
    pose proof (v4_basic_inv flags len f Hi) as Hb.
    split; [exact (v4_flow_inv_weaken _ Hb)|]. split; [rewrite v4_fields_basic; exact Hfd|]. intros _; exact Hb.
  - rewrite lookup_insert_ne in Hk by congruence.
    destruct (map_Forall_lookup_1 _ _ _ _ Hm Hk) as [Hi Hfd].
    split; [exact Hi|]. split; [exact Hfd|]. intros E; congruence.
Qed.

Lemma v4_resolve_mid fk k m ack ok rtt :
  (ok = true -> 0 < rtt /\ rtt < 5) -> v4_mid_inv fk m -> is_Some (m !! k) ->
  v4_mid_inv fk (modify k (resolve_ack ack ok rtt) m).
Proof.
  intros Hok Hm Hk. apply modify_forall; [exact Hm| |exact Hk].
  intros f Hf. destruct (map_Forall_lookup_1 _ _ _ _ Hm Hf) as (H0 & Hfd & H1).
  split; [exact (v4_resolve_inv _ _ _ _ _ Hok H0)|].
  split; [rewrite v4_fields_resolve; exact Hfd|].
  intros E. exact (v4_resolve_inv _ _ _ _ _ Hok (H1 E)).
Qed.

Lemma v4_rtt_mid fk m seq len ts :
  v4_mid_inv fk m -> is_Some (m !! fk) ->
  v4_mid_inv fk (modify fk (rtt_process seq len ts) m).
Proof.
  intros Hm Hk. apply modify_forall; [exact Hm| |exact Hk].
  intros f Hf. destruct (map_Forall_lookup_1 _ _ _ _ Hm Hf) as (H0 & Hfd & H1).
  split; [exact (v4_rtt_inv _ _ _ _ _ H0)|].
  split; [rewrite v4_fields_rtt; exact Hfd|].
  intros E. exact (v4_rtt_inv _ _ _ _ _ (H1 E)).
Qed.

Lemma v4_anomaly_final fk m seq len win flags :
  v4_mid_inv fk m -> is_Some (m !! fk) ->
  map_Forall (fun k f => v4_flow_inv 0 f /\ v4_fields f = k)
    (modify fk (anomaly_process seq len win flags) m).
Proof.
  intros Hm Hk. apply modify_forall; [| |exact Hk].
  - eapply map_Forall_impl; [exact Hm|]. intros k f (H0 & Hfd & _). split; assumption.
  - intros f Hf. destruct (map_Forall_lookup_1 _ _ _ _ Hm Hf) as (_ & Hfd & H1).
    split; [exact (v4_anomaly_inv _ _ _ _ _ (H1 eq_refl))|].
    rewrite v4_fields_anomaly; exact Hfd.
Qed.

End V4Table.

Lemma v4_step_inv (st : V4.GlobalState) (s : Segment) :
  v4_state_inv st -> v4_state_inv (V4.process_packet st s).
Proof.
  intros (Hf & Hpair & Hsum).
  unfold V4.process_packet. cbv zeta. cbn [V4.flows V4.total_packets].
  set (fk := (seg_src s, seg_sport s, seg_dst s, seg_dport s)).
  set (rk := (seg_dst s, seg_dport s, seg_src s, seg_sport s)).
  destruct (v4_ensure_inv (V4.flows st) fk
              (V4.new_FlowMetrics (seg_src s) (seg_sport s) (seg_dst s) (seg_dport s))
              Hf (v4_new_inv _ _ _ _) eq_refl) as (Hf1 & Hfk1 & Hdom1 & Hor1 & Hs1).
  match goal with
  | |- context [match ?m1 !! rk with Some _ => _ | None => _ end] => set (M1 := m1) in *
  end.
  destruct (v4_ensure_inv M1 rk
              (V4.new_FlowMetrics (seg_dst s) (seg_dport s) (seg_src s) (seg_sport s))
              Hf1 (v4_new_inv _ _ _ _) eq_refl) as (Hf2 & Hrk2 & Hdom2 & Hor2 & Hs2).
  match goal with
  | |- context [V4.modify fk (V4.basic_process ?a ?b) ?m2] => set (M2 := m2) in *
  end.
  assert (Hfk2 : is_Some (M2 !! fk)) by exact (Hdom2 _ Hfk1).
  assert (Hpair2 : forall k, is_Some (M2 !! k) -> is_Some (M2 !! rev_key k)).
  { intros k Hk. destruct (Hor2 k Hk) as [->|Hk1]; [exact Hfk2|].
    destruct (Hor1 k Hk1) as [->|Hk0]; [exact Hrk2|].
    apply Hdom2, Hdom1, Hpair, Hk0. }
  assert (Hsum2 : zsum_map V4.packet_count M2 = V4.total_packets st).
  { rewrite Hs2, Hs1. destruct (V4.flows st !! fk), (M1 !! rk); cbn; lia. }
  clearbody M1 M2.
  destruct Hfk2 as [f2 Hf2k].
  set (M3 := V4.modify fk (V4.basic_process (seg_flags s) (seg_wire_len s)) M2).
  assert (Hm3 : v4_mid_inv fk M3) by exact (v4_basic_mid _ _ _ _ _ Hf2 Hf2k).
  assert (Hd3 : forall k, is_Some (M3 !! k) <-> is_Some (M2 !! k))
    by (intros k; apply modify_dom; eexists; exact Hf2k).
  assert (Hs3 : zsum_map V4.packet_count M3 = (V4.total_packets st + 1)%Z).
  { unfold M3. rewrite (modify_zsum _ _ _ _ Hf2k). cbn. lia. }
  clearbody M3.
  match goal with
  | |- context [V4.modify fk (V4.rtt_process ?a ?b ?c) ?m4] => set (M4 := m4)
  end.
  assert (H4 : v4_mid_inv fk M4 /\ (forall k, is_Some (M4 !! k) <-> is_Some (M3 !! k)) /\
               zsum_map V4.packet_count M4 = zsum_map V4.packet_count M3).
  { unfold M4. destruct (has_flag (seg_flags s) TH_ACK); [|split; [exact Hm3|split; [reflexivity|reflexivity]]].
    destruct (_ !! seg_ack s) as [sent|] eqn:Hsent; [|split; [exact Hm3|split; [reflexivity|reflexivity]]].
    destruct (M3 !! rk) as [g|] eqn:Hg.
    2: { exfalso. assert (Hr : is_Some (M3 !! rk)) by (apply Hd3; exact Hrk2).
         rewrite Hg in Hr. destruct Hr as [? Hr]. discriminate Hr. }
    split; [|split].
    - apply v4_resolve_mid; [|exact Hm3|eexists; exact Hg].
      intros Hok. apply andb_true_iff in Hok as [Ha Hb].
      split; apply qltb_true; assumption.
    - intros k. rewrite modify_dom by (eexists; exact Hg). reflexivity.
    - rewrite (modify_zsum _ _ _ _ Hg). rewrite v4_pc_resolve. lia. }
  destruct H4 as (Hm4 & Hd4 & Hs4). clearbody M4.
  assert (Hfk4 : is_Some (M4 !! fk)) by (apply Hd4, Hd3; eexists; exact Hf2k).
  set (M5 := V4.modify fk (V4.rtt_process (seg_seq s) (seg_payload_len s) (seg_ts s)) M4).
  assert (Hm5 : v4_mid_inv fk M5) by exact (v4_rtt_mid _ _ _ _ _ Hm4 Hfk4).
  assert (Hd5 : forall k, is_Some (M5 !! k) <-> is_Some (M4 !! k)) by (intros k; apply modify_dom, Hfk4).
  assert (Hs5 : zsum_map V4.packet_count M5 = zsum_map V4.packet_count M4).
  { destruct Hfk4 as [g Hg]. unfold M5. rewrite (modify_zsum _ _ _ _ Hg), v4_pc_rtt. lia. }
  assert (Hfk5 : is_Some (M5 !! fk)) by (apply Hd5; exact Hfk4).
  clearbody M5.
  split; [|split]; cbn [V4.flows V4.total_packets].
  - exact (v4_anomaly_final _ _ _ _ _ _ Hm5 Hfk5).
  - intros k Hk. apply modify_dom in Hk; [|exact Hfk5]. apply modify_dom; [exact Hfk5|].
    apply Hd5, Hd4, Hd3. apply Hd5, Hd4, Hd3 in Hk. exact (Hpair2 k Hk).
  - destruct Hfk5 as [g Hg]. rewrite (modify_zsum _ _ _ _ Hg), v4_pc_anomaly. lia.
Qed.


Lemma v4_init_inv : v4_state_inv V4.init_state.
Proof.
  split; [|split].
  - apply map_Forall_empty.
  - intros k Hk. cbn in Hk. rewrite lookup_empty in Hk. destruct Hk as [? Hk]; discriminate Hk.
  - cbn [V4.flows V4.init_state V4.total_packets]. apply zsum_map_empty.
Qed.

Lemma v4_run_fold (segs : list Segment) (st : V4.GlobalState) :
  v4_state_inv st ->
  v4_state_inv (fold_left V4.process_packet segs st) /\
  V4.total_packets (fold_left V4.process_packet segs st) = (V4.total_packets st + Z.of_nat (length segs))%Z.
Proof.
  revert st. induction segs as [|s segs IH]; intros st Hst; cbn [fold_left length].
  - split; [exact Hst|lia].
  - destruct (IH _ (v4_step_inv st s Hst)) as [H1 H2]. split; [exact H1|].
    rewrite H2. cbn [V4.process_packet V4.total_packets]. lia.
Qed.

Lemma v4_run_inv (segs : list Segment) :
  v4_state_inv (V4.run segs) /\ V4.total_packets (V4.run segs) = Z.of_nat (length segs).
Proof.
  unfold V4.run. destruct (v4_run_fold segs _ v4_init_inv) as [H1 H2].
  split; [exact H1|]. rewrite H2. cbn. lia.
Qed.

(** pcap_analyzer_v4.py, StreamAnalyzer.process_packet: every flow entry
    is keyed by its own endpoint fields and its counters are consistent. *)
Theorem v4_flow_counters (segs : list Segment) (k : V4.FlowKey) (f : V4.FlowMetrics)
    (Hk : V4.flows (V4.run segs) !! k = Some f) :
  (V4.src f, V4.sport f, V4.dst f, V4.dport f) = k /\
  (0 <= V4.retransmissions f)%Z /\
  (V4.retransmissions f + Z.of_nat (size (V4.seen_seqs f)) <= V4.packet_count f)%Z /\
  (0 <= V4.zero_window_count f <= V4.packet_count f)%Z /\
  (0 <= V4.syn_count f)%Z /\ (0 <= V4.syn_ack_count f)%Z /\
  (V4.syn_count f + V4.syn_ack_count f <= V4.packet_count f)%Z /\
  Forall (fun r => 0 < r /\ r < 5) (V4.rtt_samples f) /\
  Forall (fun d => d < 1) (V4.jitter_samples f).
Proof.
  destruct (v4_run_inv segs) as [(Hf & _) _].
  destruct (map_Forall_lookup_1 _ _ _ _ Hf Hk) as [(H1 & H2 & H3 & H4 & H5 & H6 & H7 & H8 & H9) Hfd].
  split; [exact Hfd|]. repeat split; try lia; assumption.
Qed.

(** pcap_analyzer_v4.py, StreamAnalyzer.process_packet: the flow table
    holds both directions of every connection seen. *)
Theorem v4_flows_paired (segs : list Segment) (a : string) (p : Z) (b : string) (q : Z)
    (Hk : is_Some (V4.flows (V4.run segs) !! (a, p, b, q))) :
  is_Some (V4.flows (V4.run segs) !! (b, q, a, p)).
Proof.
  destruct (v4_run_inv segs) as [(_ & Hp & _) _]. exact (Hp _ Hk).
Qed.

(** pcap_analyzer_v4.py: the packet counters of the flows add up to the
    global packet count, which is the number of TCP segments processed. *)
Theorem v4_packet_totals (segs : list Segment) :
  V4.total_packets (V4.run segs) = Z.of_nat (length segs) /\
  V4Report.total_pkts_tcp (V4.run segs) = Z.of_nat (length segs).
Proof.
  destruct (v4_run_inv segs) as [(_ & _ & Hs) Hn].
  unfold V4Report.total_pkts_tcp. rewrite Hs. split; exact Hn.
Qed.

(** pcap_analyzer_v4.py, ReportGenerator.generate: the retransmission
    rate is a percentage between 0 and 100. *)
Theorem v4_retrans_rate_range (segs : list Segment) :
  0 <= V4Report.retrans_rate (V4.run segs) <= 100.
Proof.
  destruct (v4_run_inv segs) as [(Hf & _ & _) _].
  set (st := V4.run segs) in *.
  assert (Hle : (V4Report.total_retrans st <= V4Report.total_pkts_tcp st)%Z).
  { apply zsum_map_le. eapply map_Forall_impl; [exact Hf|]. intros _ f [(H1 & H2 & _) _]. lia. }
  assert (H0 : (0 <= V4Report.total_retrans st)%Z).
  { apply zsum_map_nonneg. eapply map_Forall_impl; [exact Hf|]. intros _ f [(H1 & _) _]. exact H1. }
  unfold V4Report.retrans_rate.
  destruct (Z.eqb (V4Report.total_pkts_tcp st) 0) eqn:Hz.
  - split; discriminate.
  - apply Z.eqb_neq in Hz.
    assert (Hp : 0 < inject_Z (V4Report.total_pkts_tcp st)).
    { change 0 with (inject_Z 0). rewrite <- Zlt_Qlt. lia. }
    split.
    + apply Qmult_le_0_compat; [|discriminate].
      apply Qle_shift_div_l; [exact Hp|]. rewrite Qmult_0_l. apply Qnonneg_inject; lia.
    + rewrite <- (Qmult_1_l 100) at 2. apply Qmult_le_compat_r; [|discriminate].
      apply Qle_shift_div_r; [exact Hp|]. rewrite Qmult_1_l. rewrite <- Zle_Qle. exact Hle.
Qed.

Lemma v4_flow_counters_witness :
  let k := (Samples.A_ip, Samples.A_port, Samples.B_ip, Samples.B_port) in
  let f := default (V4.new_FlowMetrics EmptyString 0 EmptyString 0)
             (V4.flows (V4.run Samples.retrans_flow) !! k) in
  V4.retransmissions f = 1%Z /\
  (V4.retransmissions f + Z.of_nat (size (V4.seen_seqs f)) <= V4.packet_count f)%Z.
Proof.
  intros k f.
  assert (H : V4.flows (V4.run Samples.retrans_flow) !! k = Some f) by (vm_compute; reflexivity).
  split; [vm_compute; reflexivity|].
  exact (proj1 (proj2 (proj2 (v4_flow_counters Samples.retrans_flow k f H)))).
Defined.

Lemma v4_flows_paired_witness :
  is_Some (V4.flows (V4.run Samples.retrans_flow) !! (Samples.B_ip, Samples.B_port, Samples.A_ip, Samples.A_port)).
Proof.
  apply (v4_flows_paired Samples.retrans_flow Samples.A_ip Samples.A_port Samples.B_ip Samples.B_port).
  vm_compute. eexists; reflexivity.
Defined.
